(** * RemoteQueryExecutor: a shallow embedding and its properties

    The development follows [src/QueryPipeline/RemoteQueryExecutor.cpp]:
    the block adapter [adaptBlockStructure], the packet dispatch
    [processPacket], the synchronous and the suspendable read loops, the
    duplicate-UUID retry, and cancellation and draining.

    The executor is modelled sequentially, as one logical driver: every
    member function is a function from the executor state to a new state
    and an outcome.  Of the three mutexes, [was_cancelled_mutex] is
    represented where one thread meets it twice: in the retry that [read()]
    starts under its own guard.  [duplicated_part_uuids_mutex] and
    [external_tables_mutex] are never locked by a thread that holds them,
    and are not represented. *)

From Stdlib Require Import List String Ascii ZArith NArith Bool Arith Lia.
From Stdlib Require Import DecimalString.
Import ListNotations.

Set Implicit Arguments.

Local Open Scope string_scope.
Local Open Scope list_scope.
Local Open Scope nat_scope.

(* ================================================================== *)
(** * Outcomes of a call *)
(* ================================================================== *)

Module ErrorCodes.

(** The error codes the translation unit declares, and the ones raised by
    the block and column operations it calls. *)
Inductive t : Type :=
| LOGICAL_ERROR
| UNKNOWN_PACKET_FROM_SERVER
| DUPLICATED_PART_UUIDS
| SYSTEM_ERROR
| NOT_FOUND_COLUMN_IN_BLOCK
| PARAMETER_OUT_OF_BOUND
| OTHER (code : Z).

End ErrorCodes.

Record Exception : Type := mkException {
  code : ErrorCodes.t;
  message : string
}.

(** What a call does: it returns, it throws, it dereferences a null pointer
    ([Crashed]), it waits for a packet that the modelled input never
    delivers ([Blocked]), it locks a mutex that its own thread holds and so
    never returns ([Deadlocked]), or the model ran out of loop budget. *)
Inductive Outcome (A : Type) : Type :=
| Returned (a : A)
| Thrown (e : Exception)
| Crashed
| Blocked
| Deadlocked
| OutOfFuel.

Arguments Returned {A} a.
Arguments Thrown {A} e.
Arguments Crashed {A}.
Arguments Blocked {A}.
Arguments Deadlocked {A}.
Arguments OutOfFuel {A}.

Definition obind {A B : Type} (m : Outcome A) (k : A -> Outcome B) : Outcome B :=
  match m with
  | Returned a => k a
  | Thrown e => Thrown e
  | Crashed => Crashed
  | Blocked => Blocked
  | Deadlocked => Deadlocked
  | OutOfFuel => OutOfFuel
  end.

Declare Scope outcome_scope.
Delimit Scope outcome_scope with outcome.
Notation "'let!' x ':=' m 'in' k" := (obind m (fun x => k))
  (at level 10, x name, m at level 100, k at level 200) : outcome_scope.

(** [*p] for a pointer that may be null. *)
Definition deref {A : Type} (p : option A) : Outcome A :=
  match p with
  | Some a => Returned a
  | None => Crashed
  end.

(* ================================================================== *)
(** * Blocks and columns *)
(* ================================================================== *)

(** Modelled from the spec: the column classes ([IColumn], [ColumnConst])
    are not part of the sources.  A column is either a materialised vector
    of values or a constant (one value and a length); values are integers. *)
Definition Field : Type := Z.

Inductive IColumn : Type :=
| ColumnVector (data : list Field)
| ColumnConst (value : Field) (s : nat).

Definition ColumnPtr : Type := option IColumn.

(** Modelled from the spec: whether the column carries the constant
    marker. *)
Definition isColumnConst (c : IColumn) : bool :=
  match c with
  | ColumnConst _ _ => true
  | ColumnVector _ => false
  end.

(** Modelled from the spec: the number of rows of a column. *)
Definition size (c : IColumn) : nat :=
  match c with
  | ColumnVector d => List.length d
  | ColumnConst _ s => s
  end.

Definition resize_vector (d : list Field) (n : nat) : list Field :=
  firstn n d ++ repeat 0%Z (n - List.length d).

(** Modelled from the spec: [column->cloneResized(n)], the column resized to
    [n] rows; a vector is cut or padded with zeros. *)
Definition cloneResized (c : IColumn) (n : nat) : IColumn :=
  match c with
  | ColumnConst v _ => ColumnConst v n
  | ColumnVector d => ColumnVector (resize_vector d n)
  end.

(** Modelled from the spec: [column->cut(start, length)], by which the
    adapter takes one element; a vector refuses a range that leaves it, a
    constant only changes its length. *)
Definition cut (c : IColumn) (start len : nat) : Outcome IColumn :=
  match c with
  | ColumnConst v _ => Returned (ColumnConst v len)
  | ColumnVector d =>
      if start + len <=? List.length d
      then Returned (ColumnVector (firstn len (skipn start d)))
      else Thrown (mkException ErrorCodes.PARAMETER_OUT_OF_BOUND
                     "Parameters start and length are out of bound")
  end.

(** Modelled from the spec: [ColumnConst::create(column, n)], by which the
    adapter rematerializes a constant of [n] rows; the nested column must
    hold exactly one value. *)
Definition ColumnConst_create (c : IColumn) (n : nat) : Outcome IColumn :=
  match c with
  | ColumnVector [v] => Returned (ColumnConst v n)
  | ColumnVector _ =>
      Thrown (mkException ErrorCodes.LOGICAL_ERROR
                "Incorrect size of nested column in constructor of ColumnConst")
  | ColumnConst v _ => Returned (ColumnConst v n)
  end.

(** A data type is identified by its name. *)
Definition DataType : Type := string.

Record ColumnWithTypeAndName : Type := mkColumn {
  column : ColumnPtr;
  type : DataType;
  name : string
}.

Record BlockInfo : Type := mkBlockInfo {
  is_overflows : bool;
  bucket_num : Z
}.

Definition default_info : BlockInfo := mkBlockInfo false (-1).

(** Modelled from the spec: [Block] is not part of the sources.  A block is
    the sequence of its columns with their names and types, and the
    auxiliary info (bucket number, overflow flag). *)
Record Block : Type := mkBlock {
  data : list ColumnWithTypeAndName;
  info : BlockInfo
}.

(** [Block()] / [Block{}]. *)
Definition empty_block : Block := mkBlock [] default_info.

(** Modelled from the spec: [operator bool], the block is not empty: it has
    columns. *)
Definition block_bool (b : Block) : bool :=
  match data b with
  | [] => false
  | _ :: _ => true
  end.

Fixpoint rows_of (l : list ColumnWithTypeAndName) : nat :=
  match l with
  | [] => 0
  | e :: l' =>
      match column e with
      | Some c => size c
      | None => rows_of l'
      end
  end.

(** Modelled from the spec: [block.rows()], the row count: the size of the
    first column that is set. *)
Definition rows (b : Block) : nat := rows_of (data b).

(** Modelled from the spec: [block.has(name)], the block contains a column
    of that name. *)
Definition has (b : Block) (n : string) : bool :=
  existsb (fun e => String.eqb (name e) n) (data b).

(** Modelled from the spec: [block.getByName(name)], the first column of
    that name; a column the block lacks is an error. *)
Definition getByName (b : Block) (n : string) : Outcome ColumnWithTypeAndName :=
  match find (fun e => String.eqb (name e) n) (data b) with
  | Some e => Returned e
  | None => Thrown (mkException ErrorCodes.NOT_FOUND_COLUMN_IN_BLOCK
                      ("Not found column " ++ n ++ " in block")%string)
  end.

(** Modelled from the spec: [block.insert(elem)] appends a column. *)
Definition insert (b : Block) (e : ColumnWithTypeAndName) : Block :=
  mkBlock (data b ++ [e]) (info b).

Definition names (b : Block) : list string := map name (data b).

(** The schema of a block: the names and types of its columns, in order. *)
Definition schema (b : Block) : list (string * DataType) :=
  map (fun e => (name e, type e)) (data b).

(* ================================================================== *)
(** * The block adapter *)
(* ================================================================== *)

Section Adapter.

Local Open Scope outcome_scope.

(** [castColumn] (Interpreters/castColumn.h) is not part of the sources;
    the adapter is parametrised by it. *)
Variable castColumn : ColumnWithTypeAndName -> DataType -> Outcome ColumnPtr.

(** The body of the loop over the header: the column inserted for [elem]. *)
Definition adapted_column (block : Block) (elem : ColumnWithTypeAndName)
  : Outcome ColumnPtr :=
  let cast_from_block :=
    let! b := getByName block (name elem) in
    castColumn b (type elem) in
  match column elem with
  | Some expected =>
      if isColumnConst expected then
        if (0 <? rows block) && has block (name elem) then
          let! col := getByName block (name elem) in
          let! materialized := deref (column col) in
          let! first := cut materialized 0 1 in
          let! casted := castColumn (mkColumn (Some first) (type col) (name col))
                                    (type elem) in
          let! c := deref casted in
          if negb (isColumnConst c) then
            let! k := ColumnConst_create c (rows block) in
            Returned (Some k)
          else
            Returned (Some (cloneResized c (rows block)))
        else
          Returned (Some (cloneResized expected (rows block)))
      else cast_from_block
  | None => cast_from_block
  end.

Fixpoint adapt_loop (block : Block) (elems : list ColumnWithTypeAndName)
         (res : Block) : Outcome Block :=
  match elems with
  | [] => Returned res
  | elem :: rest =>
      let! c := adapted_column block elem in
      adapt_loop block rest (insert res (mkColumn c (type elem) (name elem)))
  end.

Definition adaptBlockStructure (block header : Block) : Outcome Block :=
  if negb (block_bool header) then Returned block
  else adapt_loop block (data header) (mkBlock [] (info block)).

End Adapter.

(* ================================================================== *)
(** * Packets *)
(* ================================================================== *)

Definition UUID : Type := N.

Module Protocol.

(** The packet kinds the executor consumes ([Protocol::Server]); [Other]
    stands for every tag that [processPacket] has no case for. *)
Inductive Server : Type :=
| Data
| Exception_
| Progress
| EndOfStream
| ProfileInfo
| Totals
| Extremes
| Log
| PartUUIDs
| ReadTaskRequest
| ProfileEvents
| MergeTreeAllRangesAnnounecement
| MergeTreeReadTaskRequest
| Other (tag : N).

End Protocol.

Definition ProgressDelta : Type := N.
Definition ProfileCounters : Type := N.
Definition ParallelReadRequest : Type := N.
Definition ParallelReadResponse : Type := N.
Definition InitialAllRangesAnnouncement : Type := N.

Module Packet.

(** [struct Packet]: the tag and one payload slot per kind. *)
Record t : Type := make {
  type : Protocol.Server;
  block : Block;
  exception : option Exception;
  progress : ProgressDelta;
  profile_info : ProfileCounters;
  part_uuids : list UUID;
  request : ParallelReadRequest;
  announcement : InitialAllRangesAnnouncement
}.

Definition of_type (ty : Protocol.Server) : t :=
  make ty empty_block None 0%N 0%N [] 0%N 0%N.

Definition with_block (ty : Protocol.Server) (b : Block) : t :=
  make ty b None 0%N 0%N [] 0%N 0%N.

Definition with_exception (e : Exception) : t :=
  make Protocol.Exception_ empty_block (Some e) 0%N 0%N [] 0%N 0%N.

Definition with_part_uuids (u : list UUID) : t :=
  make Protocol.PartUUIDs empty_block None 0%N 0%N u 0%N 0%N.

End Packet.

Module ReadResult.

Inductive Type_ : Type :=
| Data
| ParallelReplicasToken
| FileDescriptor
| Finished
| Nothing.

Record t : Type := make {
  type : Type_;
  block : Block;
  fd : Z
}.

(** The three constructors of the class. *)
Definition of_block (b : Block) : t := make Data b (-1).
Definition of_type (ty : Type_) : t := make ty empty_block (-1).
Definition of_fd (d : Z) : t := make FileDescriptor empty_block d.

Definition getType (r : t) : Type_ := type r.
Definition getBlock (r : t) : Block := block r.

Definition is_data_or_token (r : t) : bool :=
  match type r with
  | Data | ParallelReplicasToken => true
  | _ => false
  end.

Definition is_data (r : t) : bool :=
  match type r with
  | Data => true
  | _ => false
  end.

End ReadResult.

(* ================================================================== *)
(** * The collaborators of the executor *)
(* ================================================================== *)

Module QueryKind.
Inductive t : Type := NO_QUERY | INITIAL_QUERY | SECONDARY_QUERY.
End QueryKind.

Module QueryProcessingStage.
Inductive Enum : Type := FetchColumns | WithMergeableState | Complete.
End QueryProcessingStage.

(** Every call the executor makes on its connections, in order.  The trace
    is ghost state: it exists to state what was put on, or taken from, the
    wire. *)
Inductive Event : Type :=
| SendIgnoredPartUUIDs (uuids : list UUID)
| SendQuery (query : string) (stage : QueryProcessingStage.Enum) (kind : QueryKind.t)
| SendScalarsData (n : nat)
| SendExternalTablesData (n : nat)
| SendCancel
| SendReadTaskResponse (response : string)
| SendMergeTreeReadTaskResponse (response : ParallelReadResponse)
| ReceivePacket (ty : Protocol.Server)
| Drain
| Disconnect.

Definition is_send_query (e : Event) : bool :=
  match e with
  | SendQuery _ _ _ => true
  | _ => false
  end.

(** A packet as it arrives, with what [hasActiveConnections] answers once it
    has been received. *)
Record Arrival : Type := mkArrival {
  arrived : Packet.t;
  active_after : bool
}.

(** Modelled from the spec: [IConnections] and its variants are not part of
    the sources.  The capability set is reduced to what the executor
    observes: the fan-out size, the packets that [receivePacket] will
    deliver, whether a connection is still active, the dumped addresses and
    the packet that [drain] hands back. *)
Record Connections : Type := mkConnections {
  conn_size : nat;
  inbound : list Arrival;
  active : bool;
  addresses : string;
  drained : Packet.t
}.

(** Modelled from the spec: [RemoteQueryExecutorReadContext] is not part of
    the sources; section 4.7 of the specification gives its contract. *)
Record ReadContext : Type := mkReadContext {
  rc_is_cancelled : bool;
  rc_is_in_progress : bool;
  rc_is_query_sent : bool;
  rc_packet : Packet.t;
  rc_suspend_when_query_sent : bool;
  rc_fd : Z
}.

Record ExternalTableData : Type := mkExternalTableData {
  table_name : string;
  is_cancelled : bool
}.

(** Modelled from the spec: the per-thread queue of profile events, whose
    push can fail; it fails once the queue is finished. *)
Record ProfileQueue : Type := mkProfileQueue {
  pq_items : list Block;
  pq_finished : bool
}.

Inductive Notification : Type :=
| ProgressCallback (p : ProgressDelta)
| ProfileInfoCallback (p : ProfileCounters)
| AllRangesAnnounced (a : InitialAllRangesAnnouncement).

Record Settings : Type := mkSettings {
  skip_unavailable_shards : bool;
  enable_scalar_subquery_optimization : bool
}.

(* ================================================================== *)
(** * The executor *)
(* ================================================================== *)

(** The members of [RemoteQueryExecutor], followed by the ambient state it
    reaches through its context and the current thread.

    - [external_tables] pairs a table name with whether its storage is a
      [StorageMemory];
    - [task_iterator] holds the responses the iterator has yet to produce;
    - [create_connections] is the deferred factory, [created] the number of
      times it has been invoked (the factory's argument);
    - [progress_callback] and [profile_info_callback] say whether an observer
      is registered, [notified] lists the calls made on the observers and on
      the coordinator;
    - [query_part_uuids] is the query-wide tracker of part UUIDs,
      [logs_queue] and [profile_queue] the queues of the current thread;
    - [async_fd] is the descriptor a read context polls;
    - [trace] is the ghost log of the calls made on the connections. *)
Record Executor : Type := mkExecutor {
  header : Block;
  query : string;
  query_id : string;
  settings : Settings;
  scalars : list (string * Block);
  external_tables : list (string * bool);
  stage : QueryProcessingStage.Enum;
  task_iterator : option (list string);
  parallel_reading_coordinator : option (ParallelReadRequest -> ParallelReadResponse);
  create_connections : nat -> Connections;
  created : nat;
  connections : option Connections;
  read_context : option ReadContext;
  sent_query : bool;
  established : bool;
  was_cancelled : bool;
  finished : bool;
  resent_query : bool;
  recreate_read_context : bool;
  got_duplicated_part_uuids : bool;
  got_exception_from_replica : bool;
  got_unknown_packet_from_replica : bool;
  duplicated_part_uuids : list UUID;
  totals : Block;
  extremes : Block;
  external_tables_data : list (list ExternalTableData);
  progress_callback : bool;
  profile_info_callback : bool;
  async_fd : Z;
  query_part_uuids : list UUID;
  logs_queue : option (list Block);
  profile_queue : option ProfileQueue;
  notified : list Notification;
  trace : list Event
}.

Definition set_task_iterator (v : option (list string)) (s : Executor) : Executor :=
  mkExecutor (header s) (query s) (query_id s) (settings s) (scalars s)
    (external_tables s) (stage s) v (parallel_reading_coordinator s)
    (create_connections s) (created s) (connections s) (read_context s)
    (sent_query s) (established s) (was_cancelled s) (finished s)
    (resent_query s) (recreate_read_context s) (got_duplicated_part_uuids s)
    (got_exception_from_replica s) (got_unknown_packet_from_replica s)
    (duplicated_part_uuids s) (totals s) (extremes s) (external_tables_data
    s) (progress_callback s) (profile_info_callback s) (async_fd s)
    (query_part_uuids s) (logs_queue s) (profile_queue s) (notified s)
    (trace s).

Definition set_created (v : nat) (s : Executor) : Executor :=
  mkExecutor (header s) (query s) (query_id s) (settings s) (scalars s)
    (external_tables s) (stage s) (task_iterator s)
    (parallel_reading_coordinator s) (create_connections s) v (connections
    s) (read_context s) (sent_query s) (established s) (was_cancelled s)
    (finished s) (resent_query s) (recreate_read_context s)
    (got_duplicated_part_uuids s) (got_exception_from_replica s)
    (got_unknown_packet_from_replica s) (duplicated_part_uuids s) (totals s)
    (extremes s) (external_tables_data s) (progress_callback s)
    (profile_info_callback s) (async_fd s) (query_part_uuids s) (logs_queue
    s) (profile_queue s) (notified s) (trace s).

Definition set_connections (v : option Connections) (s : Executor) : Executor :=
  mkExecutor (header s) (query s) (query_id s) (settings s) (scalars s)
    (external_tables s) (stage s) (task_iterator s)
    (parallel_reading_coordinator s) (create_connections s) (created s) v
    (read_context s) (sent_query s) (established s) (was_cancelled s)
    (finished s) (resent_query s) (recreate_read_context s)
    (got_duplicated_part_uuids s) (got_exception_from_replica s)
    (got_unknown_packet_from_replica s) (duplicated_part_uuids s) (totals s)
    (extremes s) (external_tables_data s) (progress_callback s)
    (profile_info_callback s) (async_fd s) (query_part_uuids s) (logs_queue
    s) (profile_queue s) (notified s) (trace s).

Definition set_read_context (v : option ReadContext) (s : Executor) : Executor :=
  mkExecutor (header s) (query s) (query_id s) (settings s) (scalars s)
    (external_tables s) (stage s) (task_iterator s)
    (parallel_reading_coordinator s) (create_connections s) (created s)
    (connections s) v (sent_query s) (established s) (was_cancelled s)
    (finished s) (resent_query s) (recreate_read_context s)
    (got_duplicated_part_uuids s) (got_exception_from_replica s)
    (got_unknown_packet_from_replica s) (duplicated_part_uuids s) (totals s)
    (extremes s) (external_tables_data s) (progress_callback s)
    (profile_info_callback s) (async_fd s) (query_part_uuids s) (logs_queue
    s) (profile_queue s) (notified s) (trace s).

Definition set_sent_query (v : bool) (s : Executor) : Executor :=
  mkExecutor (header s) (query s) (query_id s) (settings s) (scalars s)
    (external_tables s) (stage s) (task_iterator s)
    (parallel_reading_coordinator s) (create_connections s) (created s)
    (connections s) (read_context s) v (established s) (was_cancelled s)
    (finished s) (resent_query s) (recreate_read_context s)
    (got_duplicated_part_uuids s) (got_exception_from_replica s)
    (got_unknown_packet_from_replica s) (duplicated_part_uuids s) (totals s)
    (extremes s) (external_tables_data s) (progress_callback s)
    (profile_info_callback s) (async_fd s) (query_part_uuids s) (logs_queue
    s) (profile_queue s) (notified s) (trace s).

Definition set_established (v : bool) (s : Executor) : Executor :=
  mkExecutor (header s) (query s) (query_id s) (settings s) (scalars s)
    (external_tables s) (stage s) (task_iterator s)
    (parallel_reading_coordinator s) (create_connections s) (created s)
    (connections s) (read_context s) (sent_query s) v (was_cancelled s)
    (finished s) (resent_query s) (recreate_read_context s)
    (got_duplicated_part_uuids s) (got_exception_from_replica s)
    (got_unknown_packet_from_replica s) (duplicated_part_uuids s) (totals s)
    (extremes s) (external_tables_data s) (progress_callback s)
    (profile_info_callback s) (async_fd s) (query_part_uuids s) (logs_queue
    s) (profile_queue s) (notified s) (trace s).

Definition set_was_cancelled (v : bool) (s : Executor) : Executor :=
  mkExecutor (header s) (query s) (query_id s) (settings s) (scalars s)
    (external_tables s) (stage s) (task_iterator s)
    (parallel_reading_coordinator s) (create_connections s) (created s)
    (connections s) (read_context s) (sent_query s) (established s) v
    (finished s) (resent_query s) (recreate_read_context s)
    (got_duplicated_part_uuids s) (got_exception_from_replica s)
    (got_unknown_packet_from_replica s) (duplicated_part_uuids s) (totals s)
    (extremes s) (external_tables_data s) (progress_callback s)
    (profile_info_callback s) (async_fd s) (query_part_uuids s) (logs_queue
    s) (profile_queue s) (notified s) (trace s).

Definition set_finished (v : bool) (s : Executor) : Executor :=
  mkExecutor (header s) (query s) (query_id s) (settings s) (scalars s)
    (external_tables s) (stage s) (task_iterator s)
    (parallel_reading_coordinator s) (create_connections s) (created s)
    (connections s) (read_context s) (sent_query s) (established s)
    (was_cancelled s) v (resent_query s) (recreate_read_context s)
    (got_duplicated_part_uuids s) (got_exception_from_replica s)
    (got_unknown_packet_from_replica s) (duplicated_part_uuids s) (totals s)
    (extremes s) (external_tables_data s) (progress_callback s)
    (profile_info_callback s) (async_fd s) (query_part_uuids s) (logs_queue
    s) (profile_queue s) (notified s) (trace s).

Definition set_resent_query (v : bool) (s : Executor) : Executor :=
  mkExecutor (header s) (query s) (query_id s) (settings s) (scalars s)
    (external_tables s) (stage s) (task_iterator s)
    (parallel_reading_coordinator s) (create_connections s) (created s)
    (connections s) (read_context s) (sent_query s) (established s)
    (was_cancelled s) (finished s) v (recreate_read_context s)
    (got_duplicated_part_uuids s) (got_exception_from_replica s)
    (got_unknown_packet_from_replica s) (duplicated_part_uuids s) (totals s)
    (extremes s) (external_tables_data s) (progress_callback s)
    (profile_info_callback s) (async_fd s) (query_part_uuids s) (logs_queue
    s) (profile_queue s) (notified s) (trace s).

Definition set_recreate_read_context (v : bool) (s : Executor) : Executor :=
  mkExecutor (header s) (query s) (query_id s) (settings s) (scalars s)
    (external_tables s) (stage s) (task_iterator s)
    (parallel_reading_coordinator s) (create_connections s) (created s)
    (connections s) (read_context s) (sent_query s) (established s)
    (was_cancelled s) (finished s) (resent_query s) v
    (got_duplicated_part_uuids s) (got_exception_from_replica s)
    (got_unknown_packet_from_replica s) (duplicated_part_uuids s) (totals s)
    (extremes s) (external_tables_data s) (progress_callback s)
    (profile_info_callback s) (async_fd s) (query_part_uuids s) (logs_queue
    s) (profile_queue s) (notified s) (trace s).

Definition set_got_duplicated_part_uuids (v : bool) (s : Executor) : Executor :=
  mkExecutor (header s) (query s) (query_id s) (settings s) (scalars s)
    (external_tables s) (stage s) (task_iterator s)
    (parallel_reading_coordinator s) (create_connections s) (created s)
    (connections s) (read_context s) (sent_query s) (established s)
    (was_cancelled s) (finished s) (resent_query s) (recreate_read_context
    s) v (got_exception_from_replica s) (got_unknown_packet_from_replica s)
    (duplicated_part_uuids s) (totals s) (extremes s) (external_tables_data
    s) (progress_callback s) (profile_info_callback s) (async_fd s)
    (query_part_uuids s) (logs_queue s) (profile_queue s) (notified s)
    (trace s).

Definition set_got_exception_from_replica (v : bool) (s : Executor) : Executor :=
  mkExecutor (header s) (query s) (query_id s) (settings s) (scalars s)
    (external_tables s) (stage s) (task_iterator s)
    (parallel_reading_coordinator s) (create_connections s) (created s)
    (connections s) (read_context s) (sent_query s) (established s)
    (was_cancelled s) (finished s) (resent_query s) (recreate_read_context
    s) (got_duplicated_part_uuids s) v (got_unknown_packet_from_replica s)
    (duplicated_part_uuids s) (totals s) (extremes s) (external_tables_data
    s) (progress_callback s) (profile_info_callback s) (async_fd s)
    (query_part_uuids s) (logs_queue s) (profile_queue s) (notified s)
    (trace s).

Definition set_got_unknown_packet_from_replica (v : bool) (s : Executor) : Executor :=
  mkExecutor (header s) (query s) (query_id s) (settings s) (scalars s)
    (external_tables s) (stage s) (task_iterator s)
    (parallel_reading_coordinator s) (create_connections s) (created s)
    (connections s) (read_context s) (sent_query s) (established s)
    (was_cancelled s) (finished s) (resent_query s) (recreate_read_context
    s) (got_duplicated_part_uuids s) (got_exception_from_replica s) v
    (duplicated_part_uuids s) (totals s) (extremes s) (external_tables_data
    s) (progress_callback s) (profile_info_callback s) (async_fd s)
    (query_part_uuids s) (logs_queue s) (profile_queue s) (notified s)
    (trace s).

Definition set_duplicated_part_uuids (v : list UUID) (s : Executor) : Executor :=
  mkExecutor (header s) (query s) (query_id s) (settings s) (scalars s)
    (external_tables s) (stage s) (task_iterator s)
    (parallel_reading_coordinator s) (create_connections s) (created s)
    (connections s) (read_context s) (sent_query s) (established s)
    (was_cancelled s) (finished s) (resent_query s) (recreate_read_context
    s) (got_duplicated_part_uuids s) (got_exception_from_replica s)
    (got_unknown_packet_from_replica s) v (totals s) (extremes s)
    (external_tables_data s) (progress_callback s) (profile_info_callback s)
    (async_fd s) (query_part_uuids s) (logs_queue s) (profile_queue s)
    (notified s) (trace s).

Definition set_totals (v : Block) (s : Executor) : Executor :=
  mkExecutor (header s) (query s) (query_id s) (settings s) (scalars s)
    (external_tables s) (stage s) (task_iterator s)
    (parallel_reading_coordinator s) (create_connections s) (created s)
    (connections s) (read_context s) (sent_query s) (established s)
    (was_cancelled s) (finished s) (resent_query s) (recreate_read_context
    s) (got_duplicated_part_uuids s) (got_exception_from_replica s)
    (got_unknown_packet_from_replica s) (duplicated_part_uuids s) v
    (extremes s) (external_tables_data s) (progress_callback s)
    (profile_info_callback s) (async_fd s) (query_part_uuids s) (logs_queue
    s) (profile_queue s) (notified s) (trace s).

Definition set_extremes (v : Block) (s : Executor) : Executor :=
  mkExecutor (header s) (query s) (query_id s) (settings s) (scalars s)
    (external_tables s) (stage s) (task_iterator s)
    (parallel_reading_coordinator s) (create_connections s) (created s)
    (connections s) (read_context s) (sent_query s) (established s)
    (was_cancelled s) (finished s) (resent_query s) (recreate_read_context
    s) (got_duplicated_part_uuids s) (got_exception_from_replica s)
    (got_unknown_packet_from_replica s) (duplicated_part_uuids s) (totals s)
    v (external_tables_data s) (progress_callback s) (profile_info_callback
    s) (async_fd s) (query_part_uuids s) (logs_queue s) (profile_queue s)
    (notified s) (trace s).

Definition set_external_tables_data (v : list (list ExternalTableData)) (s : Executor) : Executor :=
  mkExecutor (header s) (query s) (query_id s) (settings s) (scalars s)
    (external_tables s) (stage s) (task_iterator s)
    (parallel_reading_coordinator s) (create_connections s) (created s)
    (connections s) (read_context s) (sent_query s) (established s)
    (was_cancelled s) (finished s) (resent_query s) (recreate_read_context
    s) (got_duplicated_part_uuids s) (got_exception_from_replica s)
    (got_unknown_packet_from_replica s) (duplicated_part_uuids s) (totals s)
    (extremes s) v (progress_callback s) (profile_info_callback s) (async_fd
    s) (query_part_uuids s) (logs_queue s) (profile_queue s) (notified s)
    (trace s).

Definition set_query_part_uuids (v : list UUID) (s : Executor) : Executor :=
  mkExecutor (header s) (query s) (query_id s) (settings s) (scalars s)
    (external_tables s) (stage s) (task_iterator s)
    (parallel_reading_coordinator s) (create_connections s) (created s)
    (connections s) (read_context s) (sent_query s) (established s)
    (was_cancelled s) (finished s) (resent_query s) (recreate_read_context
    s) (got_duplicated_part_uuids s) (got_exception_from_replica s)
    (got_unknown_packet_from_replica s) (duplicated_part_uuids s) (totals s)
    (extremes s) (external_tables_data s) (progress_callback s)
    (profile_info_callback s) (async_fd s) v (logs_queue s) (profile_queue
    s) (notified s) (trace s).

Definition set_logs_queue (v : option (list Block)) (s : Executor) : Executor :=
  mkExecutor (header s) (query s) (query_id s) (settings s) (scalars s)
    (external_tables s) (stage s) (task_iterator s)
    (parallel_reading_coordinator s) (create_connections s) (created s)
    (connections s) (read_context s) (sent_query s) (established s)
    (was_cancelled s) (finished s) (resent_query s) (recreate_read_context
    s) (got_duplicated_part_uuids s) (got_exception_from_replica s)
    (got_unknown_packet_from_replica s) (duplicated_part_uuids s) (totals s)
    (extremes s) (external_tables_data s) (progress_callback s)
    (profile_info_callback s) (async_fd s) (query_part_uuids s) v
    (profile_queue s) (notified s) (trace s).

Definition set_profile_queue (v : option ProfileQueue) (s : Executor) : Executor :=
  mkExecutor (header s) (query s) (query_id s) (settings s) (scalars s)
    (external_tables s) (stage s) (task_iterator s)
    (parallel_reading_coordinator s) (create_connections s) (created s)
    (connections s) (read_context s) (sent_query s) (established s)
    (was_cancelled s) (finished s) (resent_query s) (recreate_read_context
    s) (got_duplicated_part_uuids s) (got_exception_from_replica s)
    (got_unknown_packet_from_replica s) (duplicated_part_uuids s) (totals s)
    (extremes s) (external_tables_data s) (progress_callback s)
    (profile_info_callback s) (async_fd s) (query_part_uuids s) (logs_queue
    s) v (notified s) (trace s).

Definition set_notified (v : list Notification) (s : Executor) : Executor :=
  mkExecutor (header s) (query s) (query_id s) (settings s) (scalars s)
    (external_tables s) (stage s) (task_iterator s)
    (parallel_reading_coordinator s) (create_connections s) (created s)
    (connections s) (read_context s) (sent_query s) (established s)
    (was_cancelled s) (finished s) (resent_query s) (recreate_read_context
    s) (got_duplicated_part_uuids s) (got_exception_from_replica s)
    (got_unknown_packet_from_replica s) (duplicated_part_uuids s) (totals s)
    (extremes s) (external_tables_data s) (progress_callback s)
    (profile_info_callback s) (async_fd s) (query_part_uuids s) (logs_queue
    s) (profile_queue s) v (trace s).

Definition set_trace (v : list Event) (s : Executor) : Executor :=
  mkExecutor (header s) (query s) (query_id s) (settings s) (scalars s)
    (external_tables s) (stage s) (task_iterator s)
    (parallel_reading_coordinator s) (create_connections s) (created s)
    (connections s) (read_context s) (sent_query s) (established s)
    (was_cancelled s) (finished s) (resent_query s) (recreate_read_context
    s) (got_duplicated_part_uuids s) (got_exception_from_replica s)
    (got_unknown_packet_from_replica s) (duplicated_part_uuids s) (totals s)
    (extremes s) (external_tables_data s) (progress_callback s)
    (profile_info_callback s) (async_fd s) (query_part_uuids s) (logs_queue
    s) (profile_queue s) (notified s) v.

(* ================================================================== *)
(** * Calls as state transformers *)
(* ================================================================== *)

(** A member function: from the executor to the executor it leaves behind
    and the outcome of the call.  A throw keeps the state reached so far. *)
Definition M (A : Type) : Type := Executor -> Executor * Outcome A.

Definition ret {A : Type} (a : A) : M A := fun s => (s, Returned a).

Definition bind {A B : Type} (m : M A) (k : A -> M B) : M B :=
  fun s =>
    match m s with
    | (s', Returned a) => k a s'
    | (s', Thrown e) => (s', Thrown e)
    | (s', Crashed) => (s', Crashed)
    | (s', Blocked) => (s', Blocked)
    | (s', Deadlocked) => (s', Deadlocked)
    | (s', OutOfFuel) => (s', OutOfFuel)
    end.

Definition lift {A : Type} (o : Outcome A) : M A := fun s => (s, o).
Definition throw {A : Type} (c : ErrorCodes.t) (msg : string) : M A :=
  lift (Thrown (mkException c msg)).
Definition gets {A : Type} (f : Executor -> A) : M A := fun s => (s, Returned (f s)).
Definition modify (f : Executor -> Executor) : M unit := fun s => (f s, Returned tt).

Declare Scope exec_scope.
Delimit Scope exec_scope with exec.
Notation "x <- m ;; k" := (bind m (fun x => k))
  (at level 61, m at next level, right associativity) : exec_scope.
Notation "m ;; k" := (bind m (fun _ => k))
  (at level 61, right associativity) : exec_scope.

Local Open Scope exec_scope.

Definition when (b : bool) (m : M unit) : M unit :=
  if b then m else ret tt.

Definition emit (e : Event) : M unit :=
  modify (fun s => set_trace (trace s ++ [e]) s).

Definition notify (n : Notification) : M unit :=
  modify (fun s => set_notified (notified s ++ [n]) s).

(** ** The connections, as the executor calls them *)

(** [connections->...] on the live instance; a null [connections] crashes. *)
Definition the_connections : M Connections :=
  c <- gets connections ;; lift (deref c).

Definition receivePacket : M Packet.t :=
  c <- the_connections ;;
  match inbound c with
  | [] => lift Blocked
  | a :: rest =>
      modify (set_connections
                (Some (mkConnections (conn_size c) rest (active_after a)
                                     (addresses c) (drained c)))) ;;
      emit (ReceivePacket (Packet.type (arrived a))) ;;
      ret (arrived a)
  end.

Definition hasActiveConnections : M bool :=
  c <- the_connections ;; ret (active c).

Definition dumpAddresses : M string :=
  c <- the_connections ;; ret (addresses c).

Definition connections_size : M nat :=
  c <- the_connections ;; ret (conn_size c).

Definition on_connections (e : Event) : M unit :=
  _ <- the_connections ;; emit e.

Definition drain : M Packet.t :=
  c <- the_connections ;; emit Drain ;; ret (drained c).

(** Modelled from the spec: [needToSkipUnavailableShard()] is declared in
    the header, which is not part of the sources: the setting is on and the
    factory produced no usable connection.  [read()] spells the same test
    out. *)
Definition needToSkipUnavailableShard : M bool :=
  skip <- gets (fun s => skip_unavailable_shards (settings s)) ;;
  if skip then (n <- connections_size ;; ret (n =? 0)) else ret false.

(** ** The tags on the wire *)

(** Modelled from the spec: Core/Protocol.h is not part of the sources; the
    numbering is only used to print a tag in an error message. *)
Definition tag_of (ty : Protocol.Server) : N :=
  match ty with
  | Protocol.Data => 1
  | Protocol.Exception_ => 2
  | Protocol.Progress => 3
  | Protocol.EndOfStream => 5
  | Protocol.ProfileInfo => 6
  | Protocol.Totals => 7
  | Protocol.Extremes => 8
  | Protocol.Log => 10
  | Protocol.PartUUIDs => 12
  | Protocol.ReadTaskRequest => 13
  | Protocol.ProfileEvents => 14
  | Protocol.MergeTreeAllRangesAnnounecement => 15
  | Protocol.MergeTreeReadTaskRequest => 16
  | Protocol.Other tag => tag
  end%N.

Definition toString (n : N) : string := NilZero.string_of_uint (N.to_uint n).

Definition unknown_packet_message (ty : Protocol.Server) (dumped : string) : string :=
  ("Unknown packet " ++ toString (tag_of ty)
     ++ " from one of the following replicas: " ++ dumped)%string.

(** ** State queries *)

Definition isQueryPending (s : Executor) : bool :=
  match read_context s with
  | Some _ => negb (finished s)
  | None => false
  end.

Definition hasThrownException (s : Executor) : bool :=
  got_exception_from_replica s || got_unknown_packet_from_replica s.

(* ================================================================== *)
(** * The member functions *)
(* ================================================================== *)

Section Executor.

Variable castColumn : ColumnWithTypeAndName -> DataType -> Outcome ColumnPtr.

(** Whether the build defines [OS_LINUX]. *)
Variable OS_LINUX : bool.

(** ** Sending *)

Definition sendScalars : M unit :=
  sc <- gets scalars ;;
  on_connections (SendScalarsData (List.length sc)).

(** One entry per connection, each with one stream per external table held
    in memory; the other tables are skipped. *)
Definition sendExternalTables : M unit :=
  count <- connections_size ;;
  tables <- gets external_tables ;;
  let res := map (fun t => mkExternalTableData (fst t) false)
                 (filter (fun t => snd t) tables) in
  modify (set_external_tables_data (repeat res count)) ;;
  on_connections (SendExternalTablesData count).

Definition sendQuery (query_kind : QueryKind.t) : M unit :=
  sent <- gets sent_query ;;
  if sent then ret tt else
  modify (fun s => set_created (S (created s))
                     (set_connections (Some (create_connections s (created s))) s)) ;;
  skip <- needToSkipUnavailableShard ;;
  if skip then ret tt else
  cancelled <- gets was_cancelled ;;
  if cancelled then ret tt else
  modify (set_established true) ;;
  modify (set_was_cancelled false) ;;
  dups <- gets duplicated_part_uuids ;;
  when (negb (match dups with [] => true | _ => false end))
       (on_connections (SendIgnoredPartUUIDs dups)) ;;
  q <- gets query ;;
  st <- gets stage ;;
  on_connections (SendQuery q st query_kind) ;;
  modify (set_established false) ;;
  modify (set_sent_query true) ;;
  scalar_optimization <- gets (fun s => enable_scalar_subquery_optimization (settings s)) ;;
  when scalar_optimization sendScalars ;;
  sendExternalTables.

(** ** Packet dispatch *)

(** Modelled from the spec: the query-wide tracker of part UUIDs is not
    part of the sources.  It reports the offered UUIDs it already holds and
    registers the offer only when there is none. *)
Definition PartUUIDs_add (uuids : list UUID) : M (list UUID) :=
  known <- gets query_part_uuids ;;
  let duplicates := filter (fun u => existsb (N.eqb u) known) uuids in
  match duplicates with
  | [] => modify (set_query_part_uuids (known ++ uuids)) ;; ret []
  | _ :: _ => ret duplicates
  end.

Definition setPartUUIDs (uuids : list UUID) : M bool :=
  duplicates <- PartUUIDs_add uuids ;;
  match duplicates with
  | [] => ret true
  | _ :: _ =>
      modify (fun s => set_duplicated_part_uuids
                         (duplicates ++ duplicated_part_uuids s) s) ;;
      ret false
  end.

Definition processReadTaskRequest : M unit :=
  it <- gets task_iterator ;;
  match it with
  | None => throw ErrorCodes.LOGICAL_ERROR "Distributed task iterator is not initialized"
  | Some pending =>
      let response := hd EmptyString pending in
      modify (set_task_iterator (Some (tl pending))) ;;
      on_connections (SendReadTaskResponse response)
  end.

Definition processMergeTreeReadTaskRequest (request : ParallelReadRequest) : M unit :=
  coordinator <- gets parallel_reading_coordinator ;;
  match coordinator with
  | None => throw ErrorCodes.LOGICAL_ERROR
              "Coordinator for parallel reading from replicas is not initialized"
  | Some handleRequest =>
      on_connections (SendMergeTreeReadTaskResponse (handleRequest request))
  end.

Definition processMergeTreeInitialReadAnnounecement
           (announcement : InitialAllRangesAnnouncement) : M unit :=
  coordinator <- gets parallel_reading_coordinator ;;
  match coordinator with
  | None => throw ErrorCodes.LOGICAL_ERROR
              "Coordinator for parallel reading from replicas is not initialized"
  | Some _ => notify (AllRangesAnnounced announcement)
  end.

(** [packet.exception->rethrow()]. *)
Definition rethrow {A : Type} (e : option Exception) : M A :=
  match e with
  | Some ex => lift (Thrown ex)
  | None => lift Crashed
  end.

Definition pushLog (b : Block) : M unit :=
  q <- gets logs_queue ;;
  match q with
  | Some items => modify (set_logs_queue (Some (items ++ [b])))
  | None => ret tt
  end.

Definition pushProfileEvents (b : Block) : M unit :=
  q <- gets profile_queue ;;
  match q with
  | Some pq =>
      if pq_finished pq
      then throw ErrorCodes.SYSTEM_ERROR "Could not push into profile queue"
      else modify (set_profile_queue
                     (Some (mkProfileQueue (pq_items pq ++ [b]) false)))
  | None => ret tt
  end.

Definition throwUnknownPacket {A : Type} (ty : Protocol.Server) : M A :=
  modify (set_got_unknown_packet_from_replica true) ;;
  dumped <- dumpAddresses ;;
  throw ErrorCodes.UNKNOWN_PACKET_FROM_SERVER (unknown_packet_message ty dumped).

Definition nothing : M ReadResult.t :=
  ret (ReadResult.of_type ReadResult.Nothing).

Definition processPacket (packet : Packet.t) : M ReadResult.t :=
  match Packet.type packet with
  | Protocol.MergeTreeReadTaskRequest =>
      processMergeTreeReadTaskRequest (Packet.request packet) ;;
      ret (ReadResult.of_type ReadResult.ParallelReplicasToken)
  | Protocol.MergeTreeAllRangesAnnounecement =>
      processMergeTreeInitialReadAnnounecement (Packet.announcement packet) ;;
      ret (ReadResult.of_type ReadResult.ParallelReplicasToken)
  | Protocol.ReadTaskRequest =>
      processReadTaskRequest ;; nothing
  | Protocol.PartUUIDs =>
      ok <- setPartUUIDs (Packet.part_uuids packet) ;;
      when (negb ok) (modify (set_got_duplicated_part_uuids true)) ;;
      nothing
  | Protocol.Data =>
      if block_bool (Packet.block packet) && (0 <? rows (Packet.block packet))
      then
        h <- gets header ;;
        res <- lift (adaptBlockStructure castColumn (Packet.block packet) h) ;;
        ret (ReadResult.of_block res)
      else nothing
  | Protocol.Exception_ =>
      modify (set_got_exception_from_replica true) ;;
      rethrow (A := unit) (Packet.exception packet) ;;
      nothing
  | Protocol.EndOfStream =>
      still_active <- hasActiveConnections ;;
      if negb still_active
      then
        modify (set_finished true) ;;
        ret (ReadResult.of_block empty_block)
      else nothing
  | Protocol.Progress =>
      cb <- gets progress_callback ;;
      when cb (notify (ProgressCallback (Packet.progress packet))) ;;
      nothing
  | Protocol.ProfileInfo =>
      cb <- gets profile_info_callback ;;
      when cb (notify (ProfileInfoCallback (Packet.profile_info packet))) ;;
      nothing
  | Protocol.Totals =>
      modify (set_totals (Packet.block packet)) ;;
      (if block_bool (Packet.block packet)
       then
         h <- gets header ;;
         res <- lift (adaptBlockStructure castColumn (Packet.block packet) h) ;;
         modify (set_totals res)
       else ret tt) ;;
      nothing
  | Protocol.Extremes =>
      modify (set_extremes (Packet.block packet)) ;;
      (if block_bool (Packet.block packet)
       then
         h <- gets header ;;
         res <- lift (adaptBlockStructure castColumn (Packet.block packet) h) ;;
         modify (set_extremes res)
       else ret tt) ;;
      nothing
  | Protocol.Log =>
      pushLog (Packet.block packet) ;; nothing
  | Protocol.ProfileEvents =>
      pushProfileEvents (Packet.block packet) ;; nothing
  | Protocol.Other _ =>
      throwUnknownPacket (Packet.type packet)
  end.

(** ** Cancelling and draining *)

(** Modelled from the spec: [ReadContext::cancel] ends any receive in
    flight and leaves the context cancelled. *)
Definition ReadContext_cancel (ctx : ReadContext) : ReadContext :=
  mkReadContext true false (rc_is_query_sent ctx) (rc_packet ctx)
                (rc_suspend_when_query_sent ctx) (rc_fd ctx).

Definition tryCancel : M unit :=
  cancelled <- gets was_cancelled ;;
  if cancelled then ret tt else
  modify (set_was_cancelled true) ;;
  ctx <- gets read_context ;;
  match ctx with
  | Some c => modify (set_read_context (Some (ReadContext_cancel c)))
  | None => ret tt
  end ;;
  conns <- gets connections ;;
  sent <- gets sent_query ;;
  match conns with
  | Some _ => when sent (on_connections SendCancel)
  | None => ret tt
  end.

Definition cancel : M unit :=
  modify (fun s => set_external_tables_data
                     (map (map (fun elem => mkExternalTableData (table_name elem) true))
                          (external_tables_data s)) s) ;;
  pending <- gets isQueryPending ;;
  thrown <- gets hasThrownException ;;
  if negb pending || thrown then ret tt else
  tryCancel.

Definition finish : M unit :=
  pending <- gets isQueryPending ;;
  thrown <- gets hasThrownException ;;
  if negb pending || thrown then ret tt else
  tryCancel ;;
  conns <- gets connections ;;
  sent <- gets sent_query ;;
  if match conns with Some _ => negb sent | None => true end then ret tt else
  packet <- drain ;;
  match Packet.type packet with
  | Protocol.EndOfStream => modify (set_finished true)
  | Protocol.Log => pushLog (Packet.block packet)
  | Protocol.Exception_ =>
      modify (set_got_exception_from_replica true) ;;
      rethrow (Packet.exception packet)
  | Protocol.ProfileEvents => pushProfileEvents (Packet.block packet)
  | _ => throwUnknownPacket (Packet.type packet)
  end.

(** ** The suspendable read context *)

(** Modelled from the spec: a fresh [ReadContext] for this executor, in one
    of its two construction modes. *)
Definition ReadContext_create (suspend_when_query_sent : bool) : M unit :=
  d <- gets async_fd ;;
  modify (set_read_context
            (Some (mkReadContext false false false
                                 (Packet.of_type (Protocol.Other 0)) suspend_when_query_sent d))).

Definition the_read_context : M ReadContext :=
  c <- gets read_context ;; lift (deref c).

Definition update_read_context (f : ReadContext -> ReadContext) : M unit :=
  c <- the_read_context ;; modify (set_read_context (Some (f c))).

Definition rc_set_query_sent (c : ReadContext) : ReadContext :=
  mkReadContext (rc_is_cancelled c) (rc_is_in_progress c) true (rc_packet c)
                (rc_suspend_when_query_sent c) (rc_fd c).

Definition rc_set_in_progress (b : bool) (c : ReadContext) : ReadContext :=
  mkReadContext (rc_is_cancelled c) b (rc_is_query_sent c) (rc_packet c)
                (rc_suspend_when_query_sent c) (rc_fd c).

Definition rc_set_packet (p : Packet.t) (c : ReadContext) : ReadContext :=
  mkReadContext (rc_is_cancelled c) false (rc_is_query_sent c) p
                (rc_suspend_when_query_sent c) (rc_fd c).

(** Modelled from the spec: the receive step of the context.  A packet that
    has arrived is stored in the context ([isInProgress()] is false),
    otherwise the receive stays in progress. *)
Definition ReadContext_receive : M unit :=
  c <- the_connections ;;
  match inbound c with
  | [] => update_read_context (rc_set_in_progress true)
  | a :: rest =>
      modify (set_connections
                (Some (mkConnections (conn_size c) rest (active_after a)
                                     (addresses c) (drained c)))) ;;
      emit (ReceivePacket (Packet.type (arrived a))) ;;
      update_read_context (rc_set_packet (arrived a))
  end.

(** Modelled from the spec: [ReadContext::resume] advances the send or the
    receive as far as it can.  A cancelled context completes at once; the
    first resumption runs the executor's [sendQuery], after which a context
    built to suspend when the query is sent hands control back; otherwise
    one packet is received.  Sends never block in this model. *)
Definition ReadContext_resume : M unit :=
  ctx <- the_read_context ;;
  if rc_is_cancelled ctx then ret tt else
  if negb (rc_is_query_sent ctx) then
    sendQuery QueryKind.SECONDARY_QUERY ;;
    update_read_context rc_set_query_sent ;;
    if rc_suspend_when_query_sent ctx
    then update_read_context (rc_set_in_progress false)
    else ReadContext_receive
  else ReadContext_receive.

Definition sendQueryAsync : M Z :=
  ctx <- gets read_context ;;
  match ctx with
  | None => ReadContext_create true
  | Some _ => ret tt
  end ;;
  ctx1 <- the_read_context ;;
  if rc_is_query_sent ctx1 then ret (-1)%Z else
  ReadContext_resume ;;
  ctx2 <- the_read_context ;;
  if negb (rc_is_query_sent ctx2) then ret (rc_fd ctx2) else ret (-1)%Z.

(** ** Reading *)

(** The retry, given what the two recursive calls do, when the calling
    thread holds no lock: this is how [readAsync()] starts it. *)
Definition restartQueryWithoutDuplicatedUUIDs_with
           (read_again readAsync_again : M ReadResult.t) : M ReadResult.t :=
  cancel ;;
  on_connections Disconnect ;;
  resent <- gets resent_query ;;
  if negb resent then
    modify (set_resent_query true) ;;
    modify (set_recreate_read_context true) ;;
    modify (set_sent_query false) ;;
    modify (set_got_duplicated_part_uuids false) ;;
    ctx <- gets read_context ;;
    match ctx with
    | None => read_again
    | Some _ => readAsync_again
    end
  else
    throw ErrorCodes.DUPLICATED_PART_UUIDS "Found duplicate uuids while processing query".

(** [read()]: what precedes the loop, given the loop.  [sendQuery()] takes
    the default query kind of its declaration. *)
Definition read_with (loop : M ReadResult.t) : M ReadResult.t :=
  sent <- gets sent_query ;;
  if negb sent then
    sendQuery QueryKind.SECONDARY_QUERY ;;
    skip <- gets (fun s => skip_unavailable_shards (settings s)) ;;
    no_connections <- (if skip then (n <- connections_size ;; ret (n =? 0))
                       else ret false) ;;
    if no_connections then ret (ReadResult.of_block empty_block) else loop
  else loop.

(** [readAsync()]: what precedes the loop, given the loop and [read()]. *)
Definition readAsync_with (loop read_sync : M ReadResult.t) : M ReadResult.t :=
  if OS_LINUX then
    ctx <- gets read_context ;;
    resent <- gets resent_query ;;
    recreate <- gets recreate_read_context ;;
    (if match ctx with None => true | Some _ => resent && recreate end
     then ReadContext_create false ;; modify (set_recreate_read_context false)
     else ret tt) ;;
    loop
  else read_sync.

(** ** Under [was_cancelled_mutex]

    Modelled from the spec: [was_cancelled_mutex] is declared in the
    header, which is not part of the sources.  It is a mutex that its owner
    cannot lock again, as the comment in [sendQuery] on avoiding a deadlock
    implies.  Every lock on it is a [std::lock_guard].  The only calls made
    while the calling thread holds it are those of the retry that [read()]
    starts from inside its loop: the guard of an iteration is still in scope
    when [return restartQueryWithoutDuplicatedUUIDs()] is evaluated.  What
    follows is what [cancel], [sendQuery], [read], [readAsync] and the retry
    do when they are called by the thread that holds the mutex: each runs as
    it is written up to its first lock, which never returns. *)

(** [std::lock_guard] on [was_cancelled_mutex], by the thread that holds
    it. *)
Definition lock_held_mutex {A : Type} : M A := lift Deadlocked.

(** [cancel()]: the lock is the first statement of [tryCancel]. *)
Definition cancel_under_lock : M unit :=
  modify (fun s => set_external_tables_data
                     (map (map (fun elem => mkExternalTableData (table_name elem) true))
                          (external_tables_data s)) s) ;;
  pending <- gets isQueryPending ;;
  thrown <- gets hasThrownException ;;
  if negb pending || thrown then ret tt else
  lock_held_mutex.

(** [sendQuery()]: the lock follows the three early returns. *)
Definition sendQuery_under_lock : M unit :=
  sent <- gets sent_query ;;
  if sent then ret tt else
  modify (fun s => set_created (S (created s))
                     (set_connections (Some (create_connections s (created s))) s)) ;;
  skip <- needToSkipUnavailableShard ;;
  if skip then ret tt else
  cancelled <- gets was_cancelled ;;
  if cancelled then ret tt else
  lock_held_mutex.

(** [read()]: the lock is the first statement of the loop. *)
Definition read_under_lock : M ReadResult.t :=
  sent <- gets sent_query ;;
  if negb sent then
    sendQuery_under_lock ;;
    skip <- gets (fun s => skip_unavailable_shards (settings s)) ;;
    no_connections <- (if skip then (n <- connections_size ;; ret (n =? 0))
                       else ret false) ;;
    if no_connections then ret (ReadResult.of_block empty_block)
    else lock_held_mutex
  else lock_held_mutex.

(** [readAsync()]: the lock is taken where the read context is created.
    [loop] stands for the loop that follows when no context is to be
    created; the retry never gets there. *)
Definition readAsync_under_lock (loop : M ReadResult.t) : M ReadResult.t :=
  if OS_LINUX then
    ctx <- gets read_context ;;
    resent <- gets resent_query ;;
    recreate <- gets recreate_read_context ;;
    if match ctx with None => true | Some _ => resent && recreate end
    then lock_held_mutex
    else loop
  else read_under_lock.

(** The retry as [read()] starts it. *)
Definition restartQueryWithoutDuplicatedUUIDs_under_lock
           (loop : M ReadResult.t) : M ReadResult.t :=
  cancel_under_lock ;;
  on_connections Disconnect ;;
  resent <- gets resent_query ;;
  if negb resent then
    modify (set_resent_query true) ;;
    modify (set_recreate_read_context true) ;;
    modify (set_sent_query false) ;;
    modify (set_got_duplicated_part_uuids false) ;;
    ctx <- gets read_context ;;
    match ctx with
    | None => read_under_lock
    | Some _ => readAsync_under_lock loop
    end
  else
    throw ErrorCodes.DUPLICATED_PART_UUIDS "Found duplicate uuids while processing query".

(** The two [while (true)] loops.  Every iteration takes one unit of
    [fuel]; an iteration that does not return has received a packet.  An
    iteration of [read()] runs under its guard on [was_cancelled_mutex], an
    iteration of [readAsync()] under none. *)
Fixpoint read_loop (fuel : nat) : M ReadResult.t :=
  match fuel with
  | 0 => lift OutOfFuel
  | S fuel' =>
      cancelled <- gets was_cancelled ;;
      if cancelled then ret (ReadResult.of_block empty_block) else
      packet <- receivePacket ;;
      anything <- processPacket packet ;;
      if ReadResult.is_data_or_token anything then ret anything else
      dup <- gets got_duplicated_part_uuids ;;
      if dup then
        restartQueryWithoutDuplicatedUUIDs_under_lock (readAsync_loop fuel')
      else read_loop fuel'
  end
with readAsync_loop (fuel : nat) : M ReadResult.t :=
  match fuel with
  | 0 => lift OutOfFuel
  | S fuel' =>
      ReadContext_resume ;;
      skip <- needToSkipUnavailableShard ;;
      if skip then ret (ReadResult.of_block empty_block) else
      ctx <- the_read_context ;;
      if rc_is_cancelled ctx then ret (ReadResult.of_block empty_block) else
      if rc_is_in_progress ctx then ret (ReadResult.of_fd (rc_fd ctx)) else
      cancelled <- gets was_cancelled ;;
      if cancelled then ret (ReadResult.of_block empty_block) else
      anything <- processPacket (rc_packet ctx) ;;
      if ReadResult.is_data_or_token anything then ret anything else
      dup <- gets got_duplicated_part_uuids ;;
      if dup then
        restartQueryWithoutDuplicatedUUIDs_with
          (read_with (read_loop fuel'))
          (readAsync_with (readAsync_loop fuel') (read_with (read_loop fuel')))
      else readAsync_loop fuel'
  end.

Definition read (fuel : nat) : M ReadResult.t :=
  read_with (read_loop fuel).

Definition readAsync (fuel : nat) : M ReadResult.t :=
  readAsync_with (readAsync_loop fuel) (read fuel).

Definition restartQueryWithoutDuplicatedUUIDs (fuel : nat) : M ReadResult.t :=
  restartQueryWithoutDuplicatedUUIDs_with (read fuel) (readAsync fuel).

(** [readBlock()]: at most [calls] calls of [read()], each with [fuel]. *)
Fixpoint readBlock (calls fuel : nat) : M Block :=
  match calls with
  | 0 => lift OutOfFuel
  | S calls' =>
      res <- read fuel ;;
      if ReadResult.is_data res then ret (ReadResult.getBlock res)
      else readBlock calls' fuel
  end.

End Executor.

(* ================================================================== *)
(** * Concrete executors *)
(* ================================================================== *)

(** What a constructor leaves: no flag is set, nothing has been created or
    sent.  The extension supplies the task iterator and the coordinator. *)
Definition new_executor (header_ : Block) (query_ : string) (settings_ : Settings)
           (task_iterator_ : option (list string))
           (coordinator_ : option (ParallelReadRequest -> ParallelReadResponse))
           (create_connections_ : nat -> Connections) : Executor :=
  mkExecutor header_ query_ "" settings_ [] [] QueryProcessingStage.Complete
             task_iterator_ coordinator_ create_connections_ 0 None None
             false false false false false false false false false
             [] empty_block empty_block [] false false 3%Z [] None None [] [].

(** A cast for the examples: the identity between equal types, wrap-around
    into [UInt8], the identity into [UInt64], and a refusal otherwise. *)
Definition map_column (f : Field -> Field) (c : IColumn) : IColumn :=
  match c with
  | ColumnVector d => ColumnVector (map f d)
  | ColumnConst v n => ColumnConst (f v) n
  end.

Definition castColumn_example (c : ColumnWithTypeAndName) (t : DataType)
  : Outcome ColumnPtr :=
  if String.eqb (type c) t then Returned (column c)
  else if String.eqb t "UInt8"
       then Returned (option_map (map_column (fun v => (v mod 256)%Z)) (column c))
  else if String.eqb t "UInt64" then Returned (column c)
  else Thrown (mkException (ErrorCodes.OTHER 70) "Conversion is not supported").

Definition default_settings : Settings := mkSettings false true.
Definition skipping_settings : Settings := mkSettings true true.

(** A header with a plain column and a constant one. *)
Definition header_kv : Block :=
  mkBlock [mkColumn None "UInt64" "k"; mkColumn (Some (ColumnConst 7%Z 0)) "UInt8" "v"]
          default_info.

Definition block_of (ks vs : list Field) : Block :=
  mkBlock [mkColumn (Some (ColumnVector ks)) "UInt64" "k";
           mkColumn (Some (ColumnVector vs)) "UInt8" "v"]
          (mkBlockInfo true 5).

Definition three_rows : Block := block_of [10; 20; 30]%Z [1; 1; 1]%Z.
Definition two_rows : Block := block_of [40; 50]%Z [1; 1]%Z.
Definition header_echo : Block := block_of [] [].

Definition data_packet (b : Block) : Arrival :=
  mkArrival (Packet.with_block Protocol.Data b) true.

Definition end_of_stream (still_active : bool) : Arrival :=
  mkArrival (Packet.of_type Protocol.EndOfStream) still_active.

Definition part_uuids_packet (u : list UUID) : Arrival :=
  mkArrival (Packet.with_part_uuids u) true.

Definition one_shard (packets : list Arrival) : Connections :=
  mkConnections 1 packets true "shard-1:9000" (Packet.of_type Protocol.EndOfStream).

Definition no_shard : Connections :=
  mkConnections 0 [] false "" (Packet.of_type Protocol.EndOfStream).

(** Scenario S1/S3 of the specification: a header echo, two blocks of rows
    and the end of the stream, from one shard. *)
Definition happy_stream : list Arrival :=
  [data_packet header_echo; data_packet three_rows; data_packet two_rows;
   end_of_stream false].

Definition sync_executor : Executor :=
  new_executor header_kv "SELECT k, v FROM t" default_settings None None
               (fun _ => one_shard happy_stream).

(* ================================================================== *)
(** * Auxiliary definitions for the statements *)
(* ================================================================== *)

(** The columns the adapter's loop inserts, as a list. *)
Fixpoint adapted_columns
         (castColumn : ColumnWithTypeAndName -> DataType -> Outcome ColumnPtr)
         (block : Block) (elems : list ColumnWithTypeAndName)
  : Outcome (list ColumnWithTypeAndName) :=
  match elems with
  | [] => Returned []
  | elem :: rest =>
      obind (adapted_column castColumn block elem) (fun c =>
      obind (adapted_columns castColumn block rest) (fun cs =>
      Returned (mkColumn c (type elem) (name elem) :: cs)))
  end.

(** Where the value [v] of the constant that the adapter builds for the
    header column [elem] comes from: one value taken from the block's column
    of that name and cast, when the block has rows and that column;
    otherwise the header's own constant. *)
Definition constant_taken_from
           (castColumn : ColumnWithTypeAndName -> DataType -> Outcome ColumnPtr)
           (block : Block) (elem : ColumnWithTypeAndName) (expected : IColumn)
           (v : Field) : Prop :=
  if (0 <? rows block) && has block (name elem) then
    exists col materialized first casted,
      getByName block (name elem) = Returned col
      /\ column col = Some materialized
      /\ cut materialized 0 1 = Returned first
      /\ castColumn (mkColumn (Some first) (type col) (name col)) (type elem)
         = Returned (Some casted)
      /\ (casted = ColumnVector [v] \/ exists n, casted = ColumnConst v n)
  else
    exists n, expected = ColumnConst v n.

(** ** Sequences of calls *)

(** What a caller does after a cancellation: it reads or cancels again. *)
Inductive Call : Type :=
| CallRead
| CallCancel.

(** Runs the calls in order, every [read()] with the same loop budget, and
    collects what the reads gave. *)
Fixpoint run_calls
         (castColumn : ColumnWithTypeAndName -> DataType -> Outcome ColumnPtr)
         (OS_LINUX : bool) (fuel : nat) (calls : list Call) (s : Executor)
  : Executor * list (Outcome ReadResult.t) :=
  match calls with
  | [] => (s, [])
  | CallRead :: rest =>
      let (s1, o) := read castColumn OS_LINUX fuel s in
      let (s2, os) := run_calls castColumn OS_LINUX fuel rest s1 in
      (s2, o :: os)
  | CallCancel :: rest =>
      run_calls castColumn OS_LINUX fuel rest (fst (cancel s))
  end.

(** The calls of a caller that stays on the blocking path: it never calls
    [readAsync] or [sendQueryAsync]. *)
Inductive SyncCall : Type :=
| SyncSendQuery (kind : QueryKind.t)
| SyncRead (fuel : nat)
| SyncReadBlock (calls fuel : nat)
| SyncCancel
| SyncFinish.

Definition sync_call
           (castColumn : ColumnWithTypeAndName -> DataType -> Outcome ColumnPtr)
           (OS_LINUX : bool) (c : SyncCall) (s : Executor) : Executor :=
  match c with
  | SyncSendQuery kind => fst (sendQuery kind s)
  | SyncRead fuel => fst (read castColumn OS_LINUX fuel s)
  | SyncReadBlock calls fuel => fst (readBlock castColumn OS_LINUX calls fuel s)
  | SyncCancel => fst (cancel s)
  | SyncFinish => fst (finish s)
  end.

Definition run_sync
           (castColumn : ColumnWithTypeAndName -> DataType -> Outcome ColumnPtr)
           (OS_LINUX : bool) (calls : list SyncCall) (s : Executor) : Executor :=
  fold_left (fun st c => sync_call castColumn OS_LINUX c st) calls s.

(** [n] consecutive calls of [read()], each answering with the token of the
    parallel replicas, lead from [s] to [s']. *)
Inductive reads_tokens
          (castColumn : ColumnWithTypeAndName -> DataType -> Outcome ColumnPtr)
          (OS_LINUX : bool) (fuel : nat) : nat -> Executor -> Executor -> Prop :=
| reads_tokens_O : forall s, reads_tokens castColumn OS_LINUX fuel 0 s s
| reads_tokens_S : forall n s s1 s',
    read castColumn OS_LINUX fuel s
    = (s1, Returned (ReadResult.of_type ReadResult.ParallelReplicasToken)) ->
    reads_tokens castColumn OS_LINUX fuel n s1 s' ->
    reads_tokens castColumn OS_LINUX fuel (S n) s s'.

(** A call keeps a property of the executor, whatever its outcome. *)
Definition preserves {A : Type} (P : Executor -> Prop) (m : M A) : Prop :=
  forall s, P s -> P (fst (m s)).

(** ** Further concrete executors *)

(** The result of adapting [three_rows] to [header_kv]. *)
Definition adapted_three_rows : Block :=
  mkBlock [mkColumn (Some (ColumnVector [10; 20; 30]%Z)) "UInt64" "k";
           mkColumn (Some (ColumnConst 1%Z 3)) "UInt8" "v"]
          (mkBlockInfo true 5).

Definition adapted_two_rows : Block :=
  mkBlock [mkColumn (Some (ColumnVector [40; 50]%Z)) "UInt64" "k";
           mkColumn (Some (ColumnConst 1%Z 2)) "UInt8" "v"]
          (mkBlockInfo true 5).

(** A shard whose stream has ended. *)
Definition ended_shard : Connections :=
  mkConnections 1 [] false "shard-1:9000" (Packet.of_type Protocol.EndOfStream).

(** A shard that hands an unknown packet back from the drain. *)
Definition confused_shard : Connections :=
  mkConnections 1 [] true "shard-1:9000" (Packet.of_type (Protocol.Other 255)).

(** Scenario S6: the setting is on and the factory finds no shard. *)
Definition skipping_executor : Executor :=
  new_executor header_kv "SELECT k, v FROM t" skipping_settings None None
               (fun _ => no_shard).

(** The executor of scenario S1 once [sendQueryAsync] has created its read
    context and sent the query. *)
Definition pending_executor : Executor := fst (sendQueryAsync sync_executor).

(** A replica that asks the coordinator for work before it sends rows. *)
Definition coordinated_executor : Executor :=
  new_executor header_kv "SELECT k, v FROM t" default_settings None
               (Some (fun request => N.succ request))
               (fun _ => one_shard
                           [mkArrival (Packet.of_type Protocol.MergeTreeReadTaskRequest) true;
                            data_packet three_rows; end_of_stream false]).

(** Scenario S2: part 1 is already owned by another executor of the query.
    The first attempt announces parts 1 and 2; [second] is the stream of
    every later attempt. *)
Definition retry_executor (second : list Arrival) : Executor :=
  set_query_part_uuids [1%N]
    (new_executor header_kv "SELECT k, v FROM t" default_settings None None
       (fun attempt =>
          match attempt with
          | 0 => one_shard [part_uuids_packet [1; 2]%N; data_packet three_rows;
                            end_of_stream false]
          | S _ => one_shard second
          end)).

Definition clean_second_attempt : list Arrival :=
  [part_uuids_packet [4%N]; data_packet two_rows; end_of_stream false].

Definition duplicate_second_attempt : list Arrival :=
  [part_uuids_packet [1%N]; data_packet two_rows; end_of_stream false].

Definition the_query : Event :=
  SendQuery "SELECT k, v FROM t" QueryProcessingStage.Complete QueryKind.SECONDARY_QUERY.

(** Scenario S4 with a second shard: one replica fails, the other one still
    delivers rows.  The executor has a read context and has sent the query. *)
Definition remote_error : Exception :=
  mkException (ErrorCodes.OTHER 241) "Memory limit exceeded".

Definition two_shards (packets : list Arrival) : Connections :=
  mkConnections 2 packets true "shard-1:9000, shard-2:9000"
                (Packet.of_type Protocol.EndOfStream).

Definition failing_executor : Executor :=
  fst (sendQueryAsync
         (new_executor header_kv "SELECT k, v FROM t" default_settings None None
            (fun _ => two_shards [mkArrival (Packet.with_exception remote_error) true;
                                  data_packet three_rows; end_of_stream false]))).

(** ** The whole programmatic surface *)

(** [~RemoteQueryExecutor()]. *)
Definition destructor : M unit :=
  est <- gets established ;;
  pending <- gets isQueryPending ;;
  conns <- gets connections ;;
  if est || (pending && match conns with Some _ => true | None => false end)
  then on_connections Disconnect
  else ret tt.

(** The calls a user of the executor can make. *)
Inductive ApiCall : Type :=
| ApiSendQuery (kind : QueryKind.t)
| ApiSendQueryAsync
| ApiRead (fuel : nat)
| ApiReadAsync (fuel : nat)
| ApiReadBlock (calls fuel : nat)
| ApiFinish
| ApiCancel.

Definition api_call
           (castColumn : ColumnWithTypeAndName -> DataType -> Outcome ColumnPtr)
           (OS_LINUX : bool) (c : ApiCall) (s : Executor) : Executor :=
  match c with
  | ApiSendQuery kind => fst (sendQuery kind s)
  | ApiSendQueryAsync => fst (sendQueryAsync s)
  | ApiRead fuel => fst (read castColumn OS_LINUX fuel s)
  | ApiReadAsync fuel => fst (readAsync castColumn OS_LINUX fuel s)
  | ApiReadBlock calls fuel => fst (readBlock castColumn OS_LINUX calls fuel s)
  | ApiFinish => fst (finish s)
  | ApiCancel => fst (cancel s)
  end.

(** The executor after a sequence of calls, whatever their outcomes. *)
Definition run_api
           (castColumn : ColumnWithTypeAndName -> DataType -> Outcome ColumnPtr)
           (OS_LINUX : bool) (calls : list ApiCall) (s : Executor) : Executor :=
  fold_left (fun st c => api_call castColumn OS_LINUX c st) calls s.

(** ** Counting on the trace *)

Definition is_send_cancel (e : Event) : bool :=
  match e with
  | SendCancel => true
  | _ => false
  end.

Definition queries_sent (t : list Event) : nat :=
  List.length (filter is_send_query t).

Definition cancels_sent (t : list Event) : nat :=
  List.length (filter is_send_cancel t).

(** Every [SendCancel] of the trace has a [SendQuery] before it. *)
Fixpoint cancel_follows_query_from (seen_query : bool) (t : list Event) : bool :=
  match t with
  | [] => true
  | SendCancel :: rest => seen_query && cancel_follows_query_from seen_query rest
  | SendQuery _ _ _ :: rest => cancel_follows_query_from true rest
  | _ :: rest => cancel_follows_query_from seen_query rest
  end.

Definition cancel_follows_query (t : list Event) : bool :=
  cancel_follows_query_from false t.

(** How many more times the query can still be sent: once if it has not been
    sent in this attempt, and once more if the retry has not been used. *)
Definition sends_left (s : Executor) : nat :=
  (if sent_query s then 0 else 1) + (if resent_query s then 0 else 1).

Definition cancels_left (s : Executor) : nat :=
  if was_cancelled s then 0 else 1.

(** The packets [sendQuery] puts on the wire when it goes through, for a
    fan-out of [n] connections. *)
Definition query_packets (s : Executor) (kind : QueryKind.t) (n : nat) : list Event :=
  match duplicated_part_uuids s with
  | [] => []
  | _ :: _ => [SendIgnoredPartUUIDs (duplicated_part_uuids s)]
  end
  ++ [SendQuery (query s) (stage s) kind]
  ++ (if enable_scalar_subquery_optimization (settings s)
      then [SendScalarsData (List.length (scalars s))] else [])
  ++ [SendExternalTablesData n].

(** The external tables that are shipped: those held in memory, in order. *)
Definition memory_tables (s : Executor) : list string :=
  map fst (filter (fun t => snd t) (external_tables s)).

(** What ends a query on the wire: the cancel packet and the drain. *)
Definition is_teardown (e : Event) : bool :=
  match e with
  | SendCancel => true
  | Drain => true
  | _ => false
  end.

Definition teardowns (t : list Event) : nat :=
  List.length (filter is_teardown t).

(** The executor of scenario S4 after the read that meets the exception of
    the failing replica. *)
Definition failed_executor : Executor :=
  fst (readAsync castColumn_example true 3 failing_executor).

(** The executor of scenario S1, with its query sent and then cancelled. *)
Definition cancelled_executor : Executor := fst (cancel pending_executor).

(** Whether a header column is a constant column, for which the adapter
    tolerates a block that lacks it. *)
Definition is_constant_column (elem : ColumnWithTypeAndName) : bool :=
  match column elem with
  | Some c => isColumnConst c
  | None => false
  end.

(** A block that came over the wire without the column [k] of [header_kv]. *)
Definition block_without_k : Block :=
  mkBlock [mkColumn (Some (ColumnVector [1; 1]%Z)) "UInt8" "v"] default_info.

(** Whenever the call returns, from a state with [P], the result and the
    state it leaves satisfy [Q]. *)
Definition ensures {A : Type} (P : Executor -> Prop) (m : M A)
           (Q : A -> Executor -> Prop) : Prop :=
  forall s, P s -> forall s' a, m s = (s', Returned a) -> Q a s'.

(** The results that carry something for the caller: rows or the terminal
    empty block, the token of the parallel replicas, or a descriptor to
    wait on. *)
Definition is_answer (r : ReadResult.t) : bool :=
  match ReadResult.type r with
  | ReadResult.Data | ReadResult.ParallelReplicasToken
  | ReadResult.FileDescriptor => true
  | _ => false
  end.

(** The part UUIDs of an offer that the query-wide tracker already holds. *)
Definition known_part_uuids (s : Executor) (uuids : list UUID) : list UUID :=
  filter (fun u => existsb (N.eqb u) (query_part_uuids s)) uuids.

(** The executor of scenario S2 after the first attempt has sent its query. *)
Definition retrying_executor : Executor :=
  fst (sendQuery QueryKind.SECONDARY_QUERY (retry_executor clean_second_attempt)).


(** Scenario S2 with unavailable shards skipped: the first attempt
    announces parts 1 and 2, the second attempt finds no shard, and every
    later attempt announces part 1 again. *)
Definition flaky_retry_executor : Executor :=
  set_query_part_uuids [1%N]
    (new_executor header_kv "SELECT k, v FROM t" skipping_settings None None
       (fun attempt =>
          match attempt with
          | 0 => one_shard [part_uuids_packet [1; 2]%N; data_packet three_rows;
                            end_of_stream false]
          | 1 => no_shard
          | S (S _) => one_shard duplicate_second_attempt
          end)).

(** That executor once its retry has found no shard, [read()] has answered
    with the terminal empty block, and the query has been sent a second
    time. *)
Definition retried_executor : Executor :=
  fst (sendQuery QueryKind.SECONDARY_QUERY
                 (fst (read castColumn_example true 5 flaky_retry_executor))).

(** The executor of scenario S1 after it has read its stream to the end
    through the read context. *)
Definition finished_executor : Executor :=
  run_api castColumn_example true
          [ApiSendQueryAsync; ApiReadAsync 4; ApiReadAsync 4; ApiReadAsync 4]
          sync_executor.

(* ================================================================== *)
(** * Facts about blocks *)
(* ================================================================== *)

Lemma find_by_name_unique (l : list ColumnWithTypeAndName) (e : ColumnWithTypeAndName) :
  NoDup (map name l) -> In e l ->
  find (fun x => String.eqb (name x) (name e)) l = Some e.
Proof.
  induction l as [|a l IH]; simpl; intros Hnd Hin; [contradiction|].
  inversion Hnd as [|? ? Hnotin Hnd']; subst.
  destruct Hin as [->|Hin].
  - now rewrite String.eqb_refl.
  - destruct (String.eqb (name a) (name e)) eqn:E.
    + apply String.eqb_eq in E. exfalso. apply Hnotin. rewrite E.
      now apply in_map.
    + now apply IH.
Qed.

Lemma getByName_unique (b : Block) (e : ColumnWithTypeAndName) (n : string) :
  NoDup (names b) -> In e (data b) -> name e = n ->
  getByName b n = Returned e.
Proof.
  intros Hnd Hin <-. unfold getByName.
  now rewrite (find_by_name_unique (data b) e Hnd Hin).
Qed.

Lemma has_In (b : Block) (e : ColumnWithTypeAndName) (n : string) :
  In e (data b) -> name e = n -> has b n = true.
Proof.
  intros Hin <-. unfold has.
  apply (proj2 (existsb_exists _ _)).
  exists e. split; [exact Hin|apply String.eqb_refl].
Qed.

Lemma Forall2_impl_In {A B : Type} (Q P : A -> B -> Prop) (l1 : list A) (l2 : list B) :
  Forall2 Q l1 l2 ->
  (forall a b, In a l1 -> In b l2 -> Q a b -> P a b) ->
  Forall2 P l1 l2.
Proof.
  induction 1 as [|a b l1 l2 Hab _ IH]; intros Himp; constructor.
  - apply Himp; simpl; auto.
  - apply IH. intros a' b' Ha Hb. apply Himp; simpl; auto.
Qed.

Lemma Forall2_chain_In {A B C : Type} (S : A -> B -> Prop) (Q : B -> C -> Prop)
      (T : A -> C -> Prop) (l1 : list A) (l2 : list B) (l3 : list C) :
  Forall2 S l1 l2 -> Forall2 Q l2 l3 ->
  (forall a b c, In a l1 -> S a b -> Q b c -> T a c) ->
  Forall2 T l1 l3.
Proof.
  intros HS. revert l3.
  induction HS as [|a b l1 l2 Hab _ IH]; intros l3 HQ Himp;
    inversion HQ; subst; constructor.
  - eapply Himp; simpl; eauto.
  - apply IH; [assumption|]. intros a' b' c' Ha. apply Himp; simpl; auto.
Qed.

Lemma schema_Forall2 (l1 l2 : list ColumnWithTypeAndName) :
  map (fun e => (name e, type e)) l1 = map (fun e => (name e, type e)) l2 ->
  Forall2 (fun b h => name b = name h /\ type b = type h) l1 l2.
Proof.
  revert l2. induction l1 as [|a l1 IH]; intros [|b l2]; simpl; intros H;
    try discriminate; constructor.
  - injection H as Hn Ht _. split; assumption.
  - injection H as _ _ Hrest. apply IH. exact Hrest.
Qed.

Lemma schema_names (b h : Block) : schema b = schema h -> names b = names h.
Proof.
  unfold schema, names. intros H.
  apply (f_equal (map fst)) in H. rewrite !map_map in H. exact H.
Qed.

(** The row count of a block whose columns are those of another one, or
    constants of that block's row count. *)
Lemma rows_of_adapted (n : nat) (bs rs : list ColumnWithTypeAndName) :
  Forall2 (fun b r => column r = column b
                      \/ exists v, column r = Some (ColumnConst v n)) bs rs ->
  rows_of rs = n \/ rows_of rs = rows_of bs.
Proof.
  induction 1 as [|b r bs rs Hbr _ IH]; simpl; [now right|].
  destruct Hbr as [-> | [v ->]].
  - destruct (column b); [now right|exact IH].
  - now left.
Qed.

(* ================================================================== *)
(** * The block adapter *)
(* ================================================================== *)

Section AdapterFacts.

Variable castColumn : ColumnWithTypeAndName -> DataType -> Outcome ColumnPtr.

Lemma adapt_loop_columns (block : Block) (elems : list ColumnWithTypeAndName)
      (res : Block) :
  adapt_loop castColumn block elems res =
  obind (adapted_columns castColumn block elems)
        (fun cs => Returned (mkBlock (data res ++ cs) (info res))).
Proof.
  revert res. induction elems as [|elem rest IH]; intros res; simpl.
  - rewrite app_nil_r. now destruct res.
  - destruct (adapted_column castColumn block elem) as [c| | | | |]; simpl; auto.
    rewrite IH.
    destruct (adapted_columns castColumn block rest) as [cs| | | | |]; simpl; auto.
    now rewrite <- app_assoc.
Qed.

Lemma adaptBlockStructure_columns (block header : Block) :
  block_bool header = true ->
  adaptBlockStructure castColumn block header =
  obind (adapted_columns castColumn block (data header))
        (fun cs => Returned (mkBlock cs (info block))).
Proof.
  intros Hne. unfold adaptBlockStructure. rewrite Hne. simpl.
  rewrite adapt_loop_columns. reflexivity.
Qed.

Lemma adapted_columns_Forall2 (block : Block) (elems cs : list ColumnWithTypeAndName) :
  adapted_columns castColumn block elems = Returned cs ->
  Forall2 (fun elem c =>
             adapted_column castColumn block elem = Returned (column c)
             /\ type c = type elem /\ name c = name elem) elems cs.
Proof.
  revert cs. induction elems as [|elem rest IH]; simpl; intros cs H.
  - injection H as <-. constructor.
  - destruct (adapted_column castColumn block elem) as [c| | | | |] eqn:Hc;
      try discriminate.
    simpl in H.
    destruct (adapted_columns castColumn block rest) as [cs'| | | | |]; try discriminate.
    simpl in H. injection H as <-.
    constructor; [simpl; auto|now apply IH].
Qed.

Lemma Forall2_adapted_columns (block : Block) (elems cs : list ColumnWithTypeAndName) :
  Forall2 (fun elem c =>
             adapted_column castColumn block elem = Returned (column c)
             /\ type c = type elem /\ name c = name elem) elems cs ->
  adapted_columns castColumn block elems = Returned cs.
Proof.
  induction 1 as [|elem c elems cs (Hc & Ht & Hn) _ IH]; simpl; [reflexivity|].
  rewrite Hc, IH. simpl. destruct c as [cc ct cn]; simpl in *. now subst.
Qed.

(** The column built for a constant header column. *)
Lemma adapted_column_constant (block : Block) (elem : ColumnWithTypeAndName)
      (expected : IColumn) (c : ColumnPtr) :
  column elem = Some expected -> isColumnConst expected = true ->
  adapted_column castColumn block elem = Returned c ->
  exists v, c = Some (ColumnConst v (rows block))
            /\ constant_taken_from castColumn block elem expected v.
Proof.
  intros He Hconst. unfold adapted_column, constant_taken_from.
  rewrite He, Hconst.
  destruct ((0 <? rows block) && has block (name elem)).
  - destruct (getByName block (name elem)) as [col| | | | |]; simpl; try discriminate.
    destruct (column col) as [m|] eqn:Hm; simpl; try discriminate.
    destruct (cut m 0 1) as [first| | | | |] eqn:Hcut; simpl; try discriminate.
    destruct (castColumn _ (type elem)) as [[casted|]| | | | |] eqn:Hcast;
      simpl; try discriminate.
    destruct casted as [d|w n]; simpl.
    + destruct d as [|v [|? ?]]; simpl; try discriminate.
      intros H; injection H as <-. exists v. split; [reflexivity|].
      exists col, m, first, (ColumnVector [v]). repeat split; auto.
    + intros H; injection H as <-. exists w. split; [reflexivity|].
      exists col, m, first, (ColumnConst w n). repeat split; eauto.
  - intros H; injection H as <-.
    destruct expected as [d|v n]; [discriminate|].
    exists v. split; [reflexivity|now exists n].
Qed.


End AdapterFacts.

Section AdapterIdempotence.

Variable castColumn : ColumnWithTypeAndName -> DataType -> Outcome ColumnPtr.

(** A cast to the type the column already has hands the column back. *)
Hypothesis castColumn_same_type :
  forall c : ColumnWithTypeAndName, castColumn c (type c) = Returned (column c).

Variables B H : Block.
Hypothesis unique_names : NoDup (names H).
Hypothesis same_schema : schema B = schema H.

Let Adapted (block : Block) (elem c : ColumnWithTypeAndName) : Prop :=
  adapted_column castColumn block elem = Returned (column c)
  /\ type c = type elem /\ name c = name elem.

(** A header column that is not a constant: the block's column, cast. *)
Lemma adapted_column_plain (block : Block) (elem b : ColumnWithTypeAndName) :
  (forall expected, column elem = Some expected -> isColumnConst expected = false) ->
  NoDup (names block) -> In b (data block) ->
  name b = name elem -> type b = type elem ->
  adapted_column castColumn block elem = Returned (column b).
Proof.
  intros Hplain Hnd Hin Hn Ht. unfold adapted_column.
  rewrite (getByName_unique block b Hnd Hin Hn). simpl.
  rewrite <- Ht, castColumn_same_type.
  destruct (column elem) as [expected|] eqn:He; [|reflexivity].
  now rewrite (Hplain expected eq_refl).
Qed.

Lemma plain_or_constant (elem : ColumnWithTypeAndName) :
  (forall expected, column elem = Some expected -> isColumnConst expected = false)
  \/ exists expected, column elem = Some expected /\ isColumnConst expected = true.
Proof.
  destruct (column elem) as [expected|]; [|left; discriminate].
  destruct (isColumnConst expected) eqn:E.
  - right. now exists expected.
  - left. intros ? [= <-]. exact E.
Qed.

Lemma first_pass_rows (cs : list ColumnWithTypeAndName) :
  Forall2 (Adapted B) (data H) cs -> rows_of cs = rows B.
Proof.
  intros Hcs.
  assert (HB : NoDup (names B)) by now rewrite (schema_names _ _ same_schema).
  pose proof (schema_Forall2 _ _ same_schema) as HS.
  assert (Hrel : Forall2 (fun b r => column r = column b
                                     \/ exists v, column r = Some (ColumnConst v (rows B)))
                         (data B) cs).
  { eapply Forall2_chain_In; [exact HS|exact Hcs|].
    intros b elem c Hin [Hn Ht] (Hc & _ & _).
    destruct (plain_or_constant elem) as [Hplain | (expected & He & Hconst)].
    - left. rewrite (adapted_column_plain B elem b Hplain HB Hin Hn Ht) in Hc.
      now injection Hc.
    - right.
      destruct (adapted_column_constant castColumn B elem He Hconst Hc) as (v & Hv & _).
      now exists v. }
  destruct (rows_of_adapted Hrel) as [E|E]; exact E.
Qed.

Lemma second_pass (cs : list ColumnWithTypeAndName) :
  Forall2 (Adapted B) (data H) cs ->
  Forall2 (Adapted (mkBlock cs (info B))) (data H) cs.
Proof.
  intros Hcs.
  set (R := mkBlock cs (info B)).
  assert (Hrows : rows R = rows B) by exact (first_pass_rows Hcs).
  assert (Hnames : names R = names H).
  { unfold names. simpl. clear Hrows. induction Hcs as [|e c es cs' (_ & _ & Hn) _ IH];
      simpl; [reflexivity|]. now rewrite Hn, IH. }
  assert (HR : NoDup (names R)) by now rewrite Hnames.
  eapply Forall2_impl_In; [exact Hcs|].
  intros elem r _ Hin (Hc & Ht & Hn). split; [|split; assumption].
  destruct (plain_or_constant elem) as [Hplain | (expected & He & Hconst)].
  - exact (adapted_column_plain R elem r Hplain HR Hin Hn Ht).
  - destruct (adapted_column_constant castColumn B elem He Hconst Hc) as (v & Hv & Hfrom).
    unfold adapted_column. rewrite He, Hconst, Hrows.
    rewrite (has_In R r Hin Hn).
    unfold constant_taken_from in Hfrom.
    destruct (0 <? rows B) eqn:Hpos; simpl.
    + rewrite (getByName_unique R r HR Hin Hn). simpl.
      rewrite Hv. simpl.
      pose proof (castColumn_same_type
                    (mkColumn (Some (ColumnConst v 1)) (type r) (name r))) as Hcast.
      simpl in Hcast. rewrite Ht in Hcast at 2. rewrite Hcast. simpl.
      reflexivity.
    + simpl in Hfrom. destruct Hfrom as (n & ->). simpl. now rewrite Hv.
Qed.

(** C6.  When the inbound block has the schema of the header (the same
    column names and types, in the same order; names are unique in a
    block) adapting the adapter's result once more changes nothing.  A
    failure of the adapter is a failure of both sides. *)
Theorem adaptBlockStructure_idempotent :
  obind (adaptBlockStructure castColumn B H)
        (fun R => adaptBlockStructure castColumn R H)
  = adaptBlockStructure castColumn B H.
Proof.
  destruct (block_bool H) eqn:Hne.
  - rewrite (adaptBlockStructure_columns castColumn B H Hne).
    destruct (adapted_columns castColumn B (data H)) as [cs| | | | |] eqn:Hcs;
      simpl; try reflexivity.
    rewrite (adaptBlockStructure_columns castColumn _ H Hne).
    apply adapted_columns_Forall2 in Hcs.
    rewrite (Forall2_adapted_columns castColumn _ (second_pass Hcs)).
    reflexivity.
  - unfold adaptBlockStructure. rewrite Hne. reflexivity.
Qed.

End AdapterIdempotence.

(* ================================================================== *)
(** * Packet dispatch *)
(* ================================================================== *)

(** Unfolds the calls of the state monad. *)
Ltac run_monad :=
  cbv [bind ret gets modify lift throw when emit notify nothing deref
       the_connections hasActiveConnections dumpAddresses
       connections_size on_connections] in *.

Section Dispatch.

Variable castColumn : ColumnWithTypeAndName -> DataType -> Outcome ColumnPtr.

(** C4.  A [Data] packet whose block is empty or has no rows is consumed:
    dispatch leaves the executor as it was and answers [Nothing].  When
    dispatch of a [Data] packet answers with a [Data] result, the packet's
    block has columns and rows and the result carries that block as
    adapted to the header. *)
Theorem processPacket_Data (s : Executor) (packet : Packet.t) :
  Packet.type packet = Protocol.Data ->
  (block_bool (Packet.block packet) = false \/ rows (Packet.block packet) = 0 ->
   processPacket castColumn packet s
   = (s, Returned (ReadResult.of_type ReadResult.Nothing)))
  /\ (forall s' r,
         processPacket castColumn packet s = (s', Returned r) ->
         ReadResult.type r = ReadResult.Data ->
         block_bool (Packet.block packet) = true
         /\ 0 < rows (Packet.block packet)
         /\ adaptBlockStructure castColumn (Packet.block packet) (header s)
            = Returned (ReadResult.block r)
         /\ s' = s).
Proof.
  intros Hty. unfold processPacket. rewrite Hty. split.
  - intros [Hempty | Hrows].
    + now rewrite Hempty.
    + rewrite Hrows. now rewrite andb_false_r.
  - intros s' r.
    destruct (block_bool (Packet.block packet)) eqn:Hb; simpl.
    + destruct (0 <? rows (Packet.block packet)) eqn:Hr.
      * run_monad.
        destruct (adaptBlockStructure castColumn (Packet.block packet) (header s))
          as [res| | | | |]; try discriminate.
        intros [= <- <-] _. apply Nat.ltb_lt in Hr. auto.
      * unfold nothing, ret. intros [= <- <-]. discriminate.
    + unfold nothing, ret. intros [= <- <-]. discriminate.
Qed.

(** C8.  On [EndOfStream], dispatch sets [finished] and answers with the
    terminal empty block when no connection is active any more; while a
    connection is active it leaves the executor as it was and answers
    [Nothing], so that the read loop goes on.  The terminal block is the
    answer exactly when no connection is active. *)
Theorem processPacket_EndOfStream (s : Executor) (packet : Packet.t) (c : Connections) :
  Packet.type packet = Protocol.EndOfStream ->
  connections s = Some c ->
  (active c = false ->
   processPacket castColumn packet s
   = (set_finished true s, Returned (ReadResult.of_block empty_block)))
  /\ (active c = true ->
      processPacket castColumn packet s
      = (s, Returned (ReadResult.of_type ReadResult.Nothing)))
  /\ (snd (processPacket castColumn packet s)
      = Returned (ReadResult.of_block empty_block)
      <-> active c = false)
  /\ (finished (fst (processPacket castColumn packet s)) = true
      <-> active c = false \/ finished s = true).
Proof.
  intros Hty Hc. unfold processPacket. rewrite Hty.
  run_monad. rewrite Hc. simpl.
  destruct (active c); simpl; repeat split; intros; try discriminate; auto.
  - destruct H; [discriminate|assumption].
Qed.

(** Dispatch of a packet whose tag has no case sets
    [got_unknown_packet_from_replica] and throws
    [UNKNOWN_PACKET_FROM_SERVER]; the message ends with the dumped
    addresses of the connections. *)
Lemma processPacket_unknown (s : Executor) (packet : Packet.t) (tag : N)
      (c : Connections) :
  Packet.type packet = Protocol.Other tag ->
  connections s = Some c ->
  processPacket castColumn packet s
  = (set_got_unknown_packet_from_replica true s,
     Thrown (mkException ErrorCodes.UNKNOWN_PACKET_FROM_SERVER
               (unknown_packet_message (Protocol.Other tag) (addresses c)))).
Proof.
  intros Hty Hc. unfold processPacket, throwUnknownPacket. rewrite Hty.
  run_monad. simpl. now rewrite Hc.
Qed.

(** In the read loop such a packet is consumed: the loop goes on with the
    next packet. *)
Lemma read_loop_consumes_empty_data (OS_LINUX : bool) (fuel : nat) (s : Executor)
      (c : Connections) (a : Arrival) (rest : list Arrival) :
  was_cancelled s = false ->
  got_duplicated_part_uuids s = false ->
  connections s = Some c ->
  inbound c = a :: rest ->
  Packet.type (arrived a) = Protocol.Data ->
  block_bool (Packet.block (arrived a)) = false
  \/ rows (Packet.block (arrived a)) = 0 ->
  read_loop castColumn OS_LINUX (S fuel) s
  = read_loop castColumn OS_LINUX fuel
      (set_trace (trace s ++ [ReceivePacket Protocol.Data])
         (set_connections
            (Some (mkConnections (conn_size c) rest (active_after a)
                                 (addresses c) (drained c))) s)).
Proof.
  intros Hcancelled Hdup Hc Hin Hty Hempty. simpl.
  unfold bind at 1. unfold gets at 1. rewrite Hcancelled.
  unfold bind at 1.
  assert (Hrecv : receivePacket s
                  = (set_trace (trace s ++ [ReceivePacket Protocol.Data])
                       (set_connections
                          (Some (mkConnections (conn_size c) rest (active_after a)
                                               (addresses c) (drained c))) s),
                     Returned (arrived a))).
  { unfold receivePacket. run_monad. rewrite Hc, Hin, Hty. reflexivity. }
  rewrite Hrecv. unfold bind at 1.
  rewrite (proj1 (processPacket_Data _ (arrived a) Hty) Hempty).
  simpl. unfold bind at 1. unfold gets at 1. simpl. now rewrite Hdup.
Qed.

End Dispatch.

Lemma string_append_assoc (a b c : string) :
  ((a ++ b) ++ c = a ++ (b ++ c))%string.
Proof.
  induction a as [|x a IH]; simpl; [reflexivity|now rewrite IH].
Qed.

Lemma unknown_packet_message_dumped (ty : Protocol.Server) (dumped : string) :
  exists text : string, unknown_packet_message ty dumped = (text ++ dumped)%string.
Proof.
  unfold unknown_packet_message.
  exists ("Unknown packet " ++ toString (tag_of ty)
            ++ " from one of the following replicas: ")%string.
  now rewrite !string_append_assoc.
Qed.

Section UnknownPacket.

Variable castColumn : ColumnWithTypeAndName -> DataType -> Outcome ColumnPtr.

(** What [finish] does with a drained packet whose tag has no case. *)
Lemma finish_unknown (s : Executor) (tag : N) (c : Connections) :
  isQueryPending s = true ->
  hasThrownException s = false ->
  connections s = Some c ->
  sent_query s = true ->
  Packet.type (drained c) = Protocol.Other tag ->
  got_unknown_packet_from_replica (fst (finish s)) = true
  /\ snd (finish s)
     = Thrown (mkException ErrorCodes.UNKNOWN_PACKET_FROM_SERVER
                 (unknown_packet_message (Protocol.Other tag) (addresses c))).
Proof.
  intros Hpending Hthrown Hc Hsent Hty.
  unfold finish, tryCancel, drain, throwUnknownPacket.
  run_monad. rewrite Hpending, Hthrown. simpl.
  destruct (was_cancelled s) eqn:Hcancelled; simpl.
  - repeat (first [rewrite Hc | rewrite Hsent | rewrite Hty | progress simpl]).
    auto.
  - destruct (read_context s);
      repeat (first [rewrite Hc | rewrite Hsent | rewrite Hty | progress simpl]);
      auto.
Qed.

(** C9.  A packet whose tag is outside the kinds the executor has a case
    for makes dispatch set [got_unknown_packet_from_replica] and throw
    [UNKNOWN_PACKET_FROM_SERVER] with a message that carries the dumped
    addresses of the connections; [finish] does the same with such a
    packet handed back by the drain. *)
Theorem unknown_packet_fails (s : Executor) (packet : Packet.t) (tag : N)
        (c : Connections) :
  connections s = Some c ->
  (Packet.type packet = Protocol.Other tag ->
   exists text,
     processPacket castColumn packet s
     = (set_got_unknown_packet_from_replica true s,
        Thrown (mkException ErrorCodes.UNKNOWN_PACKET_FROM_SERVER
                  (text ++ addresses c)%string)))
  /\ (isQueryPending s = true -> hasThrownException s = false ->
      sent_query s = true ->
      Packet.type (drained c) = Protocol.Other tag ->
      exists text,
        got_unknown_packet_from_replica (fst (finish s)) = true
        /\ snd (finish s)
           = Thrown (mkException ErrorCodes.UNKNOWN_PACKET_FROM_SERVER
                       (text ++ addresses c)%string)).
Proof.
  intros Hc. split.
  - intros Hty.
    destruct (unknown_packet_message_dumped (Protocol.Other tag) (addresses c))
      as (text & Htext).
    exists text. rewrite <- Htext. now apply processPacket_unknown.
  - intros Hpending Hthrown Hsent Hty.
    destruct (unknown_packet_message_dumped (Protocol.Other tag) (addresses c))
      as (text & Htext).
    exists text. rewrite <- Htext. now apply finish_unknown.
Qed.

End UnknownPacket.

(* ================================================================== *)
(** * Sending the query *)
(* ================================================================== *)

Section Sending.

Variable castColumn : ColumnWithTypeAndName -> DataType -> Outcome ColumnPtr.
Variable OS_LINUX : bool.

(** [sendQuery] when the shard is skipped: the factory has been invoked and
    nothing else has happened. *)
Lemma sendQuery_skips (s : Executor) (kind : QueryKind.t) :
  sent_query s = false ->
  skip_unavailable_shards (settings s) = true ->
  conn_size (create_connections s (created s)) = 0 ->
  sendQuery kind s
  = (set_created (S (created s))
       (set_connections (Some (create_connections s (created s))) s),
     Returned tt).
Proof.
  intros Hsent Hskip Hzero. unfold sendQuery, needToSkipUnavailableShard.
  run_monad. rewrite Hsent. simpl. rewrite Hskip. simpl. rewrite Hzero. reflexivity.
Qed.

Lemma read_skips (s : Executor) (fuel : nat) :
  sent_query s = false ->
  skip_unavailable_shards (settings s) = true ->
  conn_size (create_connections s (created s)) = 0 ->
  read castColumn OS_LINUX fuel s
  = (set_created (S (created s))
       (set_connections (Some (create_connections s (created s))) s),
     Returned (ReadResult.of_block empty_block)).
Proof.
  intros Hsent Hskip Hzero. unfold read, read_with.
  unfold bind at 1. unfold gets at 1. rewrite Hsent. simpl.
  unfold bind at 1.
  rewrite (sendQuery_skips s QueryKind.SECONDARY_QUERY Hsent Hskip Hzero).
  run_monad. simpl. rewrite Hskip. simpl. rewrite Hzero. reflexivity.
Qed.

(** C7.  With [skip_unavailable_shards] on and a factory that yields no
    usable connection, [sendQuery] returns having put nothing on the wire
    and without marking the query as sent, and the first [read()], whether
    or not [sendQuery] was called before it, returns the terminal empty
    block, again with nothing sent or received. *)
Theorem skip_unavailable_shard (s : Executor) (kind : QueryKind.t) (fuel : nat) :
  sent_query s = false ->
  skip_unavailable_shards (settings s) = true ->
  (forall n, conn_size (create_connections s n) = 0) ->
  let sent := sendQuery kind s in
  snd sent = Returned tt
  /\ trace (fst sent) = trace s
  /\ sent_query (fst sent) = false
  /\ snd (read castColumn OS_LINUX fuel s)
     = Returned (ReadResult.of_block empty_block)
  /\ trace (fst (read castColumn OS_LINUX fuel s)) = trace s
  /\ snd (read castColumn OS_LINUX fuel (fst sent))
     = Returned (ReadResult.of_block empty_block)
  /\ trace (fst (read castColumn OS_LINUX fuel (fst sent))) = trace s.
Proof.
  intros Hsent Hskip Hzero sent. subst sent.
  rewrite (sendQuery_skips s kind Hsent Hskip (Hzero _)).
  rewrite (read_skips s fuel Hsent Hskip (Hzero _)). simpl.
  rewrite read_skips; simpl; auto.
  repeat split; auto.
Qed.

End Sending.

(* ================================================================== *)
(** * Cancellation *)
(* ================================================================== *)

Section Cancellation.

Variable castColumn : ColumnWithTypeAndName -> DataType -> Outcome ColumnPtr.
Variable OS_LINUX : bool.

(** [cancel] on a pending query that has not failed reaches [tryCancel],
    which sets [was_cancelled]. *)
Lemma cancel_sets_was_cancelled (s : Executor) :
  isQueryPending s = true ->
  hasThrownException s = false ->
  was_cancelled (fst (cancel s)) = true.
Proof.
  intros Hpending Hthrown. unfold cancel, tryCancel. run_monad.
  unfold isQueryPending, hasThrownException in *. simpl.
  rewrite Hpending, Hthrown. simpl.
  destruct (was_cancelled s) eqn:Hc; simpl; [exact Hc|].
  destruct (read_context s); simpl;
    destruct (connections s) eqn:Hconn; simpl; try reflexivity;
      destruct (sent_query s); simpl; rewrite ?Hconn; reflexivity.
Qed.

(** Once [was_cancelled] is set, [cancel] changes nothing but the flags of
    the external tables. *)
Lemma cancel_when_cancelled (s : Executor) :
  was_cancelled s = true ->
  was_cancelled (fst (cancel s)) = true /\ trace (fst (cancel s)) = trace s.
Proof.
  intros Hc. unfold cancel, tryCancel. run_monad.
  unfold isQueryPending, hasThrownException. simpl.
  destruct (negb _ || _); simpl; auto.
  rewrite Hc. simpl. auto.
Qed.

(** Once [was_cancelled] is set, [sendQuery] sends nothing. *)
Lemma sendQuery_when_cancelled (s : Executor) (kind : QueryKind.t) :
  was_cancelled s = true ->
  exists s1,
    sendQuery kind s = (s1, Returned tt)
    /\ was_cancelled s1 = true
    /\ trace s1 = trace s
    /\ sent_query s1 = sent_query s
    /\ settings s1 = settings s
    /\ (sent_query s = false -> exists c, connections s1 = Some c).
Proof.
  intros Hc. unfold sendQuery, needToSkipUnavailableShard. run_monad.
  destruct (sent_query s) eqn:Hsent; simpl.
  - exists s. repeat split; auto. discriminate.
  - destruct (skip_unavailable_shards (settings s)); simpl.
    + destruct (conn_size (create_connections s (created s)) =? 0); simpl;
        rewrite ?Hc; simpl; eexists; repeat split; simpl; eauto.
    + rewrite Hc. simpl. eexists; repeat split; simpl; eauto.
Qed.

Lemma read_loop_when_cancelled (s : Executor) (fuel : nat) :
  was_cancelled s = true ->
  read_loop castColumn OS_LINUX (S fuel) s
  = (s, Returned (ReadResult.of_block empty_block)).
Proof.
  intros Hc. simpl. run_monad. now rewrite Hc.
Qed.

(** Once [was_cancelled] is set, [read()] answers with the terminal empty
    block and receives nothing. *)
Lemma read_when_cancelled (s : Executor) (fuel : nat) :
  was_cancelled s = true ->
  0 < fuel ->
  exists s',
    read castColumn OS_LINUX fuel s = (s', Returned (ReadResult.of_block empty_block))
    /\ was_cancelled s' = true
    /\ trace s' = trace s
    /\ sent_query s' = sent_query s.
Proof.
  intros Hc Hfuel. destruct fuel as [|fuel]; [lia|].
  unfold read, read_with.
  unfold bind at 1. unfold gets at 1.
  destruct (sent_query s) eqn:Hsent; cbv beta iota; unfold negb.
  - rewrite (read_loop_when_cancelled s fuel Hc). eauto.
  - unfold bind at 1.
    destruct (sendQuery_when_cancelled s QueryKind.SECONDARY_QUERY Hc)
      as (s1 & Hs1 & Hc1 & Htrace & Hsent1 & Hsettings & Hconn).
    destruct (Hconn Hsent) as (c & Hcon).
    rewrite Hs1. rewrite Hsent in Hsent1.
    unfold bind at 1. unfold gets at 1. cbv beta iota. rewrite Hsettings.
    destruct (skip_unavailable_shards (settings s)).
    + unfold bind at 1. unfold connections_size, the_connections.
      run_monad. rewrite Hcon.
      destruct (conn_size c =? 0).
      * exists s1. auto.
      * rewrite (read_loop_when_cancelled s1 fuel Hc1). exists s1. auto.
    + unfold bind at 1. unfold ret at 1.
      rewrite (read_loop_when_cancelled s1 fuel Hc1). exists s1. auto.
Qed.

Lemma run_calls_when_cancelled (fuel : nat) (calls : list Call) (s : Executor) :
  was_cancelled s = true ->
  0 < fuel ->
  Forall (fun o => o = Returned (ReadResult.of_block empty_block))
         (snd (run_calls castColumn OS_LINUX fuel calls s))
  /\ was_cancelled (fst (run_calls castColumn OS_LINUX fuel calls s)) = true
  /\ trace (fst (run_calls castColumn OS_LINUX fuel calls s)) = trace s.
Proof.
  intros Hc Hfuel. revert s Hc.
  induction calls as [|[|] calls IH]; intros s Hc; simpl.
  - auto.
  - destruct (read_when_cancelled s Hc Hfuel) as (s1 & Hread & Hc1 & Htrace & _).
    rewrite Hread.
    destruct (IH s1 Hc1) as (Hall & Hc2 & Htrace2).
    destruct (run_calls castColumn OS_LINUX fuel calls s1) as [s2 os].
    simpl in *. repeat split; [constructor; auto|auto|congruence].
  - destruct (cancel_when_cancelled s Hc) as (Hc1 & Htrace).
    destruct (IH _ Hc1) as (Hall & Hc2 & Htrace2).
    repeat split; auto. congruence.
Qed.

(** C1, as amended.  When [cancel()] is called on a query that is pending
    (a read context exists and the stream has not finished) and that has
    not failed, [was_cancelled] is set; from then on, in every sequence of
    further [read()] and [cancel()] calls, every [read()] answers with the
    terminal empty block, and no call receives or sends anything. *)
Theorem read_after_cancel (s : Executor) (fuel : nat) (calls : list Call) :
  isQueryPending s = true ->
  hasThrownException s = false ->
  0 < fuel ->
  let cancelled := fst (cancel s) in
  was_cancelled cancelled = true
  /\ Forall (fun o => o = Returned (ReadResult.of_block empty_block))
            (snd (run_calls castColumn OS_LINUX fuel calls cancelled))
  /\ List.length (snd (run_calls castColumn OS_LINUX fuel calls cancelled))
     = List.length (filter (fun c => match c with CallRead => true | _ => false end) calls)
  /\ trace (fst (run_calls castColumn OS_LINUX fuel calls cancelled))
     = trace cancelled.
Proof.
  intros Hpending Hthrown Hfuel cancelled.
  assert (Hc : was_cancelled cancelled = true)
    by exact (cancel_sets_was_cancelled s Hpending Hthrown).
  destruct (run_calls_when_cancelled calls cancelled Hc Hfuel) as (Hall & _ & Htrace).
  repeat split; auto.
  clear. generalize cancelled. induction calls as [|[|] calls IH]; intros s0; simpl; auto.
  specialize (IH (fst (read castColumn OS_LINUX fuel s0))).
  destruct (read castColumn OS_LINUX fuel s0) as [s1 o].
  destruct (run_calls castColumn OS_LINUX fuel calls s1) as [s2 os] eqn:E.
  simpl in *. rewrite E in IH. simpl in IH. now f_equal.
Qed.

End Cancellation.

(* ================================================================== *)
(** * Properties kept by the calls *)
(* ================================================================== *)

Section Preservation.

Variable P : Executor -> Prop.

Lemma preserves_ret {A : Type} (a : A) : preserves P (ret a).
Proof. intros s Hs. exact Hs. Qed.

Lemma preserves_lift {A : Type} (o : Outcome A) : preserves P (lift o).
Proof. intros s Hs. exact Hs. Qed.

Lemma preserves_gets {A : Type} (f : Executor -> A) : preserves P (gets f).
Proof. intros s Hs. exact Hs. Qed.

Lemma preserves_modify (f : Executor -> Executor) :
  (forall s, P s -> P (f s)) -> preserves P (modify f).
Proof. intros Hf s Hs. simpl. now apply Hf. Qed.

Lemma preserves_bind {A B : Type} (m : M A) (k : A -> M B) :
  preserves P m -> (forall a, preserves P (k a)) -> preserves P (bind m k).
Proof.
  intros Hm Hk s Hs. unfold bind. specialize (Hm s Hs).
  destruct (m s) as [s' [a| | | | |]]; simpl in *; auto.
  now apply Hk.
Qed.

(** A branch taken on a value read from the state may rely on the
    property. *)
Lemma preserves_bind_gets {A B : Type} (f : Executor -> A) (k : A -> M B) :
  (forall s, P s -> P (fst (k (f s) s))) -> preserves P (bind (gets f) k).
Proof. intros Hk s Hs. unfold bind, gets. now apply Hk. Qed.

Lemma preserves_when (b : bool) (m : M unit) :
  preserves P m -> preserves P (when b m).
Proof. intros Hm. destruct b; [exact Hm|apply preserves_ret]. Qed.

End Preservation.

(** Splits a call into its steps; what is left are the state updates. *)
Ltac preserve :=
  repeat match goal with
  | |- preserves _ (bind _ _) => apply preserves_bind; [|intros ?]
  | |- preserves _ (ret _) => apply preserves_ret
  | |- preserves _ (lift _) => apply preserves_lift
  | |- preserves _ (throw _ _) => apply preserves_lift
  | |- preserves _ (gets _) => apply preserves_gets
  | |- preserves _ (when _ _) => apply preserves_when
  | |- preserves _ nothing => apply preserves_ret
  | |- preserves _ lock_held_mutex => apply preserves_lift
  | |- preserves _ (rethrow ?e) => destruct e; apply preserves_lift
  | |- preserves _ (modify _) => apply preserves_modify
  | |- preserves _ (emit _) => apply preserves_modify
  | |- preserves _ (notify _) => apply preserves_modify
  | |- preserves _ the_connections => unfold the_connections
  | |- preserves _ connections_size => unfold connections_size
  | |- preserves _ hasActiveConnections => unfold hasActiveConnections
  | |- preserves _ dumpAddresses => unfold dumpAddresses
  | |- preserves _ (on_connections _) => unfold on_connections
  | |- preserves _ (if ?c then _ else _) => destruct c
  | |- preserves _ (match ?x with _ => _ end) => destruct x
  end.

Section SyncPath.

Variable castColumn : ColumnWithTypeAndName -> DataType -> Outcome ColumnPtr.
Variable OS_LINUX : bool.

(** No read context has been created. *)
Let sync (s : Executor) : Prop := read_context s = None.

Ltac sync_updates := try (intros ? Hsync; exact Hsync).

Lemma sendQuery_sync (kind : QueryKind.t) : preserves sync (sendQuery kind).
Proof.
  unfold sendQuery, needToSkipUnavailableShard, sendScalars, sendExternalTables.
  preserve; sync_updates.
Qed.

Lemma receivePacket_sync : preserves sync receivePacket.
Proof. unfold receivePacket. preserve; sync_updates. Qed.

Lemma processPacket_sync (packet : Packet.t) :
  preserves sync (processPacket castColumn packet).
Proof.
  unfold processPacket, processMergeTreeReadTaskRequest,
    processMergeTreeInitialReadAnnounecement, processReadTaskRequest,
    setPartUUIDs, PartUUIDs_add, pushLog, pushProfileEvents, throwUnknownPacket.
  preserve; sync_updates.
Qed.

(** Without a read context no query is pending. *)
Lemma isQueryPending_sync (s : Executor) :
  read_context s = None -> isQueryPending s = false.
Proof. unfold isQueryPending. now intros ->. Qed.

(** Without a read context [cancel] only flags the external tables. *)
Lemma cancel_sync_eq (s : Executor) :
  read_context s = None ->
  cancel s
  = (set_external_tables_data
       (map (map (fun elem => mkExternalTableData (table_name elem) true))
            (external_tables_data s)) s,
     Returned tt).
Proof.
  intros Hs. unfold cancel. run_monad. unfold isQueryPending. simpl.
  now rewrite Hs.
Qed.

(** Without a read context [finish] does nothing. *)
Lemma finish_sync_eq (s : Executor) :
  read_context s = None -> finish s = (s, Returned tt).
Proof.
  intros Hs. unfold finish. run_monad. unfold isQueryPending.
  now rewrite Hs.
Qed.

Lemma cancel_sync : preserves sync cancel.
Proof. intros s Hs. now rewrite (cancel_sync_eq s Hs). Qed.

Lemma finish_sync : preserves sync finish.
Proof. intros s Hs. now rewrite (finish_sync_eq s Hs). Qed.

Lemma restart_under_lock_sync (loop : M ReadResult.t) :
  preserves sync (restartQueryWithoutDuplicatedUUIDs_under_lock OS_LINUX loop).
Proof.
  unfold restartQueryWithoutDuplicatedUUIDs_under_lock, cancel_under_lock.
  do 2 (apply preserves_bind; [preserve; sync_updates|intros _]).
  apply preserves_bind; [preserve|intros resent].
  destruct (negb resent); [|preserve].
  do 4 (apply preserves_bind; [preserve; sync_updates|intros _]).
  apply preserves_bind_gets. intros s Hs. rewrite Hs.
  revert s Hs. change (preserves sync read_under_lock).
  unfold read_under_lock, sendQuery_under_lock, needToSkipUnavailableShard.
  preserve; sync_updates.
Qed.

Lemma read_with_sync (loop : M ReadResult.t) :
  preserves sync loop -> preserves sync (read_with loop).
Proof.
  intros Hloop. unfold read_with.
  apply preserves_bind; [preserve|intros sent].
  destruct (negb sent); [|exact Hloop].
  apply preserves_bind; [apply sendQuery_sync|intros _].
  preserve; sync_updates; exact Hloop.
Qed.

Lemma read_loop_sync (fuel : nat) :
  preserves sync (read_loop castColumn OS_LINUX fuel).
Proof.
  induction fuel as [|fuel IH]; simpl; [apply preserves_lift|].
  apply preserves_bind; [preserve|intros cancelled].
  destruct cancelled; [preserve|].
  apply preserves_bind; [apply receivePacket_sync|intros packet].
  apply preserves_bind; [apply processPacket_sync|intros anything].
  destruct (ReadResult.is_data_or_token anything); [preserve|].
  apply preserves_bind; [preserve|intros dup].
  destruct dup; [|exact IH].
  apply restart_under_lock_sync.
Qed.

Lemma read_sync (fuel : nat) : preserves sync (read castColumn OS_LINUX fuel).
Proof. apply read_with_sync, read_loop_sync. Qed.

Lemma readBlock_sync (calls fuel : nat) :
  preserves sync (readBlock castColumn OS_LINUX calls fuel).
Proof.
  induction calls as [|calls IH]; simpl; [apply preserves_lift|].
  apply preserves_bind; [apply read_sync|intros res].
  destruct (ReadResult.is_data res); [preserve|exact IH].
Qed.

Lemma run_sync_sync (calls : list SyncCall) (s : Executor) :
  read_context s = None ->
  read_context (run_sync castColumn OS_LINUX calls s) = None.
Proof.
  revert s. unfold run_sync.
  induction calls as [|c calls IH]; intros s Hs; simpl; [exact Hs|].
  apply IH. destruct c; simpl.
  - now apply sendQuery_sync.
  - now apply read_sync.
  - now apply readBlock_sync.
  - now apply cancel_sync.
  - now apply finish_sync.
Qed.

(** C3.  On an executor that has only been driven through the blocking
    calls, so that no read context was ever created, no query is pending:
    [cancel()] returns having only flagged the external tables and
    [finish()] returns having done nothing; neither sends a cancel packet
    nor drains the connections, whatever [sent_query] and [finished] say. *)
Theorem no_read_context_no_pending_query
        (s0 : Executor) (calls : list SyncCall) :
  read_context s0 = None ->
  let s := run_sync castColumn OS_LINUX calls s0 in
  read_context s = None
  /\ isQueryPending s = false
  /\ snd (cancel s) = Returned tt
  /\ trace (fst (cancel s)) = trace s
  /\ was_cancelled (fst (cancel s)) = was_cancelled s
  /\ finish s = (s, Returned tt).
Proof.
  intros H0 s.
  assert (Hs : read_context s = None) by exact (run_sync_sync calls s0 H0).
  rewrite (cancel_sync_eq s Hs), (finish_sync_eq s Hs).
  repeat split; auto using isQueryPending_sync.
Qed.

End SyncPath.

(* ================================================================== *)
(** * Reading blocks *)
(* ================================================================== *)

Section ReadBlock.

Variable castColumn : ColumnWithTypeAndName -> DataType -> Outcome ColumnPtr.
Variable OS_LINUX : bool.

Lemma readBlock_data (calls fuel : nat) (s s' : Executor) (r : ReadResult.t) :
  read castColumn OS_LINUX fuel s = (s', Returned r) ->
  ReadResult.type r = ReadResult.Data ->
  readBlock castColumn OS_LINUX (S calls) fuel s = (s', Returned (ReadResult.block r)).
Proof.
  intros Hread Hdata. simpl. unfold bind. rewrite Hread.
  unfold ReadResult.is_data. rewrite Hdata. reflexivity.
Qed.

Lemma readBlock_token (calls fuel : nat) (s s' : Executor) :
  read castColumn OS_LINUX fuel s
  = (s', Returned (ReadResult.of_type ReadResult.ParallelReplicasToken)) ->
  readBlock castColumn OS_LINUX (S calls) fuel s
  = readBlock castColumn OS_LINUX calls fuel s'.
Proof.
  intros Hread. simpl. unfold bind at 1. rewrite Hread. reflexivity.
Qed.

(** C10.  When [n] calls of [read()] in a row answer with the token of the
    parallel replicas and the next one answers with a [Data] result,
    [readBlock()] returns the block of that result and leaves the executor
    where that last [read()] left it: the tokens are dropped.  The block
    may be the terminal empty block. *)
Theorem readBlock_first_data (fuel n calls : nat) (s s1 s2 : Executor)
        (r : ReadResult.t) :
  reads_tokens castColumn OS_LINUX fuel n s s1 ->
  read castColumn OS_LINUX fuel s1 = (s2, Returned r) ->
  ReadResult.type r = ReadResult.Data ->
  n < calls ->
  readBlock castColumn OS_LINUX calls fuel s = (s2, Returned (ReadResult.getBlock r)).
Proof.
  intros Htokens Hread Hdata. revert calls.
  induction Htokens as [s|n s sa s1 Htoken _ IH]; intros calls Hlt.
  - destruct calls as [|calls]; [lia|].
    now apply readBlock_data.
  - destruct calls as [|calls]; [lia|].
    rewrite (@readBlock_token calls fuel s sa Htoken).
    apply IH; [assumption|lia].
Qed.

End ReadBlock.

(* ================================================================== *)
(** * The retry and the cancellation flag *)
(* ================================================================== *)

(** Runs a call on a state of which some fields are known. *)
Ltac exec :=
  repeat first
    [ match goal with H : ?l = _ |- context [?l] => rewrite H end
    | progress simpl ].

Lemma filter_app_no_query (l : list Event) (e : Event) :
  is_send_query e = false ->
  filter is_send_query (l ++ [e]) = filter is_send_query l.
Proof.
  intros H. rewrite filter_app. simpl. rewrite H. apply app_nil_r.
Qed.

Section Retry.

Variable castColumn : ColumnWithTypeAndName -> DataType -> Outcome ColumnPtr.

Lemma bind_returned {A B : Type} (m : M A) (k : A -> M B) (s s' : Executor) (a : A) :
  m s = (s', Returned a) -> bind m k s = k a s'.
Proof. intros H. unfold bind. now rewrite H. Qed.

(** Once [was_cancelled] is set, a [sendQuery] that has not sent the query
    yet invokes the factory and returns. *)
Lemma sendQuery_cancelled (s : Executor) (kind : QueryKind.t) :
  was_cancelled s = true ->
  sent_query s = false ->
  sendQuery kind s
  = (set_created (S (created s))
       (set_connections (Some (create_connections s (created s))) s),
     Returned tt).
Proof.
  intros Hc Hsent. unfold sendQuery, needToSkipUnavailableShard.
  run_monad. rewrite Hsent. simpl.
  destruct (skip_unavailable_shards (settings s)); simpl.
  - destruct (conn_size (create_connections s (created s)) =? 0); simpl;
      rewrite ?Hc; reflexivity.
  - now rewrite Hc.
Qed.

(** The first resumption of a fresh read context once [was_cancelled] is
    set: [sendQuery] sends nothing, and the context goes on to receive from
    the new connections. *)
Lemma ReadContext_resume_when_cancelled (s : Executor) (p : Packet.t) (d : Z) :
  was_cancelled s = true ->
  sent_query s = false ->
  read_context s = Some (mkReadContext false false false p false d) ->
  exists s' ctx',
    ReadContext_resume s = (s', Returned tt)
    /\ read_context s' = Some ctx'
    /\ rc_is_cancelled ctx' = false
    /\ rc_fd ctx' = d
    /\ was_cancelled s' = true
    /\ sent_query s' = false
    /\ settings s' = settings s
    /\ (exists c, connections s' = Some c)
    /\ filter is_send_query (trace s') = filter is_send_query (trace s).
Proof.
  intros Hc Hsent Hctx.
  unfold ReadContext_resume.
  unfold bind at 1. unfold the_read_context, bind at 1, gets at 1, lift, deref.
  rewrite Hctx. cbv beta iota. unfold rc_is_cancelled, rc_is_query_sent, negb.
  unfold rc_suspend_when_query_sent.
  rewrite (@bind_returned _ _ _ _ _ _ _
             (sendQuery_cancelled s QueryKind.SECONDARY_QUERY Hc Hsent)).
  unfold update_read_context, the_read_context, ReadContext_receive, the_connections.
  run_monad. simpl. rewrite Hctx. simpl.
  destruct (inbound (create_connections s (created s))) as [|a rest]; simpl.
  - do 2 eexists. repeat split; simpl; eauto.
  - do 2 eexists. repeat split; simpl; eauto.
    now apply filter_app_no_query.
Qed.

(** [readAsync] with a read context to recreate, once [was_cancelled] is
    set: the fresh context runs [sendQuery], which returns at its
    [was_cancelled] check, and the call ends in its first iteration. *)
Lemma readAsync_recreated_when_cancelled (fuel : nat) (s : Executor)
      (ctx : ReadContext) :
  was_cancelled s = true ->
  sent_query s = false ->
  read_context s = Some ctx ->
  resent_query s = true ->
  recreate_read_context s = true ->
  exists s' out,
    readAsync castColumn true (S fuel) s = (s', Returned out)
    /\ sent_query s' = false
    /\ was_cancelled s' = true
    /\ filter is_send_query (trace s') = filter is_send_query (trace s)
    /\ (out = ReadResult.of_block empty_block \/ out = ReadResult.of_fd (async_fd s)).
Proof.
  intros Hc Hsent Hctx Hresent Hrecreate.
  set (fresh := mkReadContext false false false (Packet.of_type (Protocol.Other 0))
                              false (async_fd s)).
  set (s3 := set_recreate_read_context false (set_read_context (Some fresh) s)).
  destruct (@ReadContext_resume_when_cancelled s3 (Packet.of_type (Protocol.Other 0))
                                               (async_fd s) Hc Hsent eq_refl)
    as (s' & ctx' & Hresume & Hctx' & Hnc & Hfd & Hc' & Hsent' & Hsettings
        & (c & Hconn) & Htrace).
  change (settings s3) with (settings s) in Hsettings.
  change (trace s3) with (trace s) in Htrace.
  assert (Hpro : readAsync castColumn true (S fuel) s
                 = readAsync_loop castColumn true (S fuel) s3).
  { unfold readAsync, readAsync_with, ReadContext_create.
    remember (readAsync_loop castColumn true (S fuel)) as loop.
    run_monad. rewrite Hctx, Hresent, Hrecreate. reflexivity. }
  rewrite Hpro. simpl readAsync_loop.
  rewrite (@bind_returned _ _ _ _ _ _ _ Hresume).
  assert (Hrest :
            forall k : ReadContext -> M ReadResult.t,
              (ctx0 <- the_read_context ;;
               if rc_is_cancelled ctx0 then ret (ReadResult.of_block empty_block) else
               if rc_is_in_progress ctx0 then ret (ReadResult.of_fd (rc_fd ctx0)) else
               cancelled <- gets was_cancelled ;;
               if cancelled then ret (ReadResult.of_block empty_block) else k ctx0) s'
              = (s', Returned (if rc_is_in_progress ctx'
                               then ReadResult.of_fd (async_fd s)
                               else ReadResult.of_block empty_block))).
  { intros k. unfold the_read_context. run_monad. rewrite Hctx', Hnc.
    destruct (rc_is_in_progress ctx'); [now rewrite Hfd|now rewrite Hc']. }
  assert (Hskip : needToSkipUnavailableShard s'
                  = (s', Returned (skip_unavailable_shards (settings s)
                                   && (conn_size c =? 0)))).
  { unfold needToSkipUnavailableShard. run_monad. rewrite Hsettings.
    destruct (skip_unavailable_shards (settings s)); [|reflexivity].
    now rewrite Hconn. }
  rewrite (@bind_returned _ _ _ _ _ _ _ Hskip).
  destruct (skip_unavailable_shards (settings s) && (conn_size c =? 0)).
  - exists s', (ReadResult.of_block empty_block). repeat split; auto.
  - cbv beta iota. rewrite Hrest. do 2 eexists. split; [reflexivity|].
    repeat split; auto. destruct (rc_is_in_progress ctx'); auto.
Qed.

Lemma readAsync_when_cancelled (OS_LINUX : bool) (fuel : nat) (s : Executor)
      (ctx : ReadContext) :
  was_cancelled s = true ->
  sent_query s = false ->
  read_context s = Some ctx ->
  resent_query s = true ->
  recreate_read_context s = true ->
  exists s' out,
    readAsync castColumn OS_LINUX (S fuel) s = (s', Returned out)
    /\ sent_query s' = false
    /\ was_cancelled s' = true
    /\ filter is_send_query (trace s') = filter is_send_query (trace s)
    /\ (out = ReadResult.of_block empty_block \/ out = ReadResult.of_fd (async_fd s)).
Proof.
  intros Hc Hsent Hctx Hresent Hrecreate.
  destruct OS_LINUX.
  - now apply readAsync_recreated_when_cancelled with (ctx := ctx).
  - destruct (read_when_cancelled castColumn false s (fuel := S fuel) Hc)
      as (s' & Hread & Hc' & Htrace & Hsent'); [lia|].
    exists s', (ReadResult.of_block empty_block).
    split; [exact Hread|]. rewrite Htrace, Hsent', Hsent. auto.
Qed.

(** [cancel] on an executor with a read context, a pending query and no
    failure: [was_cancelled] is set and no query is sent. *)
Lemma cancel_with_read_context (s : Executor) (ctx : ReadContext) :
  read_context s = Some ctx ->
  finished s = false ->
  hasThrownException s = false ->
  exists s1 ctx1,
    cancel s = (s1, Returned tt)
    /\ was_cancelled s1 = true
    /\ read_context s1 = Some ctx1
    /\ connections s1 = connections s
    /\ resent_query s1 = resent_query s
    /\ async_fd s1 = async_fd s
    /\ filter is_send_query (trace s1) = filter is_send_query (trace s).
Proof.
  intros Hctx Hfin Hthrown. unfold hasThrownException in Hthrown.
  unfold cancel, tryCancel, isQueryPending, hasThrownException.
  run_monad. exec.
  destruct (was_cancelled s) eqn:Hc; exec.
  - eexists; eexists; repeat split; simpl; eauto.
  - destruct (connections s) eqn:Hconn; exec.
    + destruct (sent_query s) eqn:Hsent; exec;
        eexists; eexists; repeat split; simpl; eauto.
      now apply filter_app_no_query.
    + eexists; eexists; repeat split; simpl; eauto.
Qed.

(** The retry on an executor with a read context, started with no lock
    held, as [readAsync()] starts it: the query is not sent again.  The call
    answers with the terminal empty block or with the descriptor to poll,
    and leaves [sent_query] unset and [was_cancelled] set. *)
Lemma retry_with_read_context (OS_LINUX : bool) (fuel : nat) (s : Executor)
      (ctx : ReadContext) (c : Connections) :
  read_context s = Some ctx ->
  finished s = false ->
  hasThrownException s = false ->
  connections s = Some c ->
  resent_query s = false ->
  exists s' out,
    restartQueryWithoutDuplicatedUUIDs castColumn OS_LINUX (S fuel) s
    = (s', Returned out)
    /\ sent_query s' = false
    /\ was_cancelled s' = true
    /\ filter is_send_query (trace s') = filter is_send_query (trace s)
    /\ (out = ReadResult.of_block empty_block \/ out = ReadResult.of_fd (async_fd s)).
Proof.
  intros Hctx Hfin Hthrown Hc Hresent.
  destruct (cancel_with_read_context s Hctx Hfin Hthrown)
    as (s1 & ctx1 & Hcancel & Hc1 & Hctx1 & Hconn1 & Hresent1 & Hfd1 & Htrace1).
  rewrite Hc in Hconn1. rewrite Hresent in Hresent1.
  set (s2 := set_got_duplicated_part_uuids false
               (set_sent_query false
                  (set_recreate_read_context true
                     (set_resent_query true
                        (set_trace (trace s1 ++ [Disconnect]) s1))))).
  destruct (@readAsync_when_cancelled OS_LINUX fuel s2 ctx1)
    as (s' & out & Hagain & Hsent & Hcancelled & Htrace & Hout);
    try (simpl; assumption); try reflexivity.
  exists s', out.
  split.
  - unfold restartQueryWithoutDuplicatedUUIDs, restartQueryWithoutDuplicatedUUIDs_with.
    remember (readAsync castColumn OS_LINUX (S fuel)) as again eqn:Eagain.
    remember (read castColumn OS_LINUX (S fuel)) as blocking eqn:Eblocking.
    rewrite (@bind_returned _ _ _ _ _ _ _ Hcancel).
    run_monad. rewrite Hconn1. cbv beta iota. simpl. rewrite Hresent1. simpl.
    rewrite Hctx1. fold s2. exact Hagain.
  - repeat split; auto.
    + rewrite Htrace. simpl. rewrite filter_app_no_query by reflexivity. exact Htrace1.
    + simpl in Hout. rewrite Hfd1 in Hout. exact Hout.
Qed.

End Retry.

(* ================================================================== *)
(** * The retry on duplicate part UUIDs *)
(* ================================================================== *)

(** Scenario S1: the header echo is consumed, the two blocks of rows are
    returned as adapted, then the terminal empty block; the stream has
    finished. *)
Example happy_path :
  let first := read castColumn_example true 4 sync_executor in
  let second := read castColumn_example true 4 (fst first) in
  let third := read castColumn_example true 4 (fst second) in
  snd first = Returned (ReadResult.of_block adapted_three_rows)
  /\ snd second = Returned (ReadResult.of_block adapted_two_rows)
  /\ snd third = Returned (ReadResult.of_block empty_block)
  /\ finished (fst third) = true.
Proof. vm_compute. repeat split. Qed.

(** On the blocking path the retry gets as far as the lock of [sendQuery]:
    the first attempt is dropped, new connections are created, and the
    call never returns.  Nothing is sent on the new connections. *)
Example retry_on_the_blocking_path :
  let run := read castColumn_example true 5 (retry_executor clean_second_attempt) in
  snd run = Deadlocked
  /\ trace (fst run)
     = [the_query; SendScalarsData 0; SendExternalTablesData 1;
        ReceivePacket Protocol.PartUUIDs; Disconnect]
  /\ resent_query (fst run) = true
  /\ sent_query (fst run) = false
  /\ created (fst run) = 2.
Proof. vm_compute. repeat split. Qed.

(** A retry that finds no shard to ask, with unavailable shards skipped,
    does return: [read()] answers with the terminal empty block.  The next
    [read()] sends the query again, after the part UUIDs to ignore, and a
    second duplicate throws. *)
Example second_duplicate_throws :
  let first := read castColumn_example true 5 flaky_retry_executor in
  let second := read castColumn_example true 5 (fst first) in
  snd first = Returned (ReadResult.of_block empty_block)
  /\ trace (fst first)
     = [the_query; SendScalarsData 0; SendExternalTablesData 1;
        ReceivePacket Protocol.PartUUIDs; Disconnect]
  /\ snd second = Thrown (mkException ErrorCodes.DUPLICATED_PART_UUIDS
                            "Found duplicate uuids while processing query")
  /\ trace (fst second)
     = trace (fst first)
       ++ [SendIgnoredPartUUIDs [1%N]; the_query; SendScalarsData 0;
           SendExternalTablesData 1; ReceivePacket Protocol.PartUUIDs; Disconnect].
Proof. vm_compute. repeat split. Qed.

(** C2, where the code departs from it.  On no path does the retry send
    the query again.

    From [readAsync], which starts the retry with no lock held, the
    [cancel()] at the start of the retry sets [was_cancelled], and the
    [sendQuery] of the re-entered read returns at its [was_cancelled]
    check: the connections are created anew but neither the ignored part
    UUIDs nor the query are sent.  The call answers with the terminal empty
    block, or, when the replica that was never asked stays silent, with the
    descriptor to poll.

    From [read()], which starts the retry under its guard on
    [was_cancelled_mutex], the call never returns.  After [sendQueryAsync]
    it stops at the lock of [tryCancel], before anything is cancelled or
    disconnected.  On the blocking path, and from [readAsync] in a build
    without [OS_LINUX], it disconnects, creates the connections anew and
    stops at the lock of [sendQuery]. *)
Theorem retry_never_sends_the_query_again :
  let received :=
    [the_query; SendScalarsData 0; SendExternalTablesData 1;
     ReceivePacket Protocol.PartUUIDs] in
  let cancelled_trace := received ++ [SendCancel; Disconnect] in
  let async := readAsync castColumn_example true 5 (retry_executor clean_second_attempt) in
  let silent := readAsync castColumn_example true 5 (retry_executor []) in
  let mixed := read castColumn_example true 5
                    (fst (sendQueryAsync (retry_executor clean_second_attempt))) in
  let blocking := read castColumn_example true 5 (retry_executor clean_second_attempt) in
  let other_build :=
    readAsync castColumn_example false 5 (retry_executor clean_second_attempt) in
  (snd async = Returned (ReadResult.of_block empty_block)
   /\ trace (fst async) = cancelled_trace ++ [ReceivePacket Protocol.PartUUIDs]
   /\ resent_query (fst async) = true
   /\ sent_query (fst async) = false
   /\ was_cancelled (fst async) = true
   /\ duplicated_part_uuids (fst async) = [1%N])
  /\ (snd silent = Returned (ReadResult.of_fd 3)
      /\ trace (fst silent) = cancelled_trace
      /\ sent_query (fst silent) = false)
  /\ (snd mixed = Deadlocked
      /\ trace (fst mixed) = received
      /\ was_cancelled (fst mixed) = false
      /\ resent_query (fst mixed) = false)
  /\ (snd blocking = Deadlocked
      /\ trace (fst blocking) = received ++ [Disconnect]
      /\ resent_query (fst blocking) = true
      /\ sent_query (fst blocking) = false
      /\ duplicated_part_uuids (fst blocking) = [1%N])
  /\ (snd other_build = Deadlocked
      /\ trace (fst other_build) = received ++ [Disconnect]
      /\ sent_query (fst other_build) = false).
Proof. vm_compute. repeat split. Qed.

(* ================================================================== *)
(** * The statements at concrete executors *)
(* ================================================================== *)

Lemma castColumn_example_same_type (c : ColumnWithTypeAndName) :
  castColumn_example c (type c) = Returned (column c).
Proof. unfold castColumn_example. now rewrite String.eqb_refl. Defined.

Lemma header_kv_unique_names : NoDup (names header_kv).
Proof.
  repeat constructor; simpl; intros H;
    repeat (destruct H as [H|H]; try discriminate H); exact H.
Defined.

(** Two executors on which [read()] hands out rows after [cancel()] has
    returned.  The first is scenario S3 on the blocking path: the first block
    has been read, [cancel()] is called, and [read()] returns the next block
    of rows.  The second has a read context and has seen an exception from
    one replica: [cancel()] returns at its check of [hasThrownException], and
    [read()] returns the rows of the other replica. *)
Lemma read_returns_rows_after_cancel :
  let first := read castColumn_example true 3 sync_executor in
  let second := read castColumn_example true 3 (fst (cancel (fst first))) in
  let failed := read castColumn_example true 3 failing_executor in
  let after_failure := read castColumn_example true 3 (fst (cancel (fst failed))) in
  (snd first = Returned (ReadResult.of_block adapted_three_rows)
   /\ snd second = Returned (ReadResult.of_block adapted_two_rows)
   /\ rows adapted_two_rows = 2
   /\ snd second <> Returned (ReadResult.of_block empty_block))
  /\ (isQueryPending failing_executor = true
      /\ snd failed = Thrown remote_error
      /\ hasThrownException (fst failed) = true
      /\ snd after_failure = Returned (ReadResult.of_block adapted_three_rows)
      /\ rows adapted_three_rows = 3).
Proof. vm_compute. repeat split. discriminate. Qed.

(** On the blocking path, with the query sent and the stream not finished,
    [cancel()] and [finish()] put nothing on the wire. *)
Example blocking_cancel_mid_stream :
  let s := fst (read castColumn_example true 3 sync_executor) in
  sent_query s = true
  /\ finished s = false
  /\ isQueryPending s = false
  /\ trace (fst (cancel s)) = trace s
  /\ was_cancelled (fst (cancel s)) = false
  /\ finish s = (s, Returned tt).
Proof. vm_compute. repeat split. Qed.

Lemma read_after_cancel_witness :
  let cancelled := fst (cancel pending_executor) in
  was_cancelled cancelled = true
  /\ Forall (fun o => o = Returned (ReadResult.of_block empty_block))
            (snd (run_calls castColumn_example true 2
                            [CallRead; CallCancel; CallRead] cancelled))
  /\ List.length (snd (run_calls castColumn_example true 2
                                 [CallRead; CallCancel; CallRead] cancelled))
     = List.length (filter (fun c => match c with CallRead => true | _ => false end)
                           [CallRead; CallCancel; CallRead])
  /\ trace (fst (run_calls castColumn_example true 2
                           [CallRead; CallCancel; CallRead] cancelled))
     = trace cancelled.
Proof.
  apply (@read_after_cancel castColumn_example true pending_executor 2
                            [CallRead; CallCancel; CallRead]).
  - reflexivity.
  - reflexivity.
  - lia.
Defined.

Lemma no_read_context_no_pending_query_witness :
  let s := run_sync castColumn_example true [SyncRead 3] sync_executor in
  read_context s = None
  /\ isQueryPending s = false
  /\ snd (cancel s) = Returned tt
  /\ trace (fst (cancel s)) = trace s
  /\ was_cancelled (fst (cancel s)) = was_cancelled s
  /\ finish s = (s, Returned tt).
Proof.
  apply (@no_read_context_no_pending_query castColumn_example true sync_executor
                                           [SyncRead 3]).
  reflexivity.
Defined.

Lemma processPacket_Data_witness :
  processPacket castColumn_example (Packet.with_block Protocol.Data header_echo)
                sync_executor
  = (sync_executor, Returned (ReadResult.of_type ReadResult.Nothing)).
Proof.
  apply (@processPacket_Data castColumn_example sync_executor
                             (Packet.with_block Protocol.Data header_echo) eq_refl).
  right. reflexivity.
Defined.


Lemma adaptBlockStructure_idempotent_witness :
  obind (adaptBlockStructure castColumn_example three_rows header_kv)
        (fun R => adaptBlockStructure castColumn_example R header_kv)
  = adaptBlockStructure castColumn_example three_rows header_kv.
Proof.
  apply (@adaptBlockStructure_idempotent castColumn_example
           castColumn_example_same_type three_rows header_kv
           header_kv_unique_names).
  reflexivity.
Defined.

Lemma skip_unavailable_shard_witness :
  let sent := sendQuery QueryKind.INITIAL_QUERY skipping_executor in
  snd sent = Returned tt
  /\ trace (fst sent) = trace skipping_executor
  /\ sent_query (fst sent) = false
  /\ snd (read castColumn_example true 0 skipping_executor)
     = Returned (ReadResult.of_block empty_block)
  /\ trace (fst (read castColumn_example true 0 skipping_executor))
     = trace skipping_executor
  /\ snd (read castColumn_example true 0 (fst sent))
     = Returned (ReadResult.of_block empty_block)
  /\ trace (fst (read castColumn_example true 0 (fst sent)))
     = trace skipping_executor.
Proof.
  apply (@skip_unavailable_shard castColumn_example true skipping_executor
                                 QueryKind.INITIAL_QUERY 0).
  - reflexivity.
  - reflexivity.
  - intros n. reflexivity.
Defined.

Lemma processPacket_EndOfStream_witness :
  processPacket castColumn_example (Packet.of_type Protocol.EndOfStream)
                (set_connections (Some ended_shard) sync_executor)
  = (set_finished true (set_connections (Some ended_shard) sync_executor),
     Returned (ReadResult.of_block empty_block)).
Proof.
  apply (@processPacket_EndOfStream castColumn_example
           (set_connections (Some ended_shard) sync_executor)
           (Packet.of_type Protocol.EndOfStream) ended_shard eq_refl eq_refl).
  reflexivity.
Defined.

Lemma unknown_packet_fails_witness :
  exists text,
    processPacket castColumn_example (Packet.of_type (Protocol.Other 255))
                  (set_connections (Some confused_shard) sync_executor)
    = (set_got_unknown_packet_from_replica true
         (set_connections (Some confused_shard) sync_executor),
       Thrown (mkException ErrorCodes.UNKNOWN_PACKET_FROM_SERVER
                 (text ++ "shard-1:9000")%string)).
Proof.
  apply (@unknown_packet_fails castColumn_example
           (set_connections (Some confused_shard) sync_executor)
           (Packet.of_type (Protocol.Other 255)) 255%N confused_shard eq_refl).
  reflexivity.
Defined.

Lemma readBlock_first_data_witness :
  readBlock castColumn_example true 2 3 coordinated_executor
  = (fst (read castColumn_example true 3
               (fst (read castColumn_example true 3 coordinated_executor))),
     Returned adapted_three_rows).
Proof.
  apply (@readBlock_first_data castColumn_example true 3 1 2 coordinated_executor
           (fst (read castColumn_example true 3 coordinated_executor))
           (fst (read castColumn_example true 3
                      (fst (read castColumn_example true 3 coordinated_executor))))
           (ReadResult.of_block adapted_three_rows)).
  - econstructor; [|constructor]. vm_compute. reflexivity.
  - vm_compute. reflexivity.
  - reflexivity.
  - lia.
Defined.

(* ================================================================== *)
(** * Properties kept by every call *)
(* ================================================================== *)

(** A property of the executor that the building blocks of the calls keep is
    kept by every call of the programmatic surface, and so along every
    sequence of calls. *)
Section ApiInvariant.

Variable castColumn : ColumnWithTypeAndName -> DataType -> Outcome ColumnPtr.
Variable OS_LINUX : bool.
Variable P : Executor -> Prop.

Hypothesis kept_by_sendQuery : forall kind, preserves P (sendQuery kind).
Hypothesis kept_by_processPacket : forall packet, preserves P (processPacket castColumn packet).
Hypothesis kept_by_cancel : preserves P cancel.
Hypothesis kept_by_finish : preserves P finish.
Hypothesis kept_by_receivePacket : preserves P receivePacket.
Hypothesis kept_by_receive : preserves P ReadContext_receive.
Hypothesis kept_by_disconnect : preserves P (on_connections Disconnect).
Hypothesis kept_by_retry_flags :
  forall s, resent_query s = false -> P s ->
            P (set_got_duplicated_part_uuids false
                 (set_sent_query false
                    (set_recreate_read_context true (set_resent_query true s)))).
Hypothesis kept_by_read_context : forall c s, P s -> P (set_read_context c s).
Hypothesis kept_by_recreate : forall b s, P s -> P (set_recreate_read_context b s).
Hypothesis kept_by_cancel_under_lock : preserves P cancel_under_lock.
Hypothesis kept_by_sendQuery_under_lock : preserves P sendQuery_under_lock.

Lemma read_under_lock_kept : preserves P read_under_lock.
Proof.
  unfold read_under_lock.
  apply preserves_bind; [apply preserves_gets|intros sent].
  destruct (negb sent); [|preserve].
  apply preserves_bind; [exact kept_by_sendQuery_under_lock|intros _].
  preserve.
Qed.

Lemma readAsync_under_lock_kept (loop : M ReadResult.t) :
  preserves P loop -> preserves P (readAsync_under_lock OS_LINUX loop).
Proof.
  intros Hloop. unfold readAsync_under_lock.
  destruct OS_LINUX; [|exact read_under_lock_kept].
  do 3 (apply preserves_bind; [apply preserves_gets|intros ?]).
  match goal with |- preserves _ (if ?c then _ else _) => destruct c end;
    [preserve|exact Hloop].
Qed.

Lemma restart_under_lock_kept (loop : M ReadResult.t) :
  preserves P loop ->
  preserves P (restartQueryWithoutDuplicatedUUIDs_under_lock OS_LINUX loop).
Proof.
  intros Hloop. unfold restartQueryWithoutDuplicatedUUIDs_under_lock.
  apply preserves_bind; [exact kept_by_cancel_under_lock|intros _].
  apply preserves_bind; [exact kept_by_disconnect|intros _].
  apply preserves_bind_gets. intros s Hs.
  destruct (resent_query s) eqn:Hresent; [exact Hs|].
  change (P (fst ((ctx <- gets read_context ;;
                   match ctx with
                   | None => read_under_lock
                   | Some _ => readAsync_under_lock OS_LINUX loop
                   end)
                    (set_got_duplicated_part_uuids false
                       (set_sent_query false
                          (set_recreate_read_context true (set_resent_query true s))))))).
  assert (Hrest : preserves P (ctx <- gets read_context ;;
                               match ctx with
                               | None => read_under_lock
                               | Some _ => readAsync_under_lock OS_LINUX loop
                               end)).
  { apply preserves_bind; [apply preserves_gets|].
    intros [ctx|]; [now apply readAsync_under_lock_kept|exact read_under_lock_kept]. }
  apply Hrest. now apply kept_by_retry_flags.
Qed.

Lemma restart_kept (read_again readAsync_again : M ReadResult.t) :
  preserves P read_again -> preserves P readAsync_again ->
  preserves P (restartQueryWithoutDuplicatedUUIDs_with read_again readAsync_again).
Proof.
  intros Hread Hasync. unfold restartQueryWithoutDuplicatedUUIDs_with.
  apply preserves_bind; [exact kept_by_cancel|intros _].
  apply preserves_bind; [exact kept_by_disconnect|intros _].
  apply preserves_bind_gets. intros s Hs.
  destruct (resent_query s) eqn:Hresent; [exact Hs|].
  change (P (fst ((ctx <- gets read_context ;;
                   match ctx with
                   | None => read_again
                   | Some _ => readAsync_again
                   end)
                    (set_got_duplicated_part_uuids false
                       (set_sent_query false
                          (set_recreate_read_context true (set_resent_query true s))))))).
  assert (Hrest : preserves P (ctx <- gets read_context ;;
                               match ctx with
                               | None => read_again
                               | Some _ => readAsync_again
                               end)).
  { apply preserves_bind; [apply preserves_gets|]. intros [ctx|]; assumption. }
  apply Hrest. now apply kept_by_retry_flags.
Qed.

Lemma read_with_kept (loop : M ReadResult.t) :
  preserves P loop -> preserves P (read_with loop).
Proof.
  intros Hloop. unfold read_with.
  apply preserves_bind; [apply preserves_gets|intros sent].
  destruct (negb sent); [|exact Hloop].
  apply preserves_bind; [apply kept_by_sendQuery|intros _].
  preserve; exact Hloop.
Qed.

Lemma ReadContext_create_kept (b : bool) : preserves P (ReadContext_create b).
Proof.
  unfold ReadContext_create. preserve. intros s Hs. now apply kept_by_read_context.
Qed.

Lemma update_read_context_kept (f : ReadContext -> ReadContext) :
  preserves P (update_read_context f).
Proof.
  unfold update_read_context, the_read_context. preserve.
  intros s Hs. now apply kept_by_read_context.
Qed.

Lemma ReadContext_resume_kept : preserves P ReadContext_resume.
Proof.
  unfold ReadContext_resume, the_read_context.
  apply preserves_bind; [preserve|intros ctx].
  destruct (rc_is_cancelled ctx); [apply preserves_ret|].
  destruct (negb (rc_is_query_sent ctx)); [|exact kept_by_receive].
  apply preserves_bind; [apply kept_by_sendQuery|intros _].
  apply preserves_bind; [apply update_read_context_kept|intros _].
  destruct (rc_suspend_when_query_sent ctx);
    [apply update_read_context_kept|exact kept_by_receive].
Qed.

Lemma readAsync_with_kept (loop blocking : M ReadResult.t) :
  preserves P loop -> preserves P blocking ->
  preserves P (readAsync_with OS_LINUX loop blocking).
Proof.
  intros Hloop Hblocking. unfold readAsync_with.
  destruct OS_LINUX; [|exact Hblocking].
  do 3 (apply preserves_bind; [apply preserves_gets|intros ?]).
  apply preserves_bind; [|intros _; exact Hloop].
  match goal with |- preserves _ (if ?c then _ else _) => destruct c end;
    [|apply preserves_ret].
  apply preserves_bind; [apply ReadContext_create_kept|intros _].
  apply preserves_modify. intros s Hs. now apply kept_by_recreate.
Qed.

Lemma needToSkipUnavailableShard_kept : preserves P needToSkipUnavailableShard.
Proof. unfold needToSkipUnavailableShard. preserve. Qed.

Lemma loops_kept (fuel : nat) :
  preserves P (read_loop castColumn OS_LINUX fuel)
  /\ preserves P (readAsync_loop castColumn OS_LINUX fuel).
Proof.
  induction fuel as [|fuel [IHread IHasync]]; simpl;
    [split; apply preserves_lift|].
  assert (Hrestart :
            preserves P
              (restartQueryWithoutDuplicatedUUIDs_with
                 (read_with (read_loop castColumn OS_LINUX fuel))
                 (readAsync_with OS_LINUX (readAsync_loop castColumn OS_LINUX fuel)
                                 (read_with (read_loop castColumn OS_LINUX fuel))))).
  { apply restart_kept; [now apply read_with_kept|].
    apply readAsync_with_kept; [assumption|now apply read_with_kept]. }
  split.
  - apply preserves_bind; [apply preserves_gets|intros cancelled].
    destruct cancelled; [apply preserves_ret|].
    apply preserves_bind; [exact kept_by_receivePacket|intros packet].
    apply preserves_bind; [apply kept_by_processPacket|intros anything].
    destruct (ReadResult.is_data_or_token anything); [apply preserves_ret|].
    apply preserves_bind; [apply preserves_gets|intros dup].
    destruct dup; [now apply restart_under_lock_kept|assumption].
  - apply preserves_bind; [exact ReadContext_resume_kept|intros _].
    apply preserves_bind; [exact needToSkipUnavailableShard_kept|intros skip].
    destruct skip; [apply preserves_ret|].
    apply preserves_bind; [unfold the_read_context; preserve|intros ctx].
    destruct (rc_is_cancelled ctx); [apply preserves_ret|].
    destruct (rc_is_in_progress ctx); [apply preserves_ret|].
    apply preserves_bind; [apply preserves_gets|intros cancelled].
    destruct cancelled; [apply preserves_ret|].
    apply preserves_bind; [apply kept_by_processPacket|intros anything].
    destruct (ReadResult.is_data_or_token anything); [apply preserves_ret|].
    apply preserves_bind; [apply preserves_gets|intros dup].
    destruct dup; assumption.
Qed.

Lemma read_kept (fuel : nat) : preserves P (read castColumn OS_LINUX fuel).
Proof. apply read_with_kept, loops_kept. Qed.

Lemma readAsync_kept (fuel : nat) : preserves P (readAsync castColumn OS_LINUX fuel).
Proof. apply readAsync_with_kept; [apply loops_kept|apply read_kept]. Qed.

Lemma readBlock_kept (calls fuel : nat) :
  preserves P (readBlock castColumn OS_LINUX calls fuel).
Proof.
  induction calls as [|calls IH]; simpl; [apply preserves_lift|].
  apply preserves_bind; [apply read_kept|intros res].
  destruct (ReadResult.is_data res); [apply preserves_ret|exact IH].
Qed.

Lemma sendQueryAsync_kept : preserves P sendQueryAsync.
Proof.
  unfold sendQueryAsync.
  apply preserves_bind; [apply preserves_gets|intros ctx].
  apply preserves_bind;
    [destruct ctx; [apply preserves_ret|apply ReadContext_create_kept]|intros _].
  apply preserves_bind; [unfold the_read_context; preserve|intros ctx1].
  destruct (rc_is_query_sent ctx1); [apply preserves_ret|].
  apply preserves_bind; [exact ReadContext_resume_kept|intros _].
  unfold the_read_context. preserve.
Qed.

Lemma api_call_kept (c : ApiCall) (s : Executor) :
  P s -> P (api_call castColumn OS_LINUX c s).
Proof.
  intros Hs. destruct c; simpl.
  - now apply kept_by_sendQuery.
  - now apply sendQueryAsync_kept.
  - now apply read_kept.
  - now apply readAsync_kept.
  - now apply readBlock_kept.
  - now apply kept_by_finish.
  - now apply kept_by_cancel.
Qed.

Lemma run_api_kept (calls : list ApiCall) (s : Executor) :
  P s -> P (run_api castColumn OS_LINUX calls s).
Proof.
  revert s. unfold run_api.
  induction calls as [|c calls IH]; intros s Hs; simpl; [exact Hs|].
  apply IH. now apply api_call_kept.
Qed.

End ApiInvariant.

(* ================================================================== *)
(** * Flags that are never cleared *)
(* ================================================================== *)

(** Closes the goals that [preserve] leaves for a property that the state
    updates either keep or establish. *)
Ltac kept := intros; simpl in *; first [assumption | reflexivity].

Ltac kept_by_blocks_with solver :=
  unfold cancel_under_lock, sendQuery_under_lock,
    cancel, finish, sendQuery, processPacket, receivePacket, ReadContext_receive,
    tryCancel, drain, needToSkipUnavailableShard, sendScalars, sendExternalTables,
    processMergeTreeReadTaskRequest, processMergeTreeInitialReadAnnounecement,
    processReadTaskRequest, setPartUUIDs, PartUUIDs_add, pushLog, pushProfileEvents,
    throwUnknownPacket, update_read_context, the_read_context;
  preserve; solver.

Ltac kept_by_blocks := kept_by_blocks_with kept.

Section StickyFlags.

Variable castColumn : ColumnWithTypeAndName -> DataType -> Outcome ColumnPtr.
Variable OS_LINUX : bool.

Lemma finished_kept (calls : list ApiCall) (s : Executor) :
  finished s = true -> finished (run_api castColumn OS_LINUX calls s) = true.
Proof.
  intros Hs.
  apply (@run_api_kept castColumn OS_LINUX (fun st => finished st = true));
    try exact Hs; try (intros; kept_by_blocks); kept.
Qed.

Lemma resent_query_kept (calls : list ApiCall) (s : Executor) :
  resent_query s = true -> resent_query (run_api castColumn OS_LINUX calls s) = true.
Proof.
  intros Hs.
  apply (@run_api_kept castColumn OS_LINUX (fun st => resent_query st = true));
    try exact Hs; try (intros; kept_by_blocks); kept.
Qed.

Lemma got_exception_kept (calls : list ApiCall) (s : Executor) :
  got_exception_from_replica s = true ->
  got_exception_from_replica (run_api castColumn OS_LINUX calls s) = true.
Proof.
  intros Hs.
  apply (@run_api_kept castColumn OS_LINUX
           (fun st => got_exception_from_replica st = true));
    try exact Hs; try (intros; kept_by_blocks); kept.
Qed.

Lemma got_unknown_packet_kept (calls : list ApiCall) (s : Executor) :
  got_unknown_packet_from_replica s = true ->
  got_unknown_packet_from_replica (run_api castColumn OS_LINUX calls s) = true.
Proof.
  intros Hs.
  apply (@run_api_kept castColumn OS_LINUX
           (fun st => got_unknown_packet_from_replica st = true));
    try exact Hs; try (intros; kept_by_blocks); kept.
Qed.

End StickyFlags.

(* ================================================================== *)
(** * What the calls put on the wire *)
(* ================================================================== *)

Lemma queries_sent_app (l l' : list Event) :
  queries_sent (l ++ l') = queries_sent l + queries_sent l'.
Proof. unfold queries_sent. now rewrite filter_app, length_app. Qed.

Lemma cancels_sent_app (l l' : list Event) :
  cancels_sent (l ++ l') = cancels_sent l + cancels_sent l'.
Proof. unfold cancels_sent. now rewrite filter_app, length_app. Qed.

Lemma cancel_follows_query_from_app (seen : bool) (l l' : list Event) :
  cancel_follows_query_from seen (l ++ l')
  = cancel_follows_query_from seen l
    && cancel_follows_query_from (seen || existsb is_send_query l) l'.
Proof.
  revert seen. induction l as [|e l IH]; intros seen; simpl.
  - now rewrite orb_false_r.
  - destruct e; simpl; rewrite ?IH, ?orb_true_r; try reflexivity.
    now rewrite andb_assoc.
Qed.

Lemma query_packets_counts (s : Executor) (kind : QueryKind.t) (n : nat) :
  queries_sent (query_packets s kind n) = 1
  /\ cancels_sent (query_packets s kind n) = 0
  /\ existsb is_send_query (query_packets s kind n) = true
  /\ forall seen, cancel_follows_query_from seen (query_packets s kind n) = true.
Proof.
  unfold query_packets.
  destruct (duplicated_part_uuids s);
    destruct (enable_scalar_subquery_optimization (settings s));
    repeat split; intros; reflexivity.
Qed.

Lemma external_tables_data_shape (tables : list (string * bool)) (n : nat) :
  Forall (fun data => map table_name data = map fst (filter (fun t => snd t) tables)
                      /\ Forall (fun d => is_cancelled d = false) data)
         (repeat (map (fun t => mkExternalTableData (fst t) false)
                      (filter (fun t => snd t) tables)) n).
Proof.
  apply Forall_forall. intros data Hin. apply repeat_spec in Hin. subst data.
  split.
  - rewrite map_map. reflexivity.
  - apply Forall_forall. intros d Hd. apply in_map_iff in Hd.
    destruct Hd as (t & <- & _). reflexivity.
Qed.

Lemma app_snoc_cons {A : Type} (l : list A) (x y : A) (m : list A) :
  l ++ x :: y :: m = (l ++ [x]) ++ y :: m.
Proof. now rewrite <- app_assoc. Qed.

Lemma sendQuery_goes_through (s : Executor) (kind : QueryKind.t) :
  sent_query s = false ->
  was_cancelled s = false ->
  skip_unavailable_shards (settings s)
  && (conn_size (create_connections s (created s)) =? 0) = false ->
  exists s',
    sendQuery kind s = (s', Returned tt)
    /\ trace s' = trace s
                  ++ query_packets s kind (conn_size (create_connections s (created s)))
    /\ sent_query s' = true
    /\ established s' = false
    /\ was_cancelled s' = false
    /\ resent_query s' = resent_query s
    /\ connections s' = Some (create_connections s (created s))
    /\ created s' = S (created s)
    /\ Forall (fun data => map table_name data = memory_tables s
                           /\ Forall (fun d => is_cancelled d = false) data)
              (external_tables_data s')
    /\ List.length (external_tables_data s')
       = conn_size (create_connections s (created s)).
Proof.
  intros Hsent Hc Hskip.
  destruct s; simpl in *. subst.
  destruct settings0 as [skip scalar]. simpl in *.
  match goal with |- exists s', ?c = _ /\ _ => destruct c as [s' o] eqn:E end.
  unfold memory_tables, query_packets. simpl.
  vm_compute in E.
  destruct (create_connections0 created0) as [n inb act addr dr].
  simpl in Hskip.
  destruct skip; [destruct n; [discriminate Hskip|]|];
    destruct duplicated_part_uuids0; destruct scalar;
      vm_compute in E; injection E as <- <-;
        (eexists; split; [reflexivity|]);
        repeat split; simpl;
          try first [exact (external_tables_data_shape external_tables0 n)
                    |exact (external_tables_data_shape external_tables0 (S n))];
          rewrite ?repeat_length, ?app_snoc_cons; try reflexivity.
Qed.

(** [sendQuery] when it is held back: the query was sent already, the shard
    is skipped, or the query was cancelled.  Nothing is put on the wire. *)
Lemma sendQuery_held_back (s : Executor) (kind : QueryKind.t) :
  sent_query s = true
  \/ was_cancelled s = true
  \/ skip_unavailable_shards (settings s)
     && (conn_size (create_connections s (created s)) =? 0) = true ->
  exists s',
    sendQuery kind s = (s', Returned tt)
    /\ trace s' = trace s
    /\ sent_query s' = sent_query s
    /\ established s' = established s
    /\ was_cancelled s' = was_cancelled s
    /\ resent_query s' = resent_query s.
Proof.
  intros Hheld. unfold sendQuery, needToSkipUnavailableShard. run_monad.
  destruct (sent_query s) eqn:Hsent; simpl.
  - exists s. repeat split; auto.
  - destruct (skip_unavailable_shards (settings s)); simpl in *.
    + destruct (conn_size (create_connections s (created s)) =? 0); simpl.
      * eexists. split; [reflexivity|]. repeat split; auto.
      * destruct Hheld as [H|[H|H]]; try discriminate.
        rewrite H. simpl. eexists. split; [reflexivity|]. repeat split; auto.
    + destruct Hheld as [H|[H|H]]; try discriminate.
      rewrite H. simpl. eexists. split; [reflexivity|]. repeat split; auto.
Qed.

(** The two ways [sendQuery] can go. *)
Lemma sendQuery_cases (s : Executor) (kind : QueryKind.t) :
  exists s',
    sendQuery kind s = (s', Returned tt)
    /\ resent_query s' = resent_query s
    /\ ((trace s' = trace s /\ sent_query s' = sent_query s
         /\ was_cancelled s' = was_cancelled s /\ established s' = established s)
        \/ (sent_query s = false /\ was_cancelled s = false
            /\ sent_query s' = true /\ was_cancelled s' = false
            /\ established s' = false
            /\ exists n, trace s' = trace s ++ query_packets s kind n)).
Proof.
  destruct (sent_query s) eqn:Hsent.
  { destruct (sendQuery_held_back s kind) as (s' & E & H1 & H2 & H3 & H4 & H5); auto.
    exists s'. rewrite Hsent in H2. repeat split; auto. }
  destruct (was_cancelled s) eqn:Hc.
  { destruct (sendQuery_held_back s kind) as (s' & E & H1 & H2 & H3 & H4 & H5); auto.
    exists s'. rewrite Hsent in H2. rewrite Hc in H4. repeat split; auto. }
  destruct (skip_unavailable_shards (settings s)
            && (conn_size (create_connections s (created s)) =? 0)) eqn:Hskip.
  { destruct (sendQuery_held_back s kind) as (s' & E & H1 & H2 & H3 & H4 & H5); auto.
    exists s'. rewrite Hsent in H2. rewrite Hc in H4. repeat split; auto. }
  destruct (sendQuery_goes_through s kind Hsent Hc Hskip)
    as (s' & E & Ht & Hs & He & Hw & Hr & _).
  exists s'. repeat split; auto. right. repeat split; eauto.
Qed.

(** The ways [tryCancel] can go: it does nothing once [was_cancelled] is
    set; otherwise it sets the flag and sends the cancel packet when the
    query has been sent on live connections. *)
Lemma tryCancel_cases (s : Executor) :
  exists s',
    tryCancel s = (s', Returned tt)
    /\ was_cancelled s' = true
    /\ sent_query s' = sent_query s
    /\ resent_query s' = resent_query s
    /\ connections s' = connections s
    /\ ((was_cancelled s = true /\ s' = s)
        \/ (was_cancelled s = false
            /\ (trace s' = trace s
                \/ (sent_query s = true /\ trace s' = trace s ++ [SendCancel])))).
Proof.
  destruct s.
  match goal with |- exists s', ?c = _ /\ _ => destruct c as [s' o] eqn:E end.
  destruct was_cancelled0, read_context0, connections0, sent_query0;
    vm_compute in E; injection E as <- <-;
    (eexists; split; [reflexivity|]); simpl; repeat split; auto.
Qed.

(* ================================================================== *)
(** * Budgets on the wire *)
(* ================================================================== *)

Section WireBudgets.

Variable castColumn : ColumnWithTypeAndName -> DataType -> Outcome ColumnPtr.
Variable OS_LINUX : bool.

(** Closes the goals about a state update that leaves the flags alone and
    appends at most a packet that is neither a query nor a cancel. *)
Ltac budget_kept :=
  intros; unfold sends_left, cancels_left in *;
  simpl (trace _); simpl (sent_query _); simpl (resent_query _);
  simpl (was_cancelled _);
  rewrite ?queries_sent_app, ?cancels_sent_app;
  cbn [queries_sent cancels_sent filter is_send_query is_send_cancel List.length] in *;
  lia.

Lemma sends_budget_kept (n : nat) (calls : list ApiCall) (s : Executor) :
  queries_sent (trace s) + sends_left s <= n ->
  queries_sent (trace (run_api castColumn OS_LINUX calls s))
  + sends_left (run_api castColumn OS_LINUX calls s) <= n.
Proof.
  intros Hs.
  apply (@run_api_kept castColumn OS_LINUX
           (fun st => queries_sent (trace st) + sends_left st <= n));
    try exact Hs.
  - intros kind st Hst.
    destruct (sendQuery_cases st kind)
      as (s' & E & Hr & [(Ht & Hq & _) | (Hq & _ & Hq' & _ & _ & m & Ht)]);
      rewrite E; simpl; unfold sends_left in *; rewrite Ht, Hr.
    + now rewrite Hq.
    + rewrite Hq in Hst. rewrite Hq', queries_sent_app.
      destruct (query_packets_counts st kind m) as (-> & _). lia.
  - intros; kept_by_blocks_with budget_kept.
  - kept_by_blocks_with budget_kept.
  - kept_by_blocks_with budget_kept.
  - kept_by_blocks_with budget_kept.
  - kept_by_blocks_with budget_kept.
  - unfold on_connections. preserve. budget_kept.
  - intros st Hresent Hst. unfold sends_left in *. simpl.
    rewrite Hresent in Hst. destruct (sent_query st); lia.
  - budget_kept.
  - budget_kept.
  - kept_by_blocks_with budget_kept.
  - kept_by_blocks_with budget_kept.
Qed.

Lemma tryCancel_cancels_budget (n : nat) :
  preserves (fun st => cancels_sent (trace st) + cancels_left st <= n) tryCancel.
Proof.
  intros st Hst.
  destruct (tryCancel_cases st)
    as (s' & E & Hc & _ & _ & _ & [(_ & ->) | (Hc0 & [Ht | (_ & Ht)])]);
    rewrite E; cbn [fst]; [exact Hst| |];
    unfold cancels_left in *; rewrite Hc, Ht; rewrite Hc0 in Hst;
    rewrite ?cancels_sent_app;
    cbn [cancels_sent filter is_send_cancel List.length] in *; lia.
Qed.

Lemma cancels_budget_kept (n : nat) (calls : list ApiCall) (s : Executor) :
  cancels_sent (trace s) + cancels_left s <= n ->
  cancels_sent (trace (run_api castColumn OS_LINUX calls s))
  + cancels_left (run_api castColumn OS_LINUX calls s) <= n.
Proof.
  intros Hs.
  apply (@run_api_kept castColumn OS_LINUX
           (fun st => cancels_sent (trace st) + cancels_left st <= n));
    try exact Hs.
  - intros kind st Hst.
    destruct (sendQuery_cases st kind)
      as (s' & E & _ & [(Ht & _ & Hc & _) | (_ & Hc & _ & Hc' & _ & m & Ht)]);
      rewrite E; simpl; unfold cancels_left in *; rewrite Ht.
    + now rewrite Hc.
    + rewrite Hc in Hst. rewrite Hc', cancels_sent_app.
      destruct (query_packets_counts st kind m) as (_ & -> & _). lia.
  - intros; kept_by_blocks_with budget_kept.
  - unfold cancel. preserve; try apply tryCancel_cancels_budget; budget_kept.
  - unfold finish, drain, pushLog, pushProfileEvents, throwUnknownPacket.
    preserve; try apply tryCancel_cancels_budget; budget_kept.
  - kept_by_blocks_with budget_kept.
  - kept_by_blocks_with budget_kept.
  - unfold on_connections. preserve. budget_kept.
  - budget_kept.
  - budget_kept.
  - budget_kept.
  - kept_by_blocks_with budget_kept.
  - kept_by_blocks_with budget_kept.
Qed.

(** Closes the goals about a state update that leaves [sent_query] alone
    and appends at most a packet that is not a cancel. *)
Ltac order_kept :=
  let st := fresh "st" in
  let H1 := fresh "H" in
  let H2 := fresh "H" in
  intros st [H1 H2]; split;
  [ simpl (trace _); unfold cancel_follows_query in *;
    rewrite ?cancel_follows_query_from_app, ?H1; reflexivity
  | simpl (trace _); simpl (sent_query _);
    first [ exact H2
          | let Hq := fresh "H" in
            intros Hq; rewrite ?existsb_app;
            first [ rewrite (H2 Hq); reflexivity
                  | discriminate Hq ] ] ].

Lemma tryCancel_order :
  preserves (fun st => cancel_follows_query (trace st) = true
                       /\ (sent_query st = true
                           -> existsb is_send_query (trace st) = true)) tryCancel.
Proof.
  intros st [H1 H2].
  destruct (tryCancel_cases st)
    as (s' & E & _ & Hq & _ & _ & [(_ & ->) | (_ & [Ht | (Hsent & Ht)])]);
    rewrite E; simpl; [now split| |]; rewrite Hq, Ht.
  - now split.
  - split.
    + unfold cancel_follows_query in *.
      rewrite cancel_follows_query_from_app, H1, (H2 Hsent). reflexivity.
    + intros _. rewrite existsb_app, (H2 Hsent). reflexivity.
Qed.

Lemma order_kept_by_calls (calls : list ApiCall) (s : Executor) :
  cancel_follows_query (trace s) = true ->
  (sent_query s = true -> existsb is_send_query (trace s) = true) ->
  cancel_follows_query (trace (run_api castColumn OS_LINUX calls s)) = true
  /\ (sent_query (run_api castColumn OS_LINUX calls s) = true
      -> existsb is_send_query (trace (run_api castColumn OS_LINUX calls s)) = true).
Proof.
  intros Hs1 Hs2.
  apply (@run_api_kept castColumn OS_LINUX
           (fun st => cancel_follows_query (trace st) = true
                      /\ (sent_query st = true
                          -> existsb is_send_query (trace st) = true)));
    try (split; assumption).
  - intros kind st [H1 H2].
    destruct (sendQuery_cases st kind)
      as (s' & E & _ & [(Ht & Hq & _) | (_ & _ & _ & _ & _ & m & Ht)]);
      rewrite E; simpl; rewrite Ht.
    + rewrite Hq. now split.
    + destruct (query_packets_counts st kind m) as (_ & _ & Hex & Hcf).
      split.
      * unfold cancel_follows_query in *.
        now rewrite cancel_follows_query_from_app, H1, Hcf.
      * intros _. now rewrite existsb_app, Hex, orb_true_r.
  - intros; kept_by_blocks_with order_kept.
  - unfold cancel. preserve; try apply tryCancel_order; order_kept.
  - unfold finish, drain, pushLog, pushProfileEvents, throwUnknownPacket.
    preserve; try apply tryCancel_order; order_kept.
  - kept_by_blocks_with order_kept.
  - kept_by_blocks_with order_kept.
  - unfold on_connections. preserve. order_kept.
  - intros st _ [H1 H2]. split; [exact H1|]. simpl. discriminate.
  - intros c. order_kept.
  - intros b. order_kept.
  - kept_by_blocks_with order_kept.
  - kept_by_blocks_with order_kept.
Qed.

Lemma tryCancel_was_cancelled :
  preserves (fun st => was_cancelled st = true) tryCancel.
Proof.
  intros st _. destruct (tryCancel_cases st) as (s' & E & Hc & _).
  now rewrite E.
Qed.

Lemma was_cancelled_kept (calls : list ApiCall) (s : Executor) :
  was_cancelled s = true ->
  was_cancelled (run_api castColumn OS_LINUX calls s) = true.
Proof.
  intros Hs.
  apply (@run_api_kept castColumn OS_LINUX (fun st => was_cancelled st = true));
    try exact Hs.
  - intros kind st Hst.
    destruct (sendQuery_when_cancelled st kind Hst) as (s1 & E & H1 & _).
    now rewrite E.
  - intros; kept_by_blocks.
  - intros st Hst. exact (proj1 (cancel_when_cancelled st Hst)).
  - unfold finish, drain, pushLog, pushProfileEvents, throwUnknownPacket.
    preserve; try apply tryCancel_was_cancelled; kept.
  - kept_by_blocks.
  - kept_by_blocks.
  - unfold on_connections. preserve. kept.
  - kept.
  - kept.
  - kept.
  - kept_by_blocks.
  - kept_by_blocks.
Qed.

End WireBudgets.

(* ================================================================== *)
(** * After a failure of a replica *)
(* ================================================================== *)

Lemma teardowns_app (l l' : list Event) :
  teardowns (l ++ l') = teardowns l + teardowns l'.
Proof. unfold teardowns. now rewrite filter_app, length_app. Qed.

Lemma query_packets_teardowns (s : Executor) (kind : QueryKind.t) (n : nat) :
  teardowns (query_packets s kind n) = 0.
Proof.
  unfold query_packets.
  destruct (duplicated_part_uuids s);
    destruct (enable_scalar_subquery_optimization (settings s)); reflexivity.
Qed.

(** Closes the goals about a state update that keeps or sets the failure
    flags and appends at most a packet that ends nothing. *)
Ltac failed_kept :=
  let H1 := fresh "H" in
  let H2 := fresh "H" in
  intros ? [H1 H2]; split;
  [ unfold hasThrownException in *; simpl; rewrite ?orb_true_r;
    first [assumption | reflexivity]
  | simpl (trace _); rewrite ?teardowns_app;
    cbn [teardowns filter is_teardown List.length] in *; lia ].

Section AfterFailure.

Variable castColumn : ColumnWithTypeAndName -> DataType -> Outcome ColumnPtr.
Variable OS_LINUX : bool.

Lemma teardowns_kept_after_failure (n : nat) (calls : list ApiCall) (s : Executor) :
  hasThrownException s = true ->
  teardowns (trace s) = n ->
  hasThrownException (run_api castColumn OS_LINUX calls s) = true
  /\ teardowns (trace (run_api castColumn OS_LINUX calls s)) = n.
Proof.
  intros Hs1 Hs2.
  apply (@run_api_kept castColumn OS_LINUX
           (fun st => hasThrownException st = true /\ teardowns (trace st) = n));
    try (split; assumption).
  - intros kind st [H1 H2]. split.
    + clear H2. revert st H1.
      change (preserves (fun st => hasThrownException st = true) (sendQuery kind)).
      kept_by_blocks_with
        ltac:(intros; unfold hasThrownException in *; simpl;
              first [assumption | reflexivity]).
    + destruct (sendQuery_cases st kind)
        as (s' & E & _ & [(Ht & _) | (_ & _ & _ & _ & _ & m & Ht)]);
        rewrite E; simpl; rewrite Ht; [exact H2|].
      now rewrite teardowns_app, query_packets_teardowns, H2.
  - intros; kept_by_blocks_with failed_kept.
  - unfold cancel. apply preserves_bind; [apply preserves_modify; failed_kept|intros _].
    apply preserves_bind_gets. intros st [H1 H2].
    unfold bind, gets. rewrite H1, orb_true_r. now split.
  - unfold finish. apply preserves_bind_gets. intros st [H1 H2].
    unfold bind, gets. rewrite H1, orb_true_r. now split.
  - kept_by_blocks_with failed_kept.
  - kept_by_blocks_with failed_kept.
  - unfold on_connections. preserve. failed_kept.
  - intros st _. revert st. failed_kept.
  - intros c. failed_kept.
  - intros b. failed_kept.
  - kept_by_blocks_with failed_kept.
  - kept_by_blocks_with failed_kept.
Qed.

End AfterFailure.

(** Closes the goals about a state update that leaves [was_cancelled] alone
    and appends at most a packet that is not a query. *)
Ltac stopped_kept :=
  let H1 := fresh "H" in
  let H2 := fresh "H" in
  intros ? [H1 H2]; split;
  [ simpl; first [assumption | reflexivity]
  | simpl (trace _); rewrite ?queries_sent_app;
    cbn [queries_sent filter is_send_query List.length] in *; lia ].

(* ================================================================== *)
(** * A lifetime of calls *)
(* ================================================================== *)

Section Lifetime.

Variable castColumn : ColumnWithTypeAndName -> DataType -> Outcome ColumnPtr.
Variable OS_LINUX : bool.

(** X1.  Whatever calls are made, in whatever order and with whatever
    outcomes, an executor sends its query at most once more if the current
    attempt has not sent it, and once more if the retry has not been used.
    An executor fresh from a constructor therefore sends the query at most
    twice in its lifetime. *)
Theorem query_is_sent_at_most_twice (calls : list ApiCall) :
  (forall s : Executor,
      queries_sent (trace (run_api castColumn OS_LINUX calls s))
      <= queries_sent (trace s) + sends_left s)
  /\ (forall header_ query_ settings_ task_iterator_ coordinator_ create_connections_,
         queries_sent
           (trace (run_api castColumn OS_LINUX calls
                           (new_executor header_ query_ settings_ task_iterator_
                                         coordinator_ create_connections_)))
         <= 2).
Proof.
  split.
  - intros s.
    pose proof (@sends_budget_kept castColumn OS_LINUX
                  (queries_sent (trace s) + sends_left s) calls s (le_n _)).
    lia.
  - intros h q st it co cr.
    pose proof (@sends_budget_kept castColumn OS_LINUX 2 calls
                  (new_executor h q st it co cr) (le_n 2)).
    lia.
Qed.

(** X2.  Whatever calls are made, the cancel packet is sent at most once
    more, and not at all once [was_cancelled] is set.  An executor fresh
    from a constructor sends it at most once in its lifetime. *)
Theorem cancel_is_sent_at_most_once (calls : list ApiCall) :
  (forall s : Executor,
      cancels_sent (trace (run_api castColumn OS_LINUX calls s))
      <= cancels_sent (trace s) + cancels_left s)
  /\ (forall header_ query_ settings_ task_iterator_ coordinator_ create_connections_,
         cancels_sent
           (trace (run_api castColumn OS_LINUX calls
                           (new_executor header_ query_ settings_ task_iterator_
                                         coordinator_ create_connections_)))
         <= 1).
Proof.
  split.
  - intros s.
    pose proof (@cancels_budget_kept castColumn OS_LINUX
                  (cancels_sent (trace s) + cancels_left s) calls s (le_n _)).
    lia.
  - intros h q st it co cr.
    pose proof (@cancels_budget_kept castColumn OS_LINUX 1 calls
                  (new_executor h q st it co cr) (le_n 1)).
    lia.
Qed.

(** X3.  On an executor whose record of the wire is consistent with its
    [sent_query] flag, whatever calls are made, a cancel packet is only
    ever sent after a query packet. *)
Theorem cancel_is_never_sent_before_the_query (calls : list ApiCall) (s : Executor) :
  cancel_follows_query (trace s) = true ->
  (sent_query s = true -> existsb is_send_query (trace s) = true) ->
  cancel_follows_query (trace (run_api castColumn OS_LINUX calls s)) = true.
Proof.
  intros H1 H2. exact (proj1 (@order_kept_by_calls castColumn OS_LINUX calls s H1 H2)).
Qed.

End Lifetime.

Lemma cancel_is_never_sent_before_the_query_witness :
  cancel_follows_query
    (trace (run_api castColumn_example true
                    [ApiCancel; ApiSendQueryAsync; ApiReadAsync 4; ApiCancel; ApiFinish]
                    sync_executor)) = true.
Proof.
  apply cancel_is_never_sent_before_the_query;
    [reflexivity | intros H; discriminate H].
Defined.

Section LifetimeFlags.

Variable castColumn : ColumnWithTypeAndName -> DataType -> Outcome ColumnPtr.
Variable OS_LINUX : bool.

Lemma was_cancelled_stops_the_query (n : nat) (calls : list ApiCall) (s : Executor) :
  was_cancelled s = true ->
  queries_sent (trace s) = n ->
  was_cancelled (run_api castColumn OS_LINUX calls s) = true
  /\ queries_sent (trace (run_api castColumn OS_LINUX calls s)) = n.
Proof.
  intros Hs1 Hs2.
  apply (@run_api_kept castColumn OS_LINUX
           (fun st => was_cancelled st = true /\ queries_sent (trace st) = n));
    try (split; assumption).
  - intros kind st [H1 H2].
    destruct (sendQuery_when_cancelled st kind H1) as (s1 & E & Hc & Ht & _).
    rewrite E. simpl. rewrite Ht. now split.
  - intros; kept_by_blocks_with stopped_kept.
  - intros st [H1 H2]. destruct (cancel_when_cancelled st H1) as (Hc & Ht).
    rewrite Ht. now split.
  - unfold finish, drain, pushLog, pushProfileEvents, throwUnknownPacket.
    apply preserves_bind; [preserve|intros pending].
    apply preserves_bind; [preserve|intros thrown].
    destruct (negb pending || thrown); [preserve|].
    apply preserves_bind.
    { intros st [H1 H2]. destruct (tryCancel_cases st)
        as (s' & E & _ & _ & _ & _ & [(_ & ->) | (Hc0 & _)]);
        [rewrite E; now split | congruence]. }
    intros _. preserve; stopped_kept.
  - kept_by_blocks_with stopped_kept.
  - kept_by_blocks_with stopped_kept.
  - unfold on_connections. preserve. stopped_kept.
  - intros st _. revert st. stopped_kept.
  - intros c. stopped_kept.
  - intros b. stopped_kept.
  - kept_by_blocks_with stopped_kept.
  - kept_by_blocks_with stopped_kept.
Qed.

(** X4.  [was_cancelled] is never cleared: the assignment of [false] in
    [sendQuery] is only reached when the flag is already [false].  Once it
    is set, whatever calls are made, it stays set and the query is never
    sent again. *)
Theorem was_cancelled_is_never_cleared (calls : list ApiCall) (s : Executor) :
  was_cancelled s = true ->
  was_cancelled (run_api castColumn OS_LINUX calls s) = true
  /\ queries_sent (trace (run_api castColumn OS_LINUX calls s))
     = queries_sent (trace s).
Proof.
  intros Hs. now apply was_cancelled_stops_the_query.
Qed.

(** X5.  [finished], [resent_query], [got_exception_from_replica] and
    [got_unknown_packet_from_replica] are never cleared, whatever calls
    are made. *)
Theorem lifetime_flags_are_never_cleared (calls : list ApiCall) (s : Executor) :
  let s' := run_api castColumn OS_LINUX calls s in
  (finished s = true -> finished s' = true)
  /\ (resent_query s = true -> resent_query s' = true)
  /\ (got_exception_from_replica s = true -> got_exception_from_replica s' = true)
  /\ (got_unknown_packet_from_replica s = true
      -> got_unknown_packet_from_replica s' = true).
Proof.
  intros s'. subst s'. repeat split.
  - apply finished_kept.
  - apply resent_query_kept.
  - apply got_exception_kept.
  - apply got_unknown_packet_kept.
Qed.

(** X6.  Once a replica has sent an exception or an unknown packet, the
    executor never sends a cancel packet and never drains its connections
    again, whatever calls are made: [cancel] and [finish] return before
    they reach [tryCancel]. *)
Theorem no_teardown_after_a_failure (calls : list ApiCall) (s : Executor) :
  hasThrownException s = true ->
  hasThrownException (run_api castColumn OS_LINUX calls s) = true
  /\ teardowns (trace (run_api castColumn OS_LINUX calls s)) = teardowns (trace s).
Proof.
  intros Hs. now apply teardowns_kept_after_failure.
Qed.

End LifetimeFlags.

Lemma was_cancelled_is_never_cleared_witness :
  was_cancelled cancelled_executor = true
  /\ was_cancelled
       (run_api castColumn_example true
                [ApiSendQuery QueryKind.INITIAL_QUERY; ApiReadAsync 4; ApiFinish]
                cancelled_executor) = true
  /\ queries_sent
       (trace (run_api castColumn_example true
                       [ApiSendQuery QueryKind.INITIAL_QUERY; ApiReadAsync 4; ApiFinish]
                       cancelled_executor))
     = queries_sent (trace cancelled_executor).
Proof.
  split; [reflexivity|].
  apply was_cancelled_is_never_cleared. reflexivity.
Defined.

Lemma lifetime_flags_are_never_cleared_witness :
  got_exception_from_replica failed_executor = true
  /\ got_exception_from_replica
       (run_api castColumn_example true [ApiReadAsync 4; ApiCancel; ApiFinish]
                failed_executor) = true.
Proof.
  split; [reflexivity|].
  apply (lifetime_flags_are_never_cleared castColumn_example true
           [ApiReadAsync 4; ApiCancel; ApiFinish] failed_executor).
  reflexivity.
Defined.

Lemma no_teardown_after_a_failure_witness :
  hasThrownException failed_executor = true
  /\ teardowns
       (trace (run_api castColumn_example true [ApiCancel; ApiFinish; ApiReadAsync 4]
                       failed_executor))
     = teardowns (trace failed_executor).
Proof.
  split; [reflexivity|].
  apply no_teardown_after_a_failure. reflexivity.
Defined.

(* ================================================================== *)
(** * A lifetime on the blocking path *)
(* ================================================================== *)

(** A property that holds only without a read context is kept by the
    blocking calls once the steps they share keep it. *)
Section SyncInvariant.

Variable castColumn : ColumnWithTypeAndName -> DataType -> Outcome ColumnPtr.
Variable OS_LINUX : bool.
Variable P : Executor -> Prop.

Hypothesis without_read_context : forall s, P s -> read_context s = None.
Hypothesis sync_kept_by_sendQuery : forall kind, preserves P (sendQuery kind).
Hypothesis sync_kept_by_processPacket :
  forall packet, preserves P (processPacket castColumn packet).
Hypothesis sync_kept_by_receivePacket : preserves P receivePacket.
Hypothesis sync_kept_by_disconnect : preserves P (on_connections Disconnect).
Hypothesis sync_kept_by_flagging :
  forall s, P s ->
            P (set_external_tables_data
                 (map (map (fun elem => mkExternalTableData (table_name elem) true))
                      (external_tables_data s)) s).
Hypothesis sync_kept_by_retry_flags :
  forall s, P s ->
            P (set_got_duplicated_part_uuids false
                 (set_sent_query false
                    (set_recreate_read_context true (set_resent_query true s)))).
Hypothesis sync_kept_by_sendQuery_under_lock : preserves P sendQuery_under_lock.

Lemma cancel_under_lock_sync_kept : preserves P cancel_under_lock.
Proof.
  unfold cancel_under_lock.
  apply preserves_bind; [apply preserves_modify; exact sync_kept_by_flagging|intros _].
  preserve.
Qed.

Lemma read_under_lock_sync_kept : preserves P read_under_lock.
Proof.
  unfold read_under_lock.
  apply preserves_bind; [preserve|intros sent].
  destruct (negb sent); [|preserve].
  apply preserves_bind; [exact sync_kept_by_sendQuery_under_lock|intros _].
  preserve.
Qed.

Lemma restart_under_lock_sync_kept (loop : M ReadResult.t) :
  preserves P (restartQueryWithoutDuplicatedUUIDs_under_lock OS_LINUX loop).
Proof.
  unfold restartQueryWithoutDuplicatedUUIDs_under_lock.
  apply preserves_bind; [apply cancel_under_lock_sync_kept|intros _].
  apply preserves_bind; [exact sync_kept_by_disconnect|intros _].
  apply preserves_bind; [preserve|intros resent].
  destruct (negb resent); [|preserve].
  intros s Hs. unfold bind at 1 2 3 4. unfold modify. cbv beta iota.
  pose proof (sync_kept_by_retry_flags Hs) as Hs'.
  pose proof (without_read_context Hs') as Hctx.
  unfold bind at 1. unfold gets at 1. rewrite Hctx.
  now apply read_under_lock_sync_kept.
Qed.

Lemma cancel_sync_kept : preserves P cancel.
Proof.
  intros s Hs. rewrite (cancel_sync_eq s (without_read_context Hs)).
  now apply sync_kept_by_flagging.
Qed.

Lemma finish_sync_kept : preserves P finish.
Proof.
  intros s Hs. now rewrite (finish_sync_eq s (without_read_context Hs)).
Qed.

Lemma read_with_sync_kept (loop : M ReadResult.t) :
  preserves P loop -> preserves P (read_with loop).
Proof.
  intros Hloop. unfold read_with.
  apply preserves_bind; [preserve|intros sent].
  destruct (negb sent); [|exact Hloop].
  apply preserves_bind; [apply sync_kept_by_sendQuery|intros _].
  apply preserves_bind; [preserve|intros skip].
  apply preserves_bind; [destruct skip; preserve|intros none].
  destruct none; [preserve|exact Hloop].
Qed.

Lemma read_loop_sync_kept (fuel : nat) :
  preserves P (read_loop castColumn OS_LINUX fuel).
Proof.
  induction fuel as [|fuel IH]; simpl; [apply preserves_lift|].
  apply preserves_bind; [preserve|intros cancelled].
  destruct cancelled; [preserve|].
  apply preserves_bind; [exact sync_kept_by_receivePacket|intros packet].
  apply preserves_bind; [apply sync_kept_by_processPacket|intros anything].
  destruct (ReadResult.is_data_or_token anything); [preserve|].
  apply preserves_bind; [preserve|intros dup].
  destruct dup; [|exact IH].
  apply restart_under_lock_sync_kept.
Qed.

Lemma read_sync_kept (fuel : nat) : preserves P (read castColumn OS_LINUX fuel).
Proof. apply read_with_sync_kept, read_loop_sync_kept. Qed.

Lemma readBlock_sync_kept (calls fuel : nat) :
  preserves P (readBlock castColumn OS_LINUX calls fuel).
Proof.
  induction calls as [|calls IH]; simpl; [apply preserves_lift|].
  apply preserves_bind; [apply read_sync_kept|intros res].
  destruct (ReadResult.is_data res); [preserve|exact IH].
Qed.

Lemma run_sync_kept (calls : list SyncCall) (s : Executor) :
  P s -> P (run_sync castColumn OS_LINUX calls s).
Proof.
  revert s. unfold run_sync.
  induction calls as [|c calls IH]; intros s Hs; simpl; [exact Hs|].
  apply IH. destruct c; simpl.
  - now apply sync_kept_by_sendQuery.
  - now apply read_sync_kept.
  - now apply readBlock_sync_kept.
  - now apply cancel_sync_kept.
  - now apply finish_sync_kept.
Qed.

End SyncInvariant.

(** Closes the goals about a state update that touches neither the read
    context nor [was_cancelled] and appends at most a packet that ends
    nothing. *)
Ltac uncancelled_kept :=
  let H1 := fresh "H" in
  let H2 := fresh "H" in
  let H3 := fresh "H" in
  intros ? (H1 & H2 & H3); repeat split;
  [ simpl; exact H1
  | simpl; exact H2
  | simpl (trace _); rewrite ?teardowns_app;
    cbn [teardowns filter is_teardown List.length] in *; lia ].

Section SyncLifetime.

Variable castColumn : ColumnWithTypeAndName -> DataType -> Outcome ColumnPtr.
Variable OS_LINUX : bool.

Lemma uncancelled_kept_by_sync_calls
      (b : bool) (n : nat) (calls : list SyncCall) (s : Executor) :
  read_context s = None ->
  was_cancelled s = b ->
  teardowns (trace s) = n ->
  read_context (run_sync castColumn OS_LINUX calls s) = None
  /\ was_cancelled (run_sync castColumn OS_LINUX calls s) = b
  /\ teardowns (trace (run_sync castColumn OS_LINUX calls s)) = n.
Proof.
  intros Hs1 Hs2 Hs3.
  apply (@run_sync_kept castColumn OS_LINUX
           (fun st => read_context st = None /\ was_cancelled st = b
                      /\ teardowns (trace st) = n));
    try (repeat split; assumption).
  - intros st (H1 & _). exact H1.
  - intros kind st (H1 & H2 & H3). split; [now apply sendQuery_sync|].
    destruct (sendQuery_cases st kind)
      as (s' & E & _ & [(Ht & _ & Hc & _) | (_ & Hc & _ & Hc' & _ & m & Ht)]);
      rewrite E; simpl; rewrite Ht.
    + split; congruence.
    + split; [congruence|].
      now rewrite teardowns_app, query_packets_teardowns, H3.
  - intros; kept_by_blocks_with uncancelled_kept.
  - kept_by_blocks_with uncancelled_kept.
  - unfold on_connections. preserve. uncancelled_kept.
  - uncancelled_kept.
  - uncancelled_kept.
  - kept_by_blocks_with uncancelled_kept.
Qed.

(** X7.  On the blocking path, where no read context is ever created,
    nothing sets [was_cancelled] and nothing ends the query on the wire:
    whatever blocking calls are made, [cancel()] and [finish()] among
    them, the flag keeps its value, no cancel packet is sent and the
    connections are never drained. *)
Theorem blocking_path_never_cancels (calls : list SyncCall) (s : Executor) :
  read_context s = None ->
  let s' := run_sync castColumn OS_LINUX calls s in
  was_cancelled s' = was_cancelled s
  /\ teardowns (trace s') = teardowns (trace s).
Proof.
  intros Hs s'.
  exact (proj2 (@uncancelled_kept_by_sync_calls
                  (was_cancelled s) (teardowns (trace s)) calls s
                  Hs eq_refl eq_refl)).
Qed.

End SyncLifetime.

Lemma blocking_path_never_cancels_witness :
  read_context sync_executor = None
  /\ was_cancelled
       (run_sync castColumn_example true
                 [SyncSendQuery QueryKind.INITIAL_QUERY; SyncRead 3; SyncCancel;
                  SyncRead 3; SyncFinish]
                 sync_executor)
     = was_cancelled sync_executor.
Proof.
  split; [reflexivity|].
  apply (blocking_path_never_cancels castColumn_example true
           [SyncSendQuery QueryKind.INITIAL_QUERY; SyncRead 3; SyncCancel;
            SyncRead 3; SyncFinish]
           sync_executor).
  reflexivity.
Defined.

(* ================================================================== *)
(** * Sending, cancelling and finishing, call by call *)
(* ================================================================== *)

(** X8.  [sendQuery] on an executor that has not sent its query, is not
    cancelled and is not to skip its shard: it creates the connections
    and puts on them, in this order, the part UUIDs to ignore (only when
    some are known), the query, the scalars (only when the setting asks
    for them) and the external tables data, which always goes out.  It
    leaves [sent_query] set and [established] cleared, and holds one entry
    of external-table streams per connection, each with one uncancelled
    stream per table held in memory. *)
Theorem sendQuery_puts_the_query_on_the_wire (s : Executor) (kind : QueryKind.t) :
  sent_query s = false ->
  was_cancelled s = false ->
  skip_unavailable_shards (settings s)
  && (conn_size (create_connections s (created s)) =? 0) = false ->
  exists s',
    sendQuery kind s = (s', Returned tt)
    /\ trace s' = trace s
                  ++ query_packets s kind (conn_size (create_connections s (created s)))
    /\ sent_query s' = true
    /\ established s' = false
    /\ was_cancelled s' = false
    /\ connections s' = Some (create_connections s (created s))
    /\ created s' = S (created s)
    /\ Forall (fun data => map table_name data = memory_tables s
                           /\ Forall (fun d => is_cancelled d = false) data)
              (external_tables_data s')
    /\ List.length (external_tables_data s')
       = conn_size (create_connections s (created s)).
Proof.
  intros Hsent Hc Hskip.
  destruct (sendQuery_goes_through s kind Hsent Hc Hskip)
    as (s' & E & H1 & H2 & H3 & H4 & _ & H6 & H7 & H8 & H9).
  exists s'. repeat split; assumption.
Qed.

Lemma sendQuery_puts_the_query_on_the_wire_witness :
  exists s',
    sendQuery QueryKind.INITIAL_QUERY sync_executor = (s', Returned tt)
    /\ trace s' = trace sync_executor
                  ++ query_packets sync_executor QueryKind.INITIAL_QUERY
                       (conn_size (create_connections sync_executor
                                                      (created sync_executor)))
    /\ sent_query s' = true
    /\ established s' = false
    /\ was_cancelled s' = false
    /\ connections s' = Some (create_connections sync_executor (created sync_executor))
    /\ created s' = S (created sync_executor)
    /\ Forall (fun data => map table_name data = memory_tables sync_executor
                           /\ Forall (fun d => is_cancelled d = false) data)
              (external_tables_data s')
    /\ List.length (external_tables_data s')
       = conn_size (create_connections sync_executor (created sync_executor)).
Proof.
  apply sendQuery_puts_the_query_on_the_wire; reflexivity.
Defined.

(** X9.  [sendQuery] when it is held back.  If the query was already sent
    it does nothing at all.  Otherwise, when the executor is cancelled or
    is to skip its shard, it sends nothing and leaves every flag as it
    was, but it has already replaced the connections by newly created
    ones: the factory is invoked before either test. *)
Theorem sendQuery_held_back_still_creates_connections
        (s : Executor) (kind : QueryKind.t) :
  (sent_query s = true -> sendQuery kind s = (s, Returned tt))
  /\ (sent_query s = false ->
      was_cancelled s = true
      \/ skip_unavailable_shards (settings s)
         && (conn_size (create_connections s (created s)) =? 0) = true ->
      exists s',
        sendQuery kind s = (s', Returned tt)
        /\ trace s' = trace s
        /\ sent_query s' = false
        /\ was_cancelled s' = was_cancelled s
        /\ established s' = established s
        /\ connections s' = Some (create_connections s (created s))
        /\ created s' = S (created s)).
Proof.
  split.
  - intros Hsent. unfold sendQuery. run_monad. now rewrite Hsent.
  - intros Hsent Hheld. unfold sendQuery, needToSkipUnavailableShard. run_monad.
    rewrite Hsent. simpl.
    destruct (skip_unavailable_shards (settings s)); simpl in *.
    + destruct (conn_size (create_connections s (created s)) =? 0); simpl.
      * eexists. split; [reflexivity|]. repeat split; auto.
      * destruct Hheld as [H|H]; try discriminate.
        rewrite H. simpl. eexists. split; [reflexivity|]. repeat split; auto.
    + destruct Hheld as [H|H]; try discriminate.
      rewrite H. simpl. eexists. split; [reflexivity|]. repeat split; auto.
Qed.

Lemma sendQuery_held_back_still_creates_connections_witness :
  exists s',
    sendQuery QueryKind.INITIAL_QUERY skipping_executor = (s', Returned tt)
    /\ trace s' = trace skipping_executor
    /\ sent_query s' = false
    /\ was_cancelled s' = was_cancelled skipping_executor
    /\ established s' = established skipping_executor
    /\ connections s'
       = Some (create_connections skipping_executor (created skipping_executor))
    /\ created s' = S (created skipping_executor).
Proof.
  apply (proj2 (sendQuery_held_back_still_creates_connections
                  skipping_executor QueryKind.INITIAL_QUERY)).
  - reflexivity.
  - right. reflexivity.
Defined.

(** X10.  [finish] on a query that is pending, has not failed and has been
    sent on live connections: it sends the cancel packet unless
    [was_cancelled] was already set, then drains, and nothing else goes on
    the wire; [was_cancelled] is set afterwards; [finished] is set exactly
    when the drained packet is the end of the stream, and in that case
    the call returns and a second [finish] does nothing. *)
Theorem finish_cancels_then_drains (s : Executor) (c : Connections) :
  isQueryPending s = true ->
  hasThrownException s = false ->
  connections s = Some c ->
  sent_query s = true ->
  exists s' o,
    finish s = (s', o)
    /\ trace s' = (trace s ++ (if was_cancelled s then [] else [SendCancel])) ++ [Drain]
    /\ was_cancelled s' = true
    /\ finished s' = match Packet.type (drained c) with
                     | Protocol.EndOfStream => true
                     | _ => false
                     end
    /\ (Packet.type (drained c) = Protocol.EndOfStream ->
        o = Returned tt /\ finish s' = (s', Returned tt)).
Proof.
  intros Hp Ht Hc Hs.
  unfold isQueryPending, hasThrownException in *.
  destruct s; simpl in *. subst.
  destruct read_context0 as [ctx|]; [|discriminate Hp].
  destruct finished0; [discriminate Hp|].
  destruct got_exception_from_replica0; [discriminate Ht|].
  destruct got_unknown_packet_from_replica0; [discriminate Ht|].
  destruct c as [n inb act addr dr]. destruct dr as [ty b e p pi pu rq an].
  simpl.
  match goal with |- exists s' o, ?c = _ /\ _ => destruct c as [s' o] eqn:E end.
  destruct was_cancelled0, ty; try destruct logs_queue0;
    try destruct profile_queue0 as [[items [|]]|]; try destruct e;
    vm_compute in E; injection E as <- <-;
    (do 2 eexists; split; [reflexivity|]);
    repeat split; try discriminate; rewrite ?app_nil_r; reflexivity.
Qed.

Lemma finish_cancels_then_drains_witness :
  exists s' o,
    finish pending_executor = (s', o)
    /\ trace s' = (trace pending_executor
                   ++ (if was_cancelled pending_executor then [] else [SendCancel]))
                  ++ [Drain]
    /\ was_cancelled s' = true
    /\ finished s' = match Packet.type (drained (one_shard happy_stream)) with
                     | Protocol.EndOfStream => true
                     | _ => false
                     end
    /\ (Packet.type (drained (one_shard happy_stream)) = Protocol.EndOfStream ->
        o = Returned tt /\ finish s' = (s', Returned tt)).
Proof.
  apply (finish_cancels_then_drains pending_executor (c := one_shard happy_stream));
    reflexivity.
Defined.

Lemma tryCancel_external_tables (data : list (list ExternalTableData)) :
  preserves (fun st => external_tables_data st = data) tryCancel.
Proof. unfold tryCancel. preserve; kept. Qed.

(** X11.  [cancel] marks every stream of external-table data as cancelled,
    whether or not a query is pending and whatever has been thrown; the
    streams keep their tables and their grouping by connection. *)
Theorem cancel_stops_every_external_table (s : Executor) :
  map (map table_name) (external_tables_data (fst (cancel s)))
  = map (map table_name) (external_tables_data s)
  /\ Forall (Forall (fun d => is_cancelled d = true))
            (external_tables_data (fst (cancel s))).
Proof.
  assert (H : external_tables_data (fst (cancel s))
              = map (map (fun elem => mkExternalTableData (table_name elem) true))
                    (external_tables_data s)).
  { unfold cancel. unfold bind at 1. unfold modify at 1. cbv beta iota.
    match goal with
    | |- external_tables_data (fst (?m ?s1)) = ?d =>
        apply (fun Hm : preserves (fun st => external_tables_data st = d) m =>
                 Hm s1)
    end.
    - preserve; try apply tryCancel_external_tables; kept.
    - reflexivity. }
  rewrite H. split.
  - rewrite map_map. apply map_ext. intros data. rewrite map_map. reflexivity.
  - apply Forall_forall. intros data Hin. apply in_map_iff in Hin.
    destruct Hin as (data0 & <- & _).
    apply Forall_forall. intros d Hd. apply in_map_iff in Hd.
    destruct Hd as (d0 & <- & _). reflexivity.
Qed.

(* ================================================================== *)
(** * The shape of an adapted block *)
(* ================================================================== *)

Section AdapterShape.

Variable castColumn : ColumnWithTypeAndName -> DataType -> Outcome ColumnPtr.

Lemma adapted_columns_schema (block : Block) (elems cs : list ColumnWithTypeAndName) :
  adapted_columns castColumn block elems = Returned cs ->
  map (fun e => (name e, type e)) cs = map (fun e => (name e, type e)) elems.
Proof.
  intros H. apply adapted_columns_Forall2 in H.
  induction H as [|elem c elems cs (_ & Ht & Hn) _ IH]; simpl; [reflexivity|].
  now rewrite Ht, Hn, IH.
Qed.

(** X12.  What the adapter returns has the auxiliary info of the inbound
    block; under a header with columns it has exactly the header's column
    names and types, in the header's order, so that columns the header
    does not name are dropped; under an empty header it is the inbound
    block itself. *)
Theorem adaptBlockStructure_takes_the_header_schema (block header res : Block) :
  adaptBlockStructure castColumn block header = Returned res ->
  info res = info block
  /\ (if block_bool header then schema res = schema header else res = block).
Proof.
  intros H. destruct (block_bool header) eqn:Hne.
  - rewrite (adaptBlockStructure_columns castColumn block header Hne) in H.
    destruct (adapted_columns castColumn block (data header)) as [cs| | | | |] eqn:Hcs;
      try discriminate.
    simpl in H. injection H as <-. split; [reflexivity|].
    unfold schema. simpl. now apply adapted_columns_schema with (block := block).
  - unfold adaptBlockStructure in H. rewrite Hne in H. simpl in H.
    injection H as <-. now split.
Qed.

Lemma adapted_column_missing (block : Block) (elem : ColumnWithTypeAndName) :
  is_constant_column elem = false ->
  has block (name elem) = false ->
  adapted_column castColumn block elem
  = Thrown (mkException ErrorCodes.NOT_FOUND_COLUMN_IN_BLOCK
              ("Not found column " ++ name elem ++ " in block")%string).
Proof.
  intros Hplain Hmissing. unfold adapted_column, is_constant_column in *.
  assert (Hget : getByName block (name elem)
                 = Thrown (mkException ErrorCodes.NOT_FOUND_COLUMN_IN_BLOCK
                             ("Not found column " ++ name elem ++ " in block")%string)).
  { unfold getByName, has in *.
    destruct (find _ (data block)) as [e|] eqn:Hfind; [|reflexivity].
    apply find_some in Hfind. destruct Hfind as (Hin & He).
    assert (Hex : existsb (fun e => String.eqb (name e) (name elem)) (data block) = true)
      by (apply existsb_exists; eauto).
    congruence. }
  destruct (column elem) as [expected|]; [rewrite Hplain|]; now rewrite Hget.
Qed.

(** X13.  The adapter tolerates a missing column only for the constant
    columns of the header.  When the first column of the header is not a
    constant column and the inbound block has no column of that name, the
    adapter fails with the lookup error, and wherever such a column stands
    in the header no block is produced. *)
Theorem adaptBlockStructure_needs_the_plain_columns
        (block header : Block) (elem : ColumnWithTypeAndName) :
  is_constant_column elem = false ->
  has block (name elem) = false ->
  (forall rest,
      data header = elem :: rest ->
      adaptBlockStructure castColumn block header
      = Thrown (mkException ErrorCodes.NOT_FOUND_COLUMN_IN_BLOCK
                  ("Not found column " ++ name elem ++ " in block")%string))
  /\ (In elem (data header) ->
      forall res, adaptBlockStructure castColumn block header <> Returned res).
Proof.
  intros Hplain Hmissing. split.
  - intros rest Hdata.
    assert (Hne : block_bool header = true) by (unfold block_bool; now rewrite Hdata).
    unfold adaptBlockStructure. rewrite Hne, Hdata. simpl.
    now rewrite (adapted_column_missing block elem Hplain Hmissing).
  - intros Hin res H.
    assert (Hne : block_bool header = true).
    { unfold block_bool. destruct (data header); [destruct Hin|reflexivity]. }
    rewrite (adaptBlockStructure_columns castColumn block header Hne) in H.
    destruct (adapted_columns castColumn block (data header)) as [cs| | | | |] eqn:Hcs;
      try discriminate.
    apply adapted_columns_Forall2 in Hcs.
    clear H Hne. induction Hcs as [|e c es cs (Hc & _) _ IH]; [destruct Hin|].
    destruct Hin as [->|Hin]; [|now apply IH].
    rewrite (adapted_column_missing block elem Hplain Hmissing) in Hc.
    discriminate Hc.
Qed.

End AdapterShape.

Lemma adaptBlockStructure_takes_the_header_schema_witness :
  info adapted_three_rows = info three_rows
  /\ (if block_bool header_kv then schema adapted_three_rows = schema header_kv
      else adapted_three_rows = three_rows).
Proof.
  apply (adaptBlockStructure_takes_the_header_schema castColumn_example).
  reflexivity.
Defined.

Lemma adaptBlockStructure_needs_the_plain_columns_witness :
  adaptBlockStructure castColumn_example block_without_k header_kv
  = Thrown (mkException ErrorCodes.NOT_FOUND_COLUMN_IN_BLOCK
              "Not found column k in block").
Proof.
  apply (proj1 (adaptBlockStructure_needs_the_plain_columns castColumn_example
                  block_without_k header_kv
                  (mkColumn None "UInt64" "k")
                  eq_refl eq_refl)
               [mkColumn (Some (ColumnConst 7%Z 0)) "UInt8" "v"]).
  reflexivity.
Defined.

(* ================================================================== *)
(** * More on the dispatch *)
(* ================================================================== *)

Section DispatchEdges.

Variable castColumn : ColumnWithTypeAndName -> DataType -> Outcome ColumnPtr.

(** X14.  A request of a replica that finds no handler is a logical error:
    a [ReadTaskRequest] without a task iterator, and either packet of the
    parallel replicas without a coordinator, make the dispatch throw
    [LOGICAL_ERROR]; nothing is answered on the connections and the
    executor is left as it was. *)
Theorem requests_need_their_handlers (s : Executor) (packet : Packet.t) :
  (Packet.type packet = Protocol.ReadTaskRequest ->
   task_iterator s = None ->
   processPacket castColumn packet s
   = (s, Thrown (mkException ErrorCodes.LOGICAL_ERROR
                   "Distributed task iterator is not initialized")))
  /\ (Packet.type packet = Protocol.MergeTreeReadTaskRequest
      \/ Packet.type packet = Protocol.MergeTreeAllRangesAnnounecement ->
      parallel_reading_coordinator s = None ->
      processPacket castColumn packet s
      = (s, Thrown (mkException ErrorCodes.LOGICAL_ERROR
                      "Coordinator for parallel reading from replicas is not initialized"))).
Proof.
  split.
  - intros Hty Hnone. unfold processPacket, processReadTaskRequest. rewrite Hty.
    run_monad. now rewrite Hnone.
  - intros [Hty|Hty] Hnone; unfold processPacket, processMergeTreeReadTaskRequest,
      processMergeTreeInitialReadAnnounecement; rewrite Hty; run_monad;
      now rewrite Hnone.
Qed.

(** X15.  What the dispatch can return.  A data result comes only from a
    [Data] packet that has rows or from an [EndOfStream] packet; the token
    of the parallel replicas only from the two packets of the parallel
    replicas; an [Exception] packet and a packet of an unknown kind never
    make it return; and it never returns a file descriptor or the
    [Finished] result. *)
Theorem processPacket_result_kinds
        (s s' : Executor) (packet : Packet.t) (r : ReadResult.t) :
  processPacket castColumn packet s = (s', Returned r) ->
  match ReadResult.type r with
  | ReadResult.Data =>
      (Packet.type packet = Protocol.Data /\ 0 < rows (Packet.block packet))
      \/ Packet.type packet = Protocol.EndOfStream
  | ReadResult.ParallelReplicasToken =>
      Packet.type packet = Protocol.MergeTreeReadTaskRequest
      \/ Packet.type packet = Protocol.MergeTreeAllRangesAnnounecement
  | ReadResult.Nothing =>
      Packet.type packet <> Protocol.Exception_
      /\ forall tag, Packet.type packet <> Protocol.Other tag
  | ReadResult.FileDescriptor | ReadResult.Finished => False
  end.
Proof.
  unfold processPacket, processMergeTreeReadTaskRequest,
    processMergeTreeInitialReadAnnounecement, processReadTaskRequest,
    setPartUUIDs, PartUUIDs_add, pushLog, pushProfileEvents, throwUnknownPacket,
    rethrow.
  destruct (Packet.type packet) eqn:Hty; destruct (Packet.exception packet);
    run_monad; intros H;
    repeat match type of H with
           | context [match ?x with _ => _ end] =>
               let E := fresh "E" in destruct x eqn:E; simpl in H
           end;
    try discriminate H;
    injection H as <- <-; simpl;
    try (split; [discriminate|intros; discriminate]);
    auto.
  all: left; split; [reflexivity|].
  all: apply andb_prop in E; apply Nat.ltb_lt; exact (proj2 E).
Qed.

(** X16.  A [Totals] or [Extremes] packet is stored before it is adapted.
    An empty block is stored as it is; a block that adapts to the header
    is stored adapted; and when the adaptation fails the dispatch fails
    with it, leaving the unadapted block of the packet stored. *)
Theorem totals_and_extremes_are_stored_before_adapting
        (s : Executor) (packet : Packet.t) :
  let stored (get : Executor -> Block) (o : Outcome ReadResult.t) (s' : Executor) :=
    if block_bool (Packet.block packet) then
      match adaptBlockStructure castColumn (Packet.block packet) (header s) with
      | Returned res =>
          get s' = res /\ o = Returned (ReadResult.of_type ReadResult.Nothing)
      | _ =>
          get s' = Packet.block packet
          /\ (forall r, o <> Returned r)
      end
    else
      get s' = Packet.block packet
      /\ o = Returned (ReadResult.of_type ReadResult.Nothing) in
  (Packet.type packet = Protocol.Totals ->
   stored totals (snd (processPacket castColumn packet s))
          (fst (processPacket castColumn packet s))
   /\ trace (fst (processPacket castColumn packet s)) = trace s)
  /\ (Packet.type packet = Protocol.Extremes ->
      stored extremes (snd (processPacket castColumn packet s))
             (fst (processPacket castColumn packet s))
      /\ trace (fst (processPacket castColumn packet s)) = trace s).
Proof.
  intros stored. subst stored. cbv beta.
  split; intros Hty; unfold processPacket; rewrite Hty; run_monad;
    destruct (block_bool (Packet.block packet)); simpl;
    try destruct (adaptBlockStructure castColumn (Packet.block packet) (header s));
    simpl; repeat split; try discriminate; reflexivity.
Qed.

End DispatchEdges.

Lemma requests_need_their_handlers_witness :
  processPacket castColumn_example (Packet.of_type Protocol.ReadTaskRequest)
                sync_executor
  = (sync_executor,
     Thrown (mkException ErrorCodes.LOGICAL_ERROR
               "Distributed task iterator is not initialized")).
Proof.
  apply (proj1 (requests_need_their_handlers castColumn_example sync_executor
                  (Packet.of_type Protocol.ReadTaskRequest)));
    reflexivity.
Defined.

Lemma processPacket_result_kinds_witness :
  match ReadResult.type (ReadResult.of_block adapted_three_rows) with
  | ReadResult.Data =>
      (Packet.type (Packet.with_block Protocol.Data three_rows) = Protocol.Data
       /\ 0 < rows (Packet.block (Packet.with_block Protocol.Data three_rows)))
      \/ Packet.type (Packet.with_block Protocol.Data three_rows) = Protocol.EndOfStream
  | ReadResult.ParallelReplicasToken =>
      Packet.type (Packet.with_block Protocol.Data three_rows)
      = Protocol.MergeTreeReadTaskRequest
      \/ Packet.type (Packet.with_block Protocol.Data three_rows)
         = Protocol.MergeTreeAllRangesAnnounecement
  | ReadResult.Nothing =>
      Packet.type (Packet.with_block Protocol.Data three_rows) <> Protocol.Exception_
      /\ forall tag,
          Packet.type (Packet.with_block Protocol.Data three_rows) <> Protocol.Other tag
  | ReadResult.FileDescriptor | ReadResult.Finished => False
  end.
Proof.
  apply (@processPacket_result_kinds castColumn_example sync_executor sync_executor
           (Packet.with_block Protocol.Data three_rows)
           (ReadResult.of_block adapted_three_rows)).
  reflexivity.
Defined.

Lemma totals_and_extremes_are_stored_before_adapting_witness :
  totals (fst (processPacket castColumn_example
                             (Packet.with_block Protocol.Totals three_rows)
                             sync_executor))
  = adapted_three_rows.
Proof.
  apply (proj1 (totals_and_extremes_are_stored_before_adapting castColumn_example
                  sync_executor (Packet.with_block Protocol.Totals three_rows))
               eq_refl).
Defined.

(* ================================================================== *)
(** * What the reads return *)
(* ================================================================== *)

Section Ensures.

Variable P : Executor -> Prop.

Lemma ensures_ret {A : Type} (a : A) (Q : A -> Executor -> Prop) :
  (forall s, P s -> Q a s) -> ensures P (ret a) Q.
Proof. intros H s Hs s' a' E. injection E as <- <-. now apply H. Qed.

Lemma ensures_lift {A : Type} (o : Outcome A) (Q : A -> Executor -> Prop) :
  (forall a s, o = Returned a -> P s -> Q a s) -> ensures P (lift o) Q.
Proof.
  intros H s Hs s' a E. unfold lift in E. injection E as Hs' Ho.
  subst s'. now apply H.
Qed.

Lemma ensures_throw {A : Type} (c : ErrorCodes.t) (msg : string)
      (Q : A -> Executor -> Prop) :
  ensures P (throw c msg) Q.
Proof. intros s Hs s' a E. discriminate E. Qed.

(** A step that keeps [P], followed by a continuation that starts from
    [P]. *)
Lemma ensures_bind {A B : Type} (m : M A) (k : A -> M B)
      (Q : B -> Executor -> Prop) :
  preserves P m -> (forall a, ensures P (k a) Q) -> ensures P (bind m k) Q.
Proof.
  intros Hm Hk s Hs s' b E. unfold bind in E.
  specialize (Hm s Hs).
  destruct (m s) as [s1 [a| | | | |]]; try discriminate E.
  exact (Hk a s1 Hm s' b E).
Qed.

(** A branch taken on a value read from the state may rely on [P]. *)
Lemma ensures_bind_gets {A B : Type} (f : Executor -> A) (k : A -> M B)
      (Q : B -> Executor -> Prop) :
  (forall s, P s -> forall s' b, k (f s) s = (s', Returned b) -> Q b s') ->
  ensures P (bind (gets f) k) Q.
Proof. intros Hk s Hs s' b E. exact (Hk s Hs s' b E). Qed.

End Ensures.

Lemma preserves_True {A : Type} (m : M A) : preserves (fun _ => True) m.
Proof. intros s _. exact I. Qed.

(** Closes the goals about a state update that leaves the read context
    alone. *)
Ltac sync_kept := try (intros ? Hsync; exact Hsync).

Section ReadResults.

Variable castColumn : ColumnWithTypeAndName -> DataType -> Outcome ColumnPtr.
Variable OS_LINUX : bool.

Let anywhere (s : Executor) : Prop := True.
Let answers (r : ReadResult.t) (s : Executor) : Prop := is_answer r = true.

Lemma is_data_or_token_answer (r : ReadResult.t) :
  ReadResult.is_data_or_token r = true -> is_answer r = true.
Proof.
  unfold ReadResult.is_data_or_token, is_answer.
  now destruct (ReadResult.type r).
Qed.

Lemma restart_answers (read_again readAsync_again : M ReadResult.t) :
  ensures anywhere read_again answers ->
  ensures anywhere readAsync_again answers ->
  ensures anywhere
          (restartQueryWithoutDuplicatedUUIDs_with read_again readAsync_again)
          answers.
Proof.
  intros Hread Hasync. unfold restartQueryWithoutDuplicatedUUIDs_with.
  do 2 (apply ensures_bind; [apply preserves_True|intros _]).
  apply ensures_bind; [apply preserves_True|intros resent].
  destruct (negb resent); [|apply ensures_throw].
  do 4 (apply ensures_bind; [apply preserves_True|intros _]).
  apply ensures_bind; [apply preserves_True|intros ctx].
  now destruct ctx.
Qed.

Lemma read_under_lock_answers : ensures anywhere read_under_lock answers.
Proof.
  unfold read_under_lock.
  apply ensures_bind; [apply preserves_True|intros sent].
  destruct (negb sent); [|apply ensures_lift; discriminate].
  do 3 (apply ensures_bind; [apply preserves_True|intros ?]).
  match goal with |- ensures _ (if ?b then _ else _) _ => destruct b end;
    [|apply ensures_lift; discriminate].
  apply ensures_ret. reflexivity.
Qed.

Lemma restart_under_lock_answers (loop : M ReadResult.t) :
  ensures anywhere loop answers ->
  ensures anywhere (restartQueryWithoutDuplicatedUUIDs_under_lock OS_LINUX loop)
          answers.
Proof.
  intros Hloop. unfold restartQueryWithoutDuplicatedUUIDs_under_lock.
  do 2 (apply ensures_bind; [apply preserves_True|intros _]).
  apply ensures_bind; [apply preserves_True|intros resent].
  destruct (negb resent); [|apply ensures_throw].
  do 4 (apply ensures_bind; [apply preserves_True|intros _]).
  apply ensures_bind; [apply preserves_True|intros ctx].
  destruct ctx; [|exact read_under_lock_answers].
  unfold readAsync_under_lock.
  destruct OS_LINUX; [|exact read_under_lock_answers].
  do 3 (apply ensures_bind; [apply preserves_True|intros ?]).
  match goal with |- ensures _ (if ?b then _ else _) _ => destruct b end;
    [apply ensures_lift; discriminate|exact Hloop].
Qed.

Lemma read_with_answers (loop : M ReadResult.t) :
  ensures anywhere loop answers -> ensures anywhere (read_with loop) answers.
Proof.
  intros Hloop. unfold read_with.
  apply ensures_bind; [apply preserves_True|intros sent].
  destruct (negb sent); [|exact Hloop].
  do 3 (apply ensures_bind; [apply preserves_True|intros ?]).
  match goal with |- ensures _ (if ?b then _ else _) _ => destruct b end;
    [|exact Hloop].
  apply ensures_ret. reflexivity.
Qed.

Lemma readAsync_with_answers (loop read_sync : M ReadResult.t) :
  ensures anywhere loop answers ->
  ensures anywhere read_sync answers ->
  ensures anywhere (readAsync_with OS_LINUX loop read_sync) answers.
Proof.
  intros Hloop Hread. unfold readAsync_with.
  destruct OS_LINUX; [|exact Hread].
  do 4 (apply ensures_bind; [apply preserves_True|intros ?]).
  exact Hloop.
Qed.

Lemma loops_answer (fuel : nat) :
  ensures anywhere (read_loop castColumn OS_LINUX fuel) answers
  /\ ensures anywhere (readAsync_loop castColumn OS_LINUX fuel) answers.
Proof.
  induction fuel as [|fuel [IHr IHa]]; simpl.
  { split; apply ensures_lift; discriminate. }
  assert (Hrestart :
            ensures anywhere
              (restartQueryWithoutDuplicatedUUIDs_with
                 (read_with (read_loop castColumn OS_LINUX fuel))
                 (readAsync_with OS_LINUX (readAsync_loop castColumn OS_LINUX fuel)
                                 (read_with (read_loop castColumn OS_LINUX fuel))))
              answers).
  { apply restart_answers; [now apply read_with_answers|].
    apply readAsync_with_answers; [exact IHa|now apply read_with_answers]. }
  split.
  - apply ensures_bind; [apply preserves_True|intros cancelled].
    destruct cancelled; [apply ensures_ret; reflexivity|].
    do 2 (apply ensures_bind; [apply preserves_True|intros ?]).
    match goal with
    | |- ensures _ (if ReadResult.is_data_or_token ?r then _ else _) _ =>
        destruct (ReadResult.is_data_or_token r) eqn:E
    end.
    { apply ensures_ret. intros ? _. now apply is_data_or_token_answer. }
    apply ensures_bind; [apply preserves_True|intros dup].
    destruct dup; [now apply restart_under_lock_answers|exact IHr].
  - apply ensures_bind; [apply preserves_True|intros _].
    apply ensures_bind; [apply preserves_True|intros skip].
    destruct skip; [apply ensures_ret; reflexivity|].
    apply ensures_bind; [apply preserves_True|intros ctx].
    destruct (rc_is_cancelled ctx); [apply ensures_ret; reflexivity|].
    destruct (rc_is_in_progress ctx); [apply ensures_ret; reflexivity|].
    apply ensures_bind; [apply preserves_True|intros cancelled].
    destruct cancelled; [apply ensures_ret; reflexivity|].
    apply ensures_bind; [apply preserves_True|intros anything].
    destruct (ReadResult.is_data_or_token anything) eqn:E.
    { apply ensures_ret. intros ? _. now apply is_data_or_token_answer. }
    apply ensures_bind; [apply preserves_True|intros dup].
    destruct dup; [exact Hrestart|exact IHa].
Qed.

(** X17.  Whatever the state and however the call goes, [read] and
    [readAsync] never hand the [Nothing] result or the [Finished] result
    to the caller: what they return is a data result, the token of the
    parallel replicas or a file descriptor.  [readBlock] returns the block
    of a data result. *)
Theorem reads_return_only_answers (fuel : nat) (s s' : Executor) (r : ReadResult.t) :
  read castColumn OS_LINUX fuel s = (s', Returned r)
  \/ readAsync castColumn OS_LINUX fuel s = (s', Returned r) ->
  is_answer r = true.
Proof.
  destruct (loops_answer fuel) as [Hr Ha].
  intros [E|E].
  - exact (read_with_answers Hr I E).
  - refine (readAsync_with_answers Ha _ I E). now apply read_with_answers.
Qed.

Let sync (s : Executor) : Prop := read_context s = None.
Let rows_or_token (r : ReadResult.t) (s : Executor) : Prop :=
  read_context s = None /\ ReadResult.is_data_or_token r = true.

Lemma read_under_lock_blocking : ensures sync read_under_lock rows_or_token.
Proof.
  unfold read_under_lock.
  apply ensures_bind; [preserve|intros sent].
  destruct (negb sent); [|apply ensures_lift; discriminate].
  apply ensures_bind;
    [unfold sendQuery_under_lock, needToSkipUnavailableShard; preserve; sync_kept
    |intros _].
  apply ensures_bind; [preserve|intros skip].
  apply ensures_bind; [destruct skip; preserve|intros none].
  destruct none; [|apply ensures_lift; discriminate].
  apply ensures_ret. intros s Hs. now split.
Qed.

Lemma restart_blocking (loop : M ReadResult.t) :
  ensures sync
          (restartQueryWithoutDuplicatedUUIDs_under_lock OS_LINUX loop)
          rows_or_token.
Proof.
  unfold restartQueryWithoutDuplicatedUUIDs_under_lock.
  apply ensures_bind; [unfold cancel_under_lock; preserve; sync_kept|intros _].
  apply ensures_bind; [preserve; sync_kept|intros _].
  apply ensures_bind; [preserve|intros resent].
  destruct (negb resent); [|apply ensures_throw].
  do 4 (apply ensures_bind; [preserve; sync_kept|intros _]).
  apply ensures_bind_gets. intros s Hs. rewrite Hs.
  now apply read_under_lock_blocking.
Qed.

Lemma read_with_blocking (loop : M ReadResult.t) :
  ensures sync loop rows_or_token -> ensures sync (read_with loop) rows_or_token.
Proof.
  intros Hloop. unfold read_with.
  apply ensures_bind; [preserve|intros sent].
  destruct (negb sent); [|exact Hloop].
  apply ensures_bind; [apply sendQuery_sync|intros _].
  apply ensures_bind; [preserve|intros skip].
  apply ensures_bind; [destruct skip; preserve|intros none].
  destruct none; [|exact Hloop].
  apply ensures_ret. intros s Hs. now split.
Qed.

Lemma read_loop_blocking (fuel : nat) :
  ensures sync (read_loop castColumn OS_LINUX fuel) rows_or_token.
Proof.
  induction fuel as [|fuel IH]; simpl.
  { apply ensures_lift; discriminate. }
  apply ensures_bind; [preserve|intros cancelled].
  destruct cancelled; [apply ensures_ret; intros s Hs; now split|].
  apply ensures_bind; [apply receivePacket_sync|intros packet].
  apply ensures_bind; [apply processPacket_sync|intros anything].
  destruct (ReadResult.is_data_or_token anything) eqn:E.
  { apply ensures_ret. intros s Hs. now split. }
  apply ensures_bind; [preserve|intros dup].
  destruct dup; [|exact IH].
  apply restart_blocking.
Qed.

(** X18.  On the blocking path, where no read context exists, a [read]
    that returns hands back a data result or the token of the parallel
    replicas, never a file descriptor, and creates no read context: a
    retry after duplicated part UUIDs stays on the blocking path. *)
Theorem blocking_read_returns_rows_or_token
        (fuel : nat) (s s' : Executor) (r : ReadResult.t) :
  read_context s = None ->
  read castColumn OS_LINUX fuel s = (s', Returned r) ->
  read_context s' = None /\ ReadResult.is_data_or_token r = true.
Proof.
  intros Hs E.
  exact (read_with_blocking (read_loop_blocking fuel) Hs E).
Qed.

End ReadResults.

Lemma reads_return_only_answers_witness :
  is_answer (ReadResult.of_block adapted_three_rows) = true.
Proof.
  apply (@reads_return_only_answers castColumn_example true 5 sync_executor
           (fst (read castColumn_example true 5 sync_executor))
           (ReadResult.of_block adapted_three_rows)).
  left. vm_compute. reflexivity.
Defined.

Lemma blocking_read_returns_rows_or_token_witness :
  read_context (fst (read castColumn_example true 5 sync_executor)) = None
  /\ ReadResult.is_data_or_token (ReadResult.of_block adapted_three_rows) = true.
Proof.
  apply (@blocking_read_returns_rows_or_token castColumn_example true 5 sync_executor
           (fst (read castColumn_example true 5 sync_executor))
           (ReadResult.of_block adapted_three_rows)).
  - reflexivity.
  - vm_compute. reflexivity.
Defined.

Lemma sendQuery_kept_settings (kind : QueryKind.t) (st : Settings) :
  preserves (fun s => settings s = st) (sendQuery kind).
Proof. kept_by_blocks. Qed.

(* ================================================================== *)
(** * The retry, in general *)
(* ================================================================== *)

Section RetryInGeneral.

Variable castColumn : ColumnWithTypeAndName -> DataType -> Outcome ColumnPtr.
Variable OS_LINUX : bool.

Lemma receivePacket_arrived (s : Executor) (c : Connections) (a : Arrival)
      (rest : list Arrival) :
  connections s = Some c ->
  inbound c = a :: rest ->
  receivePacket s
  = (set_trace (trace s ++ [ReceivePacket (Packet.type (arrived a))])
       (set_connections
          (Some (mkConnections (conn_size c) rest (active_after a)
                               (addresses c) (drained c))) s),
     Returned (arrived a)).
Proof.
  intros Hc Hin. unfold receivePacket, the_connections. run_monad.
  rewrite Hc. simpl. rewrite Hin. reflexivity.
Qed.

Lemma processPacket_duplicates (s : Executor) (packet : Packet.t)
      (d : UUID) (ds : list UUID) :
  Packet.type packet = Protocol.PartUUIDs ->
  known_part_uuids s (Packet.part_uuids packet) = d :: ds ->
  processPacket castColumn packet s
  = (set_got_duplicated_part_uuids true
       (set_duplicated_part_uuids ((d :: ds) ++ duplicated_part_uuids s) s),
     Returned (ReadResult.of_type ReadResult.Nothing)).
Proof.
  intros Hty Hdup. unfold known_part_uuids in Hdup.
  unfold processPacket, setPartUUIDs, PartUUIDs_add. rewrite Hty.
  run_monad. rewrite Hdup. reflexivity.
Qed.

Lemma bind_ext {A B : Type} (m : M A) (k k' : A -> M B) (s : Executor) :
  (forall a s', k a s' = k' a s') -> bind m k s = bind m k' s.
Proof.
  intros H. unfold bind. destruct (m s) as [s' [a| | | | |]]; auto.
Qed.

Lemma bind_deadlocked {A B : Type} (m : M A) (k : A -> M B) (s s' : Executor) :
  m s = (s', Deadlocked) -> bind m k s = (s', Deadlocked).
Proof. intros H. unfold bind. now rewrite H. Qed.

(** Under the lock [cancel] flags the external tables and then either
    returns at its test or stops at the lock of [tryCancel]. *)
Lemma cancel_under_lock_cases (s : Executor) :
  cancel_under_lock s
  = (set_external_tables_data
       (map (map (fun elem => mkExternalTableData (table_name elem) true))
            (external_tables_data s)) s,
     if isQueryPending s && negb (hasThrownException s)
     then Deadlocked else Returned tt).
Proof.
  unfold cancel_under_lock, lock_held_mutex. run_monad.
  unfold isQueryPending, hasThrownException. simpl.
  destruct (read_context s); [destruct (finished s)|]; simpl;
    try reflexivity.
  now destruct (got_exception_from_replica s || got_unknown_packet_from_replica s).
Qed.

(** Under the lock [sendQuery] stops at its own lock once it has created
    the connections, unless one of its early returns is taken. *)
Lemma sendQuery_under_lock_stops (s : Executor) :
  sent_query s = false ->
  was_cancelled s = false ->
  skip_unavailable_shards (settings s)
  && (conn_size (create_connections s (created s)) =? 0) = false ->
  sendQuery_under_lock s
  = (set_created (S (created s))
       (set_connections (Some (create_connections s (created s))) s),
     Deadlocked).
Proof.
  intros Hsent Hc Hskip.
  unfold sendQuery_under_lock, needToSkipUnavailableShard, lock_held_mutex.
  run_monad. rewrite Hsent. simpl.
  destruct (skip_unavailable_shards (settings s)); simpl in *.
  - rewrite Hskip. simpl. rewrite Hc. reflexivity.
  - rewrite Hc. reflexivity.
Qed.

(** The loop of [readAsync] that the retry under the lock is given is
    never run: the retry has just set [resent_query] and
    [recreate_read_context], so that [readAsync] is about to create a read
    context, under the lock. *)
Lemma retry_under_lock_never_reaches_the_loop (loop loop' : M ReadResult.t)
      (s : Executor) :
  restartQueryWithoutDuplicatedUUIDs_under_lock OS_LINUX loop s
  = restartQueryWithoutDuplicatedUUIDs_under_lock OS_LINUX loop' s.
Proof.
  unfold restartQueryWithoutDuplicatedUUIDs_under_lock.
  apply bind_ext. intros _ s1. apply bind_ext. intros _ s2.
  unfold readAsync_under_lock, lock_held_mutex. run_monad. simpl.
  destruct (resent_query s2); simpl; [reflexivity|].
  destruct OS_LINUX; simpl; destruct (read_context s2) eqn:Hctx; simpl;
    rewrite ?Hctx; reflexivity.
Qed.

(** The retry under the lock, on the blocking path, for an executor that
    has not retried yet. *)
Lemma retry_under_lock_stops_in_sendQuery (loop : M ReadResult.t) (t : Executor)
      (c : Connections) :
  read_context t = None ->
  connections t = Some c ->
  resent_query t = false ->
  was_cancelled t = false ->
  skip_unavailable_shards (settings t)
  && (conn_size (create_connections t (created t)) =? 0) = false ->
  exists s',
    restartQueryWithoutDuplicatedUUIDs_under_lock OS_LINUX loop t = (s', Deadlocked)
    /\ trace s' = trace t ++ [Disconnect]
    /\ connections s' = Some (create_connections t (created t))
    /\ created s' = S (created t)
    /\ resent_query s' = true
    /\ sent_query s' = false
    /\ was_cancelled s' = false
    /\ duplicated_part_uuids s' = duplicated_part_uuids t.
Proof.
  intros Hctx Hc Hresent Hcan Hskip.
  destruct t; simpl in *. subst.
  destruct settings0 as [skip scalar]. simpl in *.
  match goal with |- exists s', ?r = _ /\ _ => destruct r as [s' o] eqn:E end.
  vm_compute in E.
  destruct (create_connections0 created0) as [n inb act addr dr].
  simpl in Hskip.
  destruct skip; [destruct n; [discriminate Hskip|]|];
    vm_compute in E; injection E as <- <-;
    (eexists; split; [reflexivity|]); repeat split.
Qed.

(** What [read()] does up to the retry, when the packet it receives is a
    [PartUUIDs] packet with a part that the query holds already. *)
Lemma read_loop_duplicates (fuel : nat) (s : Executor) (c : Connections)
      (a : Arrival) (rest : list Arrival) (d : UUID) (ds : list UUID) :
  was_cancelled s = false ->
  connections s = Some c ->
  inbound c = a :: rest ->
  Packet.type (arrived a) = Protocol.PartUUIDs ->
  known_part_uuids s (Packet.part_uuids (arrived a)) = d :: ds ->
  read_loop castColumn OS_LINUX (S fuel) s
  = restartQueryWithoutDuplicatedUUIDs_under_lock OS_LINUX
      (readAsync_loop castColumn OS_LINUX fuel)
      (set_got_duplicated_part_uuids true
         (set_duplicated_part_uuids ((d :: ds) ++ duplicated_part_uuids s)
            (set_trace (trace s ++ [ReceivePacket Protocol.PartUUIDs])
               (set_connections
                  (Some (mkConnections (conn_size c) rest (active_after a)
                                       (addresses c) (drained c))) s)))).
Proof.
  intros Hcan Hc Hin Hty Hdup.
  pose proof (receivePacket_arrived s Hc Hin) as Hrecv.
  rewrite Hty in Hrecv.
  set (s1 := set_trace (trace s ++ [ReceivePacket Protocol.PartUUIDs])
               (set_connections
                  (Some (mkConnections (conn_size c) rest (active_after a)
                                       (addresses c) (drained c))) s)) in *.
  assert (Hdup1 : known_part_uuids s1 (Packet.part_uuids (arrived a)) = d :: ds)
    by exact Hdup.
  pose proof (processPacket_duplicates s1 (arrived a) Hty Hdup1) as Hproc.
  change (duplicated_part_uuids s1) with (duplicated_part_uuids s) in Hproc.
  simpl read_loop.
  remember (readAsync_loop castColumn OS_LINUX fuel) as loop.
  unfold bind at 1. unfold gets at 1. rewrite Hcan. cbv beta iota.
  rewrite (@bind_returned _ _ _ _ _ _ _ Hrecv).
  rewrite (@bind_returned _ _ _ _ _ _ _ Hproc).
  change (ReadResult.is_data_or_token (ReadResult.of_type ReadResult.Nothing))
    with false.
  cbv beta iota. unfold bind at 1. unfold gets at 1. cbv beta iota.
  reflexivity.
Qed.

(** X19.  A second set of duplicated part UUIDs is an error.  When [read]
    receives a [PartUUIDs] packet that offers a part the query already
    holds, on an executor that has already retried and on which the
    [cancel()] of the retry returns at its test (no query is pending on a
    read context, or a replica has failed), the connections are
    disconnected without a cancel packet and the call throws
    [DUPLICATED_PART_UUIDS]; the query is not sent again. *)
Theorem second_duplicate_is_an_error
        (fuel : nat) (s : Executor) (c : Connections) (a : Arrival)
        (rest : list Arrival) (d : UUID) (ds : list UUID) :
  was_cancelled s = false ->
  connections s = Some c ->
  inbound c = a :: rest ->
  Packet.type (arrived a) = Protocol.PartUUIDs ->
  known_part_uuids s (Packet.part_uuids (arrived a)) = d :: ds ->
  resent_query s = true ->
  isQueryPending s && negb (hasThrownException s) = false ->
  exists s',
    read_loop castColumn OS_LINUX (S fuel) s
    = (s', Thrown (mkException ErrorCodes.DUPLICATED_PART_UUIDS
                     "Found duplicate uuids while processing query"))
    /\ trace s' = trace s ++ [ReceivePacket Protocol.PartUUIDs; Disconnect]
    /\ duplicated_part_uuids s' = (d :: ds) ++ duplicated_part_uuids s.
Proof.
  intros Hcan Hc Hin Hty Hdup Hresent Hgate.
  rewrite (read_loop_duplicates fuel s Hcan Hc Hin Hty Hdup).
  unfold restartQueryWithoutDuplicatedUUIDs_under_lock.
  unfold bind at 1. rewrite cancel_under_lock_cases.
  match goal with
  | |- context [if isQueryPending ?st && negb (hasThrownException ?st) then _ else _] =>
      change (isQueryPending st && negb (hasThrownException st))
        with (isQueryPending s && negb (hasThrownException s))
  end.
  rewrite Hgate. cbv beta iota.
  unfold on_connections, the_connections. run_monad. simpl.
  rewrite Hresent. simpl.
  eexists. split; [reflexivity|]. simpl.
  split; [now rewrite <- app_assoc|reflexivity].
Qed.

(** X20.  The first set of duplicated part UUIDs, on the blocking path,
    ends in a deadlock.  When [read] receives a [PartUUIDs] packet that
    offers parts the query already holds, on an executor without a read
    context that has not retried yet, the connections are disconnected
    without a cancel packet, [resent_query] is set, new connections are
    created, and the re-entered [read()] stops in [sendQuery] at the lock on
    the mutex that the loop of the first [read()] still holds: the call
    never returns, and neither the parts to ignore nor the query are
    sent. *)
Theorem first_duplicate_deadlocks_the_blocking_read
        (fuel : nat) (s : Executor) (c : Connections) (a : Arrival)
        (rest : list Arrival) (d : UUID) (ds : list UUID) :
  read_context s = None ->
  was_cancelled s = false ->
  connections s = Some c ->
  inbound c = a :: rest ->
  Packet.type (arrived a) = Protocol.PartUUIDs ->
  known_part_uuids s (Packet.part_uuids (arrived a)) = d :: ds ->
  resent_query s = false ->
  skip_unavailable_shards (settings s)
  && (conn_size (create_connections s (created s)) =? 0) = false ->
  exists s',
    read_loop castColumn OS_LINUX (S fuel) s = (s', Deadlocked)
    /\ trace s' = trace s ++ [ReceivePacket Protocol.PartUUIDs; Disconnect]
    /\ connections s' = Some (create_connections s (created s))
    /\ created s' = S (created s)
    /\ resent_query s' = true
    /\ sent_query s' = false
    /\ was_cancelled s' = false
    /\ duplicated_part_uuids s' = (d :: ds) ++ duplicated_part_uuids s.
Proof.
  intros Hctx Hcan Hc Hin Hty Hdup Hresent Hskip.
  rewrite (read_loop_duplicates fuel s Hcan Hc Hin Hty Hdup).
  match goal with
  | |- exists s', restartQueryWithoutDuplicatedUUIDs_under_lock _ ?loop ?t = _ /\ _ =>
      destruct (@retry_under_lock_stops_in_sendQuery loop t
                  (mkConnections (conn_size c) rest (active_after a)
                                 (addresses c) (drained c))
                  Hctx eq_refl Hresent Hcan Hskip)
        as (s' & E & Ht & Hconn & Hcr & Hr & Hs & Hw & Hd)
  end.
  exists s'. split; [exact E|].
  rewrite Ht, Hconn, Hcr, Hr, Hs, Hw, Hd. simpl.
  repeat split. now rewrite <- app_assoc.
Qed.


End RetryInGeneral.

Lemma second_duplicate_is_an_error_witness :
  exists s',
    read_loop castColumn_example true 2 retried_executor
    = (s', Thrown (mkException ErrorCodes.DUPLICATED_PART_UUIDS
                     "Found duplicate uuids while processing query"))
    /\ trace s'
       = trace retried_executor ++ [ReceivePacket Protocol.PartUUIDs; Disconnect]
    /\ duplicated_part_uuids s' = [1%N] ++ duplicated_part_uuids retried_executor.
Proof.
  apply (@second_duplicate_is_an_error castColumn_example true 1 retried_executor
           (one_shard duplicate_second_attempt) (part_uuids_packet [1%N])
           [data_packet two_rows; end_of_stream false] 1%N []);
    vm_compute; reflexivity.
Defined.

Lemma first_duplicate_deadlocks_the_blocking_read_witness :
  exists s',
    read_loop castColumn_example true 4 retrying_executor = (s', Deadlocked)
    /\ trace s'
       = trace retrying_executor ++ [ReceivePacket Protocol.PartUUIDs; Disconnect]
    /\ connections s'
       = Some (create_connections retrying_executor (created retrying_executor))
    /\ created s' = S (created retrying_executor)
    /\ resent_query s' = true
    /\ sent_query s' = false
    /\ was_cancelled s' = false
    /\ duplicated_part_uuids s' = [1%N] ++ duplicated_part_uuids retrying_executor.
Proof.
  apply (@first_duplicate_deadlocks_the_blocking_read castColumn_example true 3
           retrying_executor
           (one_shard [part_uuids_packet [1; 2]%N; data_packet three_rows;
                       end_of_stream false])
           (part_uuids_packet [1; 2]%N)
           [data_packet three_rows; end_of_stream false] 1%N []);
    reflexivity.
Defined.


(* ================================================================== *)
(** * Reading through the read context after a cancellation *)
(* ================================================================== *)

Section AsyncAfterCancel.

Variable castColumn : ColumnWithTypeAndName -> DataType -> Outcome ColumnPtr.

Let cancelled (s : Executor) : Prop := was_cancelled s = true.
Let no_rows (r : ReadResult.t) (s : Executor) : Prop :=
  (r = ReadResult.of_block empty_block \/ exists d, r = ReadResult.of_fd d)
  /\ was_cancelled s = true.
Let no_rows_at_all (r : ReadResult.t) (s : Executor) : Prop :=
  r = ReadResult.of_block empty_block /\ was_cancelled s = true.

Lemma sendQuery_keeps_cancelled (kind : QueryKind.t) :
  preserves cancelled (sendQuery kind).
Proof.
  intros s Hs.
  destruct (sendQuery_when_cancelled s kind Hs) as (s1 & E & H1 & _).
  now rewrite E.
Qed.

Lemma ReadContext_resume_keeps_cancelled : preserves cancelled ReadContext_resume.
Proof.
  unfold ReadContext_resume, ReadContext_receive, update_read_context,
    the_read_context.
  preserve; try apply sendQuery_keeps_cancelled; unfold cancelled; kept.
Qed.

Lemma read_loop_cancelled (OS_LINUX : bool) (fuel : nat) :
  ensures cancelled (read_loop castColumn OS_LINUX fuel) no_rows_at_all.
Proof.
  destruct fuel as [|fuel]; simpl; [apply ensures_lift; discriminate|].
  apply ensures_bind_gets. intros s Hs s' r. rewrite Hs.
  intros E. injection E as <- <-. now split.
Qed.

Lemma read_cancelled (OS_LINUX : bool) (fuel : nat) :
  ensures cancelled (read castColumn OS_LINUX fuel) no_rows_at_all.
Proof.
  unfold read, read_with.
  apply ensures_bind; [preserve|intros sent].
  destruct (negb sent); [|apply read_loop_cancelled].
  apply ensures_bind; [apply sendQuery_keeps_cancelled|intros _].
  apply ensures_bind; [preserve|intros skip].
  apply ensures_bind; [destruct skip; preserve|intros none].
  destruct none; [|apply read_loop_cancelled].
  apply ensures_ret. intros s Hs. now split.
Qed.

Lemma readAsync_loop_cancelled (OS_LINUX : bool) (fuel : nat) :
  ensures cancelled (readAsync_loop castColumn OS_LINUX fuel) no_rows.
Proof.
  destruct fuel as [|fuel]; simpl; [apply ensures_lift; discriminate|].
  apply ensures_bind; [apply ReadContext_resume_keeps_cancelled|intros _].
  apply ensures_bind; [unfold needToSkipUnavailableShard; preserve|intros skip].
  destruct skip; [apply ensures_ret; intros s Hs; split; auto|].
  apply ensures_bind; [unfold the_read_context; preserve|intros ctx].
  destruct (rc_is_cancelled ctx); [apply ensures_ret; intros s Hs; split; auto|].
  destruct (rc_is_in_progress ctx);
    [apply ensures_ret; intros s Hs; split; eauto|].
  apply ensures_bind_gets. intros s Hs s' r. rewrite Hs.
  intros E. injection E as <- <-. split; auto.
Qed.

(** X21.  Once [was_cancelled] is set, [readAsync] hands no rows to the
    caller: whenever it returns, it returns the terminal empty block or, in
    a build for Linux, the descriptor to wait on, and [was_cancelled] is
    still set. *)
Theorem readAsync_returns_no_rows_once_cancelled
        (OS_LINUX : bool) (fuel : nat) (s s' : Executor) (r : ReadResult.t) :
  was_cancelled s = true ->
  readAsync castColumn OS_LINUX fuel s = (s', Returned r) ->
  (r = ReadResult.of_block empty_block
   \/ (OS_LINUX = true /\ exists d, r = ReadResult.of_fd d))
  /\ was_cancelled s' = true.
Proof.
  intros Hs E. unfold readAsync, readAsync_with in E.
  destruct OS_LINUX.
  - assert (H : ensures cancelled
                  (ctx <- gets read_context ;;
                   resent <- gets resent_query ;;
                   recreate <- gets recreate_read_context ;;
                   (if match ctx with None => true | Some _ => resent && recreate end
                    then ReadContext_create false ;;
                         modify (set_recreate_read_context false)
                    else ret tt) ;;
                   readAsync_loop castColumn true fuel)
                  no_rows).
    { do 3 (apply ensures_bind; [preserve|intros ?]).
      apply ensures_bind;
        [unfold ReadContext_create; preserve; unfold cancelled; kept|intros _].
      apply readAsync_loop_cancelled. }
    destruct (H s Hs s' r E) as ([->|(d & ->)] & Hc); split; eauto.
  - destruct (@read_cancelled false fuel s Hs s' r E) as (-> & Hc). split; auto.
Qed.

End AsyncAfterCancel.

Lemma readAsync_returns_no_rows_once_cancelled_witness :
  (ReadResult.of_block empty_block = ReadResult.of_block empty_block
   \/ (true = true /\ exists d, ReadResult.of_block empty_block = ReadResult.of_fd d))
  /\ was_cancelled (fst (readAsync castColumn_example true 3 cancelled_executor))
     = true.
Proof.
  apply (@readAsync_returns_no_rows_once_cancelled castColumn_example true 3
           cancelled_executor
           (fst (readAsync castColumn_example true 3 cancelled_executor))
           (ReadResult.of_block empty_block)).
  - reflexivity.
  - vm_compute. reflexivity.
Defined.

(* ================================================================== *)
(** * The destructor *)
(* ================================================================== *)

(** X22.  What the destructor does at the end of a lifetime in which no
    send is under way.  Without a read context it never disconnects, even
    in the middle of a stream.  After a [finish] that drained to the end
    of the stream it does not disconnect either.  After a [cancel] alone
    on a pending query it disconnects the connections: the cancel packet
    is not followed by a drain. *)
Theorem destructor_disconnects_a_pending_query (s : Executor) (c : Connections) :
  established s = false ->
  (read_context s = None -> destructor s = (s, Returned tt))
  /\ (isQueryPending s = true ->
      hasThrownException s = false ->
      connections s = Some c ->
      sent_query s = true ->
      Packet.type (drained c) = Protocol.EndOfStream ->
      destructor (fst (finish s)) = (fst (finish s), Returned tt))
  /\ (isQueryPending s = true ->
      connections s = Some c ->
      destructor (fst (cancel s))
      = (set_trace (trace (fst (cancel s)) ++ [Disconnect]) (fst (cancel s)),
         Returned tt)).
Proof.
  intros He. repeat split.
  - intros Hctx. unfold destructor. run_monad. unfold isQueryPending.
    now rewrite He, Hctx.
  - intros Hp Ht Hc Hs Hd.
    unfold isQueryPending, hasThrownException in *.
    destruct s; simpl in *. subst.
    destruct read_context0 as [ctx|]; [|discriminate Hp].
    destruct finished0; [discriminate Hp|].
    destruct got_exception_from_replica0; [discriminate Ht|].
    destruct got_unknown_packet_from_replica0; [discriminate Ht|].
    destruct c as [n inb act addr dr]. destruct dr as [ty b e p pi pu rq an].
    simpl in Hd. subst ty.
    destruct was_cancelled0; vm_compute; reflexivity.
  - intros Hp Hc.
    unfold isQueryPending in *.
    destruct s; simpl in *. subst.
    destruct read_context0 as [ctx|]; [|discriminate Hp].
    destruct finished0; [discriminate Hp|].
    destruct got_exception_from_replica0, got_unknown_packet_from_replica0,
      was_cancelled0, sent_query0; vm_compute; reflexivity.
Qed.

Lemma destructor_disconnects_a_pending_query_witness :
  destructor (fst (cancel pending_executor))
  = (set_trace (trace (fst (cancel pending_executor)) ++ [Disconnect])
               (fst (cancel pending_executor)),
     Returned tt).
Proof.
  apply (proj2 (proj2 (@destructor_disconnects_a_pending_query pending_executor
                         (one_shard happy_stream) eq_refl)));
    reflexivity.
Defined.

(* ================================================================== *)
(** * Sending through the read context *)
(* ================================================================== *)

Lemma ensures_weaken {A : Type} (P P' : Executor -> Prop) (m : M A)
      (Q : A -> Executor -> Prop) :
  (forall s, P' s -> P s) -> ensures P m Q -> ensures P' m Q.
Proof. intros HP Hm s Hs. apply Hm. now apply HP. Qed.

(** What follows [the_read_context] runs with the context that is there. *)
Lemma ensures_the_read_context {B : Type} (P : Executor -> Prop)
      (k : ReadContext -> M B) (Q : B -> Executor -> Prop) :
  (forall ctx, ensures (fun s => P s /\ read_context s = Some ctx) (k ctx) Q) ->
  ensures P (bind the_read_context k) Q.
Proof.
  intros Hk s Hs s' b E. cbv [bind the_read_context gets lift deref] in E.
  destruct (read_context s) as [ctx|] eqn:Hctx; simpl in E; [|discriminate E].
  exact (Hk ctx s (conj Hs Hctx) s' b E).
Qed.

Section SendAsync.

Let running (s : Executor) : Prop :=
  finished s = false /\ hasThrownException s = false.

Ltac running_kept :=
  let H1 := fresh "H" in
  let H2 := fresh "H" in
  unfold running; intros ? [H1 H2]; split;
  unfold hasThrownException in *; simpl in *; assumption.

Lemma ReadContext_resume_running : preserves running ReadContext_resume.
Proof. unfold ReadContext_resume. kept_by_blocks_with running_kept. Qed.

Lemma sendQueryAsync_running :
  ensures running sendQueryAsync
          (fun _ s' => running s' /\ read_context s' <> None).
Proof.
  unfold sendQueryAsync.
  apply ensures_bind; [preserve|intros ctx].
  apply ensures_bind;
    [destruct ctx; unfold ReadContext_create; preserve; running_kept|intros _].
  apply ensures_the_read_context. intros ctx1.
  destruct (rc_is_query_sent ctx1).
  { apply ensures_ret. intros s (Hs & Hctx). split; [exact Hs|congruence]. }
  apply ensures_weaken with (P := running); [now intros s (Hs & _)|].
  apply ensures_bind; [apply ReadContext_resume_running|intros _].
  apply ensures_the_read_context. intros ctx2.
  destruct (negb (rc_is_query_sent ctx2));
    apply ensures_ret; intros s (Hs & Hctx); (split; [exact Hs|congruence]).
Qed.

(** X23.  [sendQueryAsync] puts the executor on the path on which a query
    can be cancelled: once it has returned, on an executor that has not
    finished and has not failed, a read context exists, the query counts
    as pending, and [cancel] sets [was_cancelled]. *)
Theorem sendQueryAsync_makes_the_query_cancellable (s s' : Executor) (fd : Z) :
  finished s = false ->
  hasThrownException s = false ->
  sendQueryAsync s = (s', Returned fd) ->
  isQueryPending s' = true
  /\ was_cancelled (fst (cancel s')) = true.
Proof.
  intros Hf Ht E.
  destruct (sendQueryAsync_running (conj Hf Ht) E) as ((Hf' & Ht') & Hctx).
  assert (Hp : isQueryPending s' = true).
  { unfold isQueryPending. destruct (read_context s'); [|congruence].
    now rewrite Hf'. }
  split; [exact Hp|].
  exact (cancel_sets_was_cancelled s' Hp Ht').
Qed.

End SendAsync.

Lemma sendQueryAsync_makes_the_query_cancellable_witness :
  isQueryPending pending_executor = true
  /\ was_cancelled (fst (cancel pending_executor)) = true.
Proof.
  apply (@sendQueryAsync_makes_the_query_cancellable sync_executor pending_executor
           (-1)%Z);
    vm_compute; reflexivity.
Defined.

(* ================================================================== *)
(** * After the end of the stream *)
(* ================================================================== *)

(** Closes the goals about a state update that keeps or sets [finished]
    and appends at most a packet that ends nothing. *)
Ltac ended_kept :=
  let H1 := fresh "H" in
  let H2 := fresh "H" in
  intros ? [H1 H2]; split;
  [ simpl; first [assumption | reflexivity]
  | simpl (trace _); rewrite ?teardowns_app;
    cbn [teardowns filter is_teardown List.length] in *; lia ].

Section AfterTheEnd.

Variable castColumn : ColumnWithTypeAndName -> DataType -> Outcome ColumnPtr.
Variable OS_LINUX : bool.

Lemma isQueryPending_finished (s : Executor) :
  finished s = true -> isQueryPending s = false.
Proof. unfold isQueryPending. intros ->. now destruct (read_context s). Qed.

Lemma teardowns_kept_after_the_end (n : nat) (calls : list ApiCall) (s : Executor) :
  finished s = true ->
  teardowns (trace s) = n ->
  finished (run_api castColumn OS_LINUX calls s) = true
  /\ teardowns (trace (run_api castColumn OS_LINUX calls s)) = n.
Proof.
  intros Hs1 Hs2.
  apply (@run_api_kept castColumn OS_LINUX
           (fun st => finished st = true /\ teardowns (trace st) = n));
    try (split; assumption).
  - intros kind st [H1 H2]. split.
    + clear H2. revert st H1.
      change (preserves (fun st => finished st = true) (sendQuery kind)).
      kept_by_blocks.
    + destruct (sendQuery_cases st kind)
        as (s' & E & _ & [(Ht & _) | (_ & _ & _ & _ & _ & m & Ht)]);
        rewrite E; simpl; rewrite Ht; [exact H2|].
      now rewrite teardowns_app, query_packets_teardowns, H2.
  - intros; kept_by_blocks_with ended_kept.
  - unfold cancel. apply preserves_bind; [apply preserves_modify; ended_kept|intros _].
    apply preserves_bind_gets. intros st [H1 H2].
    unfold bind, gets. rewrite (isQueryPending_finished st H1). now split.
  - unfold finish. apply preserves_bind_gets. intros st [H1 H2].
    unfold bind, gets. rewrite (isQueryPending_finished st H1). now split.
  - kept_by_blocks_with ended_kept.
  - kept_by_blocks_with ended_kept.
  - unfold on_connections. preserve. ended_kept.
  - intros st _. revert st. ended_kept.
  - intros c. ended_kept.
  - intros b. ended_kept.
  - kept_by_blocks_with ended_kept.
  - kept_by_blocks_with ended_kept.
Qed.

(** X24.  Once the stream has finished, the executor never sends a cancel
    packet and never drains its connections, whatever calls are made:
    no query is pending any more, so that [cancel] and [finish] return
    before they reach [tryCancel]. *)
Theorem no_teardown_after_the_end (calls : list ApiCall) (s : Executor) :
  finished s = true ->
  finished (run_api castColumn OS_LINUX calls s) = true
  /\ teardowns (trace (run_api castColumn OS_LINUX calls s)) = teardowns (trace s).
Proof.
  intros Hs. now apply teardowns_kept_after_the_end.
Qed.

End AfterTheEnd.

Lemma no_teardown_after_the_end_witness :
  finished finished_executor = true
  /\ teardowns
       (trace (run_api castColumn_example true [ApiCancel; ApiFinish; ApiReadAsync 4]
                       finished_executor))
     = teardowns (trace finished_executor).
Proof.
  split; [vm_compute; reflexivity|].
  apply no_teardown_after_the_end. vm_compute. reflexivity.
Defined.

(* ================================================================== *)
(** * The parts to ignore *)
(* ================================================================== *)

(** Closes the goals about a state update that leaves the duplicated part
    UUIDs alone or puts more in front of them. *)
Ltac duplicates_kept :=
  intros ? [? ?]; simpl;
  first [ eexists; eassumption
        | match goal with
          | H : duplicated_part_uuids _ = ?x ++ _
            |- exists _, ?u :: ?l ++ _ = _ =>
              rewrite H; exists (u :: l ++ x); simpl; rewrite app_assoc;
              reflexivity
          end ].

Section DuplicatedParts.

Variable castColumn : ColumnWithTypeAndName -> DataType -> Outcome ColumnPtr.
Variable OS_LINUX : bool.

(** X25.  The executor never forgets a duplicated part UUID: whatever
    calls are made, [duplicated_part_uuids] only grows at its front, so
    that every later [sendQuery] asks the replicas to ignore every
    duplicate found so far. *)
Theorem duplicated_part_uuids_only_grow (calls : list ApiCall) (s : Executor) :
  exists found,
    duplicated_part_uuids (run_api castColumn OS_LINUX calls s)
    = found ++ duplicated_part_uuids s.
Proof.
  apply (@run_api_kept castColumn OS_LINUX
           (fun st => exists found,
                duplicated_part_uuids st = found ++ duplicated_part_uuids s)).
  - intros; kept_by_blocks_with duplicates_kept.
  - intros; kept_by_blocks_with duplicates_kept.
  - kept_by_blocks_with duplicates_kept.
  - kept_by_blocks_with duplicates_kept.
  - kept_by_blocks_with duplicates_kept.
  - kept_by_blocks_with duplicates_kept.
  - unfold on_connections. preserve. duplicates_kept.
  - intros st _. revert st. duplicates_kept.
  - intros c. duplicates_kept.
  - intros b. duplicates_kept.
  - kept_by_blocks_with duplicates_kept.
  - kept_by_blocks_with duplicates_kept.
  - now exists [].
Qed.

End DuplicatedParts.
